(** * not-broadway: theater show scrapers

    A shallow embedding of the normalisation core of the scrapers
    (src/scraper/utils/parsing.py, src/scraper/base/data_schema.py,
    src/scraper/base/base_scraper.py and
    src/scraper/platforms/wordpress_spektrix.py) and the properties of
    the specification checked against it.

    Python values are modelled as follows: a [str] is the list of its
    Unicode code points ([pystr]); an [int] used as an index is a [Z];
    [None] is [None] of an option; a raised exception is the [Raise]
    branch of [exc]; a [dict] is an association list kept in insertion
    order. *)

From Stdlib Require Import String Ascii List ZArith NArith Bool Lia.
From Stdlib Require PrimFloat.
Import ListNotations.

Local Open Scope Z_scope.
Set Warnings "-register-all".

(* ===================================================================== *)
(** * Python strings *)
(* ===================================================================== *)

Module PyStr.

(** A Python [str]: a sequence of Unicode code points. *)
Definition pystr := list N.

(** An ASCII literal of the source, as code points. *)
Definition py (s : string) : pystr :=
  map N_of_ascii (list_ascii_of_string s).

(** A literal in which the backquote stands for the double quote. *)
Definition pyq (s : string) : pystr :=
  map (fun c => if (c =? 96)%N then 34%N else c) (py s).

(** [len(s)] *)
Definition len (s : pystr) : Z := Z.of_nat (length s).

(** [str.isspace] on one code point, which is also what [\s] matches in a
    [str] pattern and what [str.strip()] removes (Py_UNICODE_ISSPACE). *)
Definition is_space (c : N) : bool :=
  ((9 <=? c) && (c <=? 13) || (28 <=? c) && (c <=? 32)
   || (c =? 133) || (c =? 160) || (c =? 5760)
   || (8192 <=? c) && (c <=? 8202)
   || (c =? 8232) || (c =? 8233) || (c =? 8239) || (c =? 8287)
   || (c =? 12288))%N.

(** [s.lstrip()], [s.rstrip()], [s.strip()] *)
Fixpoint lstrip (s : pystr) : pystr :=
  match s with
  | c :: s' => if is_space c then lstrip s' else s
  | [] => []
  end.

Definition rstrip (s : pystr) : pystr := rev (lstrip (rev s)).

Definition strip (s : pystr) : pystr := rstrip (lstrip s).

(** [s.lstrip(ch)] and [s.rstrip(ch)] with a one-character argument. *)
Fixpoint lstrip_char (ch : N) (s : pystr) : pystr :=
  match s with
  | c :: s' => if (c =? ch)%N then lstrip_char ch s' else s
  | [] => []
  end.

Definition rstrip_char (ch : N) (s : pystr) : pystr :=
  rev (lstrip_char ch (rev s)).

(** [s.startswith(p)] *)
Fixpoint startswith (s p : pystr) : bool :=
  match p, s with
  | [], _ => true
  | a :: p', b :: s' => (a =? b)%N && startswith s' p'
  | _ :: _, [] => false
  end.

(** [sub in s] *)
Fixpoint str_in (sub s : pystr) : bool :=
  startswith s sub ||
  match s with
  | [] => false
  | _ :: s' => str_in sub s'
  end.

(** [s.find(sub, start, stop)]: the lowest index in [s[start:stop]] at which
    [sub] occurs, or [-1].  Negative bounds count from the end and are then
    clamped, as slice bounds are. *)
Fixpoint find_from (sub s : pystr) (i : Z) : Z :=
  if startswith s sub then i
  else match s with
       | [] => -1
       | _ :: s' => find_from sub s' (i + 1)
       end.

Definition slice_bound (n i : Z) : Z :=
  if i <? 0 then Z.max 0 (i + n) else Z.min i n.

Definition slice (s : pystr) (a b : Z) : pystr :=
  let a' := slice_bound (len s) a in
  let b' := slice_bound (len s) b in
  firstn (Z.to_nat (b' - a')) (skipn (Z.to_nat a') s).

Definition find (s sub : pystr) (start stop : Z) : Z :=
  let a := slice_bound (len s) start in
  let b := slice_bound (len s) stop in
  if (len s <? start) || (b <? a) then -1
  else find_from sub (slice s start stop) a.

(** [s[:n]] for [0 <= n] and [s[i:j]] for [0 <= i <= j]. *)
Definition take (n : Z) (s : pystr) : pystr := firstn (Z.to_nat n) s.

(** [s.replace(old, new)]: the occurrences of [old] are replaced from left
    to right, without overlap.  [skip] counts the characters of an
    occurrence that are still to be passed over. *)
Fixpoint replace_go (old new s : pystr) (skip : nat) : pystr :=
  match s with
  | [] => []
  | c :: s' =>
      match skip with
      | S n => replace_go old new s' n
      | O => if startswith s old
             then new ++ replace_go old new s' (length old - 1)
             else c :: replace_go old new s' 0
      end
  end.

Definition replace (old new s : pystr) : pystr :=
  match old with
  | [] => new ++ flat_map (fun c => c :: new) s
  | _ :: _ => replace_go old new s 0
  end.

(** [s.split(sep, 1)] for a non-empty [sep]: the whole string when [sep]
    does not occur, and else what is before and what is after its first
    occurrence. *)
Fixpoint split1 (sep s : pystr) : list pystr :=
  if startswith s sep then [[]; skipn (length sep) s]
  else match s with
       | [] => [[]]
       | c :: s' =>
           match split1 sep s' with
           | l :: rest => (c :: l) :: rest
           | [] => []
           end
       end.

(** [a <= b] on strings: the order of the code points, the first
    difference deciding. *)
Fixpoint str_leb (a b : pystr) : bool :=
  match a, b with
  | [], _ => true
  | _ :: _, [] => false
  | x :: a', y :: b' =>
      if (x <? y)%N then true
      else if (y <? x)%N then false
      else str_leb a' b'
  end.

(** [sep] occurs at none of the first [n] positions of [text]. *)
Fixpoint no_earlier (sep text : pystr) (n : nat) : bool :=
  match n with
  | O => true
  | S n' =>
      negb (startswith text sep) &&
      match text with
      | [] => true
      | _ :: text' => no_earlier sep text' n'
      end
  end.

End PyStr.
Export PyStr.

(* ===================================================================== *)
(** * Exceptions and dynamically typed values *)
(* ===================================================================== *)

Module Py.

(** The exception classes that occur.  [KeyboardInterrupt] and [SystemExit]
    derive from [BaseException] only: [except Exception] lets them pass. *)
Inductive exn_class : Type :=
| ValueError
| TypeError
| AttributeError
| KeyError
| OverflowError
| RuntimeError
| AssertionError
| KeyboardInterrupt
| SystemExit.

Definition is_Exception (c : exn_class) : bool :=
  match c with
  | KeyboardInterrupt | SystemExit => false
  | _ => true
  end.

(** An exception object: its class and its message, [str(e)]. *)
Record exn : Type := Exn { exn_cls : exn_class; exn_str : pystr }.

(** The outcome of running code that may raise. *)
Inductive exc (A : Type) : Type :=
| Return (a : A)
| Raise (e : exn).
Arguments Return {A} a.
Arguments Raise {A} e.

Definition bind {A B : Type} (m : exc A) (f : A -> exc B) : exc B :=
  match m with
  | Return a => f a
  | Raise e => Raise e
  end.

(** [try: body except (classes): handler] *)
Definition try_except {A : Type} (body : exc A) (catches : exn_class -> bool)
    (handler : exn -> exc A) : exc A :=
  match body with
  | Return a => Return a
  | Raise e => if catches (exn_cls e) then handler e else Raise e
  end.

(** A value of unknown type, as [json] decoding produces them. *)
Inductive value : Type :=
| PNone
| PBool (b : bool)
| PInt (z : Z)
| PFloat (f : PrimFloat.float)
| PStr (s : pystr)
| PList (l : list value)
| PDict (d : list (pystr * value)).

(** Truth value of a value, as [if v:] and [not v] test it. *)
Definition truthy (v : value) : bool :=
  match v with
  | PNone => false
  | PBool b => b
  | PInt z => negb (z =? 0)
  | PFloat f => negb (PrimFloat.eqb f PrimFloat.zero)
  | PStr s => match s with [] => false | _ => true end
  | PList l => match l with [] => false | _ => true end
  | PDict d => match d with [] => false | _ => true end
  end.

Definition str_eqb (a b : pystr) : bool :=
  if list_eq_dec N.eq_dec a b then true else false.

(** Dictionaries: association lists in insertion order, one entry a key. *)
Fixpoint lookup {V : Type} (d : list (pystr * V)) (key : pystr) : option V :=
  match d with
  | [] => None
  | (k, v) :: d' => if str_eqb k key then Some v else lookup d' key
  end.

(** [d[key] = v] *)
Fixpoint setitem {V : Type} (d : list (pystr * V)) (key : pystr) (v : V)
    : list (pystr * V) :=
  match d with
  | [] => [(key, v)]
  | (k, w) :: d' =>
      if str_eqb k key then (k, v) :: d' else (k, w) :: setitem d' key v
  end.

(** [key in d] *)
Definition has_key {V : Type} (d : list (pystr * V)) (key : pystr) : bool :=
  match lookup d key with Some _ => true | None => false end.

(** [d.get(key, default)] *)
Definition get {V : Type} (d : list (pystr * V)) (key : pystr) (default : V) : V :=
  match lookup d key with Some v => v | None => default end.

(** A calendar date, as [datetime.date] holds it. *)
Record date : Type := Date { year : Z; month : Z; day : Z }.

(** What the model takes from outside the repository: libraries, the clock
    and the Unicode tables beyond ASCII. *)
Class Externals : Type := {
  (** [dateutil.parser.parse(s, fuzzy=True).date()], or what it raises *)
  dateutil_parse : pystr -> exc date;
  (** whether [\d] matches a code point above 127 (category Nd) *)
  uni_isdecimal : N -> bool;
  (** the lowercase of a code point above 127, between what is before it
      and what is after it in the string *)
  uni_lower : pystr -> N -> pystr -> pystr;
  (** [str(v)] *)
  py_str : value -> pystr;
  (** [datetime.utcnow().isoformat()] *)
  utcnow_isoformat : pystr;
  (** whether [datetime.fromisoformat(s)] accepts [s] *)
  fromisoformat_ok : pystr -> bool
}.

Section Lower.
Context {E : Externals}.

Definition lower_char (before : pystr) (c : N) (after : pystr) : pystr :=
  if ((65 <=? c) && (c <=? 90))%N then [(c + 32)%N]
  else if (c <? 128)%N then [c]
  else uni_lower before c after.

Fixpoint lower_go (before s : pystr) : pystr :=
  match s with
  | [] => []
  | c :: after => lower_char before c after ++ lower_go (before ++ [c]) after
  end.

(** [s.lower()] *)
Definition lower (s : pystr) : pystr := lower_go [] s.

(** What [\d] matches in a [str] pattern. *)
Definition is_digit (c : N) : bool :=
  if (c <? 128)%N then ((48 <=? c) && (c <=? 57))%N else uni_isdecimal c.

End Lower.

End Py.
Export Py.

Notation "x <- m ;; f" := (bind m (fun x => f))
  (at level 61, m at next level, right associativity).

(* ===================================================================== *)
(** * Regular expressions of the [re] module *)
(* ===================================================================== *)

Module Re.

(** The fragment of [re] patterns the sources use.  Repetition is only
    applied to single-character classes in them, so [Star] takes a class.
    Matching is by backtracking with the priorities of [re]: the left
    alternative first, and greedy repetition and option. *)
Inductive regex : Type :=
| Eps
| Chr (p : N -> bool)
| Seq (r1 r2 : regex)
| Alt (r1 r2 : regex)
| Opt (r : regex)
| Star (p : N -> bool)
| Group (n : nat) (r : regex).

Declare Scope re_scope.
Delimit Scope re_scope with re.
Bind Scope re_scope with regex.
Notation "r1 >> r2" := (Seq r1 r2)
  (at level 60, right associativity) : re_scope.

Definition Plus (p : N -> bool) : regex := Seq (Chr p) (Star p).

(** One given character. *)
Definition Ch (c : string) : regex :=
  Chr (fun x => existsb (N.eqb x) (py c)).

(** A literal string; [eqc] compares a pattern character with one of the
    text. *)
Definition Lit_with (eqc : N -> N -> bool) (s : string) : regex :=
  fold_right (fun c r => Seq (Chr (eqc c)) r) Eps (py s).

Definition Lit (s : string) : regex := Lit_with N.eqb s.

(** Comparison of an ASCII letter [p] of a pattern with a character [c] of
    the text under [re.IGNORECASE]: the lowercase of [c] is [p], or [c] is
    one of the two letters the module pairs with [i] and [s] (dotless i,
    long s).  Only the code points whose lowercase is an ASCII letter
    matter: the capitals, U+0130 (i) and U+212A (k). *)
Definition ascii_lowercase_of (c : N) : N :=
  if ((65 <=? c) && (c <=? 90))%N then (c + 32)%N
  else if (c =? 304)%N then 105%N
  else if (c =? 8490)%N then 107%N
  else c.

Definition eq_ignorecase (p c : N) : bool :=
  ((ascii_lowercase_of c =? p)
   || (p =? 105) && (c =? 305)
   || (p =? 115) && (c =? 383))%N.

Definition Lit_i (s : string) : regex := Lit_with eq_ignorecase s.

(** The groups captured so far, the latest first. *)
Definition groups := list (nat * pystr).

(** [m.group(n)] of a group that took part in the match. *)
Fixpoint group (g : groups) (n : nat) : pystr :=
  match g with
  | [] => []
  | (m, s) :: g' => if Nat.eqb m n then s else group g' n
  end.

Fixpoint star {A : Type} (p : N -> bool) (s : pystr)
    (k : pystr -> option A) : option A :=
  match s with
  | c :: s' =>
      if p c then
        match star p s' k with
        | Some x => Some x
        | None => k s
        end
      else k s
  | [] => k []
  end.

(** [rmatch r s g k]: match [r] at the head of [s]; [k] is what remains to
    be matched, called on the rest of the text and the groups. *)
Fixpoint rmatch {A : Type} (r : regex) (s : pystr) (g : groups)
    (k : pystr -> groups -> option A) : option A :=
  match r with
  | Eps => k s g
  | Chr p =>
      match s with
      | c :: s' => if p c then k s' g else None
      | [] => None
      end
  | Seq r1 r2 => rmatch r1 s g (fun s1 g1 => rmatch r2 s1 g1 k)
  | Alt r1 r2 =>
      match rmatch r1 s g k with
      | Some x => Some x
      | None => rmatch r2 s g k
      end
  | Opt r1 =>
      match rmatch r1 s g k with
      | Some x => Some x
      | None => k s g
      end
  | Star p => star p s (fun s1 => k s1 g)
  | Group n r1 =>
      rmatch r1 s g
        (fun s1 g1 => k s1 ((n, firstn (length s - length s1) s) :: g1))
  end.

(** [re.match]: the rest of the text after the match, and the groups. *)
Definition match_here (r : regex) (s : pystr) : option (pystr * groups) :=
  rmatch r s [] (fun rest g => Some (rest, g)).

(** A match object: [m.start()], [m.end()] and the groups. *)
Record match_obj : Type := MatchObj {
  m_start : Z;
  m_end : Z;
  m_groups : groups
}.

(** [re.search(r, s)]: the leftmost match. *)
Fixpoint search_from (r : regex) (s : pystr) (i : Z) : option match_obj :=
  match match_here r s with
  | Some (rest, g) => Some (MatchObj i (i + len s - len rest) g)
  | None =>
      match s with
      | [] => None
      | _ :: s' => search_from r s' (i + 1)
      end
  end.

Definition search (r : regex) (s : pystr) : option match_obj :=
  search_from r s 0.

(** [re.sub(r, repl, s)] for a pattern that never matches the empty string:
    the matches are replaced from left to right, without overlap.  [repl]
    builds the replacement from the groups; [skip] counts the characters of
    a match still to be passed over. *)
Fixpoint sub_go (r : regex) (repl : groups -> pystr) (s : pystr)
    (skip : nat) : pystr :=
  match s with
  | [] => []
  | c :: s' =>
      match skip with
      | S n => sub_go r repl s' n
      | O =>
          match match_here r s with
          | Some (rest, g) =>
              repl g ++ sub_go r repl s' (length s - length rest - 1)
          | None => c :: sub_go r repl s' 0
          end
      end
  end.

Definition sub (r : regex) (repl : groups -> pystr) (s : pystr) : pystr :=
  sub_go r repl s 0.

End Re.

(* ===================================================================== *)
(** * src/scraper/utils/parsing.py *)
(* ===================================================================== *)

Module Parsing.
Import Re.
Local Open Scope re_scope.

(** [date.isoformat()]: ["%04d-%02d-%02d"] *)
Definition digit (n : Z) : N := (48 + Z.to_N (n mod 10))%N.

Definition isoformat (d : date) : pystr :=
  [digit (year d / 1000); digit (year d / 100); digit (year d / 10);
   digit (year d)] ++ py "-" ++
  [digit (month d / 10); digit (month d)] ++ py "-" ++
  [digit (day d / 10); digit (day d)].

(** The en dash of the separators and of the price pattern, U+2013. *)
Definition en_dash : N := 8211%N.

(** The separators of [parse_date_range], in the order of the source:
    [' to ', ' - ', ' \u2013 ', ' through ', '\u2013', '-']. *)
Definition separators : list pystr :=
  [ py " to "; py " - "; [32%N; en_dash; 32%N]; py " through ";
    [en_dash]; py "-" ].

(** The entity replacements of [clean_text], in the order of the source. *)
Definition entities : list (pystr * pystr) :=
  [ (py "&amp;", py "&");
    (py "&nbsp;", py " ");
    (py "&quot;", [34%N]);
    (py "&#8217;", py "'");
    (py "&#8220;", [34%N]);
    (py "&#8221;", [34%N]) ].

Definition decode_entities (text : pystr) : pystr :=
  fold_left (fun t e => replace (fst e) (snd e) t) entities text.

(** The pattern [\s+] *)
Definition ws_run : regex := Plus is_space.

(** [clean_text] *)
Definition clean_text (text : pystr) : pystr :=
  match text with
  | [] => []
  | _ :: _ =>
      let text := sub ws_run (fun _ => py " ") text in
      let text := strip text in
      decode_entities text
  end.

Section WithExternals.
Context {E : Externals}.

(** [parse_date]: [ValueError] and [TypeError] of the parser give [None],
    any other exception passes. *)
Definition parse_date (date_string : pystr) : exc (option pystr) :=
  match date_string with
  | [] => Return None
  | _ :: _ =>
      try_except
        (parsed_date <- dateutil_parse date_string ;;
         Return (Some (isoformat parsed_date)))
        (fun c => match c with ValueError | TypeError => true | _ => false end)
        (fun _ => Return None)
  end.

(** The loop of [parse_date_range] over the separators. *)
Fixpoint parse_date_range_loop (seps : list pystr) (date_range_string : pystr)
    : exc (option pystr * option pystr) :=
  match seps with
  | [] =>
      single_date <- parse_date date_range_string ;;
      match single_date with
      | Some (_ :: _) => Return (single_date, single_date)
      | _ => Return (None, None)
      end
  | sep :: seps' =>
      if str_in sep date_range_string then
        match split1 sep date_range_string with
        | [part0; part1] =>
            start <- parse_date (strip part0) ;;
            end_ <- parse_date (strip part1) ;;
            Return (start, end_)
        | _ => parse_date_range_loop seps' date_range_string
        end
      else parse_date_range_loop seps' date_range_string
  end.

(** [parse_date_range] *)
Definition parse_date_range (date_range_string : pystr)
    : exc (option pystr * option pystr) :=
  match date_range_string with
  | [] => Return (None, None)
  | _ :: _ => parse_date_range_loop separators date_range_string
  end.

(** [\d+(?:\.\d{2})?] *)
Definition amount : regex :=
  Plus is_digit >> Opt (Ch "." >> Chr is_digit >> Chr is_digit).

Definition is_dash (c : N) : bool := ((c =? 45) || (c =? en_dash))%N.

(** [\$\s*(\d+(?:\.\d{2})?)\s*[-\u2013]\s*\$?\s*(\d+(?:\.\d{2})?)] *)
Definition range_pattern : regex :=
  Ch "$" >> Star is_space >> Group 1 amount >> Star is_space >>
  Chr is_dash >> Star is_space >> Opt (Ch "$") >> Star is_space >>
  Group 2 amount.

(** [(?:starting\s+at|from)\s*\$\s*(\d+(?:\.\d{2})?)], with
    [re.IGNORECASE] *)
Definition starting_pattern : regex :=
  Alt (Lit_i "starting" >> Plus is_space >> Lit_i "at") (Lit_i "from") >>
  Star is_space >> Ch "$" >> Star is_space >> Group 1 amount.

(** [\$\s*(\d+(?:\.\d{2})?)] *)
Definition single_pattern : regex :=
  Ch "$" >> Star is_space >> Group 1 amount.

(** [extract_price_range] *)
Definition extract_price_range (text : pystr) : option pystr :=
  match text with
  | [] => None
  | _ :: _ =>
      match search range_pattern text with
      | Some range_match =>
          Some (py "$" ++ group (m_groups range_match) 1 ++ py "-$"
                ++ group (m_groups range_match) 2)
      | None =>
          match search starting_pattern text with
          | Some starting_match =>
              Some (py "$" ++ group (m_groups starting_match) 1 ++ py "+")
          | None =>
              match search single_pattern text with
              | Some single_match =>
                  Some (py "$" ++ group (m_groups single_match) 1)
              | None => None
              end
          end
      end
  end.

(** [normalize_url] *)
Definition normalize_url (url base_url : pystr) : pystr :=
  match url with
  | [] => []
  | _ :: _ =>
      if startswith url (py "http://") || startswith url (py "https://")
      then url
      else if startswith url (py "//") then py "https:" ++ url
      else
        let base := rstrip_char 47%N base_url in
        let path := lstrip_char 47%N url in
        base ++ py "/" ++ path
  end.

End WithExternals.

End Parsing.

(* ===================================================================== *)
(** * src/scraper/base/data_schema.py *)
(* ===================================================================== *)

Module DataSchema.

(** [ShowStatus] *)
Inductive ShowStatus : Type :=
| UPCOMING
| RUNNING
| CLOSED
| CANCELED
| POSTPONED.

(** [status.value] *)
Definition status_value (s : ShowStatus) : pystr :=
  match s with
  | UPCOMING => py "upcoming"
  | RUNNING => py "running"
  | CLOSED => py "closed"
  | CANCELED => py "canceled"
  | POSTPONED => py "postponed"
  end.

(** [ShowDates] *)
Record ShowDates : Type := mkShowDates {
  start : option pystr;
  end_ : option pystr;
  schedule : option pystr
}.

(** [Show], once constructed. *)
Record Show : Type := mkShow {
  theater_name : pystr;
  theater_url : pystr;
  show_title : pystr;
  playwright : option pystr;
  director : option pystr;
  dates : option ShowDates;
  venue : option pystr;
  description : option pystr;
  ticket_url : option pystr;
  price_range : option pystr;
  genres : list pystr;
  cast : list pystr;
  runtime : option pystr;
  image_url : option pystr;
  status : ShowStatus;
  scraped_at : pystr;
  scraper_version : pystr;
  scraper_type : option pystr
}.

(** What the [dates] argument of the constructor may be: a [ShowDates] or a
    dictionary of its fields. *)
Inductive dates_arg : Type :=
| DatesObj (d : ShowDates)
| DatesDict (d : list (pystr * option pystr)).

(** The arguments of [Show(...)]. *)
Record ShowArgs : Type := mkShowArgs {
  a_theater_name : pystr;
  a_theater_url : pystr;
  a_show_title : pystr;
  a_playwright : option pystr;
  a_director : option pystr;
  a_dates : option dates_arg;
  a_venue : option pystr;
  a_description : option pystr;
  a_ticket_url : option pystr;
  a_price_range : option pystr;
  a_genres : list pystr;
  a_cast : list pystr;
  a_runtime : option pystr;
  a_image_url : option pystr;
  a_status : ShowStatus;
  a_scraped_at : pystr;
  a_scraper_version : pystr;
  a_scraper_type : option pystr
}.

(** The defaults of the dataclass: only the three required fields given. *)
Definition default_args {E : Externals} (theater_name theater_url show_title : pystr)
    : ShowArgs :=
  {| a_theater_name := theater_name;
     a_theater_url := theater_url;
     a_show_title := show_title;
     a_playwright := None;
     a_director := None;
     a_dates := None;
     a_venue := None;
     a_description := None;
     a_ticket_url := None;
     a_price_range := None;
     a_genres := [];
     a_cast := [];
     a_runtime := None;
     a_image_url := None;
     a_status := UPCOMING;
     a_scraped_at := utcnow_isoformat;
     a_scraper_version := py "1.0";
     a_scraper_type := None |}.

(** [ShowDates] called with the entries of a dictionary as keyword
    arguments: a key that is not a field is a [TypeError]. *)
Fixpoint ShowDates_of_dict (d : list (pystr * option pystr)) (acc : ShowDates)
    : exc ShowDates :=
  match d with
  | [] => Return acc
  | (k, v) :: d' =>
      if str_eqb k (py "start") then
        ShowDates_of_dict d' (mkShowDates v (end_ acc) (schedule acc))
      else if str_eqb k (py "end") then
        ShowDates_of_dict d' (mkShowDates (start acc) v (schedule acc))
      else if str_eqb k (py "schedule") then
        ShowDates_of_dict d' (mkShowDates (start acc) (end_ acc) v)
      else Raise (Exn TypeError (py "unexpected keyword argument"))
  end.

(** [not s or not s.strip()] *)
Definition blank (s : pystr) : bool :=
  match s with
  | [] => true
  | _ :: _ => match strip s with [] => true | _ :: _ => false end
  end.

(** [Show(...)]: the generated [__init__] followed by [__post_init__]. *)
Definition new_Show (a : ShowArgs) : exc Show :=
  if blank (a_show_title a) then
    Raise (Exn ValueError (py "show_title cannot be empty"))
  else if blank (a_theater_name a) then
    Raise (Exn ValueError (py "theater_name cannot be empty"))
  else
    dates <- match a_dates a with
             | Some (DatesDict d) =>
                 sd <- ShowDates_of_dict d (mkShowDates None None None) ;;
                 Return (Some sd)
             | Some (DatesObj sd) => Return (Some sd)
             | None => Return None
             end ;;
    Return
      {| theater_name := a_theater_name a;
         theater_url := a_theater_url a;
         show_title := a_show_title a;
         playwright := a_playwright a;
         director := a_director a;
         dates := dates;
         venue := a_venue a;
         description := a_description a;
         ticket_url := a_ticket_url a;
         price_range := a_price_range a;
         genres := a_genres a;
         cast := a_cast a;
         runtime := a_runtime a;
         image_url := a_image_url a;
         status := a_status a;
         scraped_at := a_scraped_at a;
         scraper_version := a_scraper_version a;
         scraper_type := a_scraper_type a |}.

(** A field of [asdict(show)]: a plain value, or the [ShowStatus] member. *)
Inductive field : Type :=
| FVal (v : value)
| FStatus (s : ShowStatus).

Definition opt_str (o : option pystr) : value :=
  match o with Some s => PStr s | None => PNone end.

Definition str_list (l : list pystr) : value := PList (map PStr l).

(** [asdict] of a [ShowDates]: every field, also those that are [None]. *)
Definition asdict_ShowDates (d : ShowDates) : list (pystr * value) :=
  [ (py "start", opt_str (start d));
    (py "end", opt_str (end_ d));
    (py "schedule", opt_str (schedule d)) ].

(** [ShowDates.to_dict] *)
Definition ShowDates_to_dict (d : ShowDates) : list (pystr * value) :=
  filter (fun kv => match snd kv with PNone => false | _ => true end)
         (asdict_ShowDates d).

(** [asdict(show)]: the fields in the order of their declaration, a nested
    dataclass converted in turn. *)
Definition asdict_Show (s : Show) : list (pystr * field) :=
  [ (py "theater_name", FVal (PStr (theater_name s)));
    (py "theater_url", FVal (PStr (theater_url s)));
    (py "show_title", FVal (PStr (show_title s)));
    (py "playwright", FVal (opt_str (playwright s)));
    (py "director", FVal (opt_str (director s)));
    (py "dates", FVal (match dates s with
                       | Some d => PDict (asdict_ShowDates d)
                       | None => PNone
                       end));
    (py "venue", FVal (opt_str (venue s)));
    (py "description", FVal (opt_str (description s)));
    (py "ticket_url", FVal (opt_str (ticket_url s)));
    (py "price_range", FVal (opt_str (price_range s)));
    (py "genres", FVal (str_list (genres s)));
    (py "cast", FVal (str_list (cast s)));
    (py "runtime", FVal (opt_str (runtime s)));
    (py "image_url", FVal (opt_str (image_url s)));
    (py "status", FStatus (status s));
    (py "scraped_at", FVal (PStr (scraped_at s)));
    (py "scraper_version", FVal (PStr (scraper_version s)));
    (py "scraper_type", FVal (opt_str (scraper_type s))) ].

Definition is_None (f : field) : bool :=
  match f with FVal PNone => true | _ => false end.

Definition is_dict (f : field) : bool :=
  match f with FVal (PDict _) => true | _ => false end.

Definition is_empty_list (f : field) : bool :=
  match f with FVal (PList []) => true | _ => false end.

(** [value.value if hasattr(value, 'value') else value] *)
Definition value_attr (f : field) : field :=
  match f with
  | FStatus s => FVal (PStr (status_value s))
  | FVal v => FVal v
  end.

(** One round of the loop of [Show.to_dict]. *)
Definition to_dict_step (result : list (pystr * field)) (kv : pystr * field)
    : list (pystr * field) :=
  let (key, value) := kv in
  if is_None value then result
  else if str_eqb key (py "dates") && is_dict value then
    setitem result key value
  else if str_eqb key (py "status") then
    setitem result key (value_attr value)
  else if is_empty_list value then result
  else setitem result key value.

(** [Show.to_dict] *)
Definition Show_to_dict (s : Show) : list (pystr * field) :=
  fold_left to_dict_step (asdict_Show s) [].

(** [ScraperResult] *)
Record ScraperResult : Type := mkScraperResult {
  r_theater_name : pystr;
  success : bool;
  shows : list Show;
  error : option pystr;
  warnings : list pystr;
  r_scraped_at : pystr
}.

End DataSchema.

(* ===================================================================== *)
(** * src/scraper/base/base_scraper.py *)
(* ===================================================================== *)

Module BaseScraper.
Import DataSchema.

(** The fields of a scraper that the modelled methods read. *)
Record scraper : Type := mkScraper {
  self_theater_name : pystr;
  self_base_url : pystr
}.

(** [__init__]: the base URL loses its trailing slashes. *)
Definition init (theater_name base_url : pystr) : scraper :=
  mkScraper theater_name (rstrip_char 47%N base_url).

Section WithExternals.
Context {E : Externals}.

Definition opt_truthy (o : option pystr) : bool :=
  match o with Some (_ :: _) => true | _ => false end.

Definition date_warning (label : string) (o : option pystr) : list pystr :=
  match o with
  | Some ((_ :: _) as d) =>
      if fromisoformat_ok d then []
      else [py "Invalid " ++ py label ++ py " date format: " ++ d]
  | _ => []
  end.

(** [validate_show] *)
Definition validate_show (show : Show) : list pystr :=
  (if negb (truthy (PStr (show_title show)))
      || (len (strip (show_title show)) <? 2)
   then [py "Suspiciously short show title: '" ++ show_title show ++ py "'"]
   else []) ++
  (match ticket_url show with
   | Some ((_ :: _) as u) =>
       if negb (startswith u (py "http"))
       then [py "Invalid ticket URL: " ++ u] else []
   | _ => []
   end) ++
  (match dates show with
   | Some d => date_warning "start" (start d) ++ date_warning "end" (end_ d)
   | None => []
   end).

(** [run]; [scrape] is the outcome of the call [self.scrape()] of the
    subclass. *)
Definition run (self : scraper) (scrape : exc ScraperResult) : exc ScraperResult :=
  try_except
    (result <- scrape ;;
     Return
       {| r_theater_name := r_theater_name result;
          success := success result;
          shows := shows result;
          error := error result;
          warnings := warnings result ++ flat_map validate_show (shows result);
          r_scraped_at := r_scraped_at result |})
    is_Exception
    (fun e =>
       Return
         {| r_theater_name := self_theater_name self;
            success := false;
            shows := [];
            error := Some (exn_str e);
            warnings := [];
            r_scraped_at := utcnow_isoformat |}).

End WithExternals.

End BaseScraper.

(* ===================================================================== *)
(** * src/scraper/platforms/wordpress_spektrix.py *)
(* ===================================================================== *)

Module WordpressSpektrix.
Import Re Parsing DataSchema BaseScraper.
Local Open Scope re_scope.

Section WithExternals.
Context {E : Externals}.

(** [d.get(k1, d.get(k2, ''))] *)
Definition get2 (d : list (pystr * value)) (k1 k2 : string) : value :=
  get d (py k1) (get d (py k2) (PStr [])).

(** [if v: v = f(v)] where [f] needs a [str]: a true value of another type
    raises.  A false value is left as it is; it only ever reaches [v or
    None] or [not v] afterwards, so the model keeps [''] for it. *)
Definition if_set (v : value) (f : pystr -> pystr) (cls : exn_class) : exc pystr :=
  if truthy v then
    match v with
    | PStr s => Return (f s)
    | _ => Raise (Exn cls (py "not a str"))
    end
  else Return [].

(** [v or None] *)
Definition or_None (s : pystr) : option pystr :=
  match s with [] => None | _ :: _ => Some s end.

(** [parse_date] on a value of unknown type: a false value gives [None] at
    once, and the parser rejects what is not a [str] with a [TypeError],
    which [parse_date] turns into [None]. *)
Definition parse_date_value (v : value) : exc (option pystr) :=
  match v with
  | PStr s => parse_date s
  | _ => Return None
  end.

(** The first of three keys that the record has, parsed as a date. *)
Definition date_of (d : list (pystr * value)) (k1 k2 k3 : string)
    : exc (option pystr) :=
  match lookup d (py k1) with
  | Some v => parse_date_value v
  | None =>
      match lookup d (py k2) with
      | Some v => parse_date_value v
      | None =>
          match lookup d (py k3) with
          | Some v => parse_date_value v
          | None => Return None
          end
      end
  end.

(** [v.lower()]: only a [str] has the method. *)
Definition lower_value (v : value) : exc pystr :=
  match v with
  | PStr s => Return (lower s)
  | _ => Raise (Exn AttributeError (py "object has no attribute 'lower'"))
  end.

(** The part "Determine status" and "Check className for status" of
    [_parse_spektrix_event]. *)
Definition event_status (d : list (pystr * value)) : exc ShowStatus :=
  status <- match lookup d (py "status") with
            | Some v =>
                status_str <- lower_value v ;;
                if str_in (py "cancel") status_str then Return CANCELED
                else if str_in (py "closed") status_str
                        || str_in (py "past") status_str then Return CLOSED
                else Return UPCOMING
            | None => Return UPCOMING
            end ;;
  match lookup d (py "className") with
  | Some v =>
      class_name <- lower_value v ;;
      if str_in (py "main-stage") class_name || str_in (py "perfs") class_name
      then Return RUNNING
      else Return status
  | None => Return status
  end.

(** [description[:497] + "..."] when longer than 500 *)
Definition truncate (description : pystr) : pystr :=
  if len description >? 500 then take 497 description ++ py "..."
  else description.

(** The body of the [try] of [_parse_spektrix_event], for a record that is
    a dictionary. *)
Definition parse_event_body (self : scraper) (d : list (pystr * value))
    : exc (option Show) :=
  let title := get2 d "title" "name" in
  if negb (truthy title) then Return None else
  title <- if_set title clean_text TypeError ;;
  start_date <- date_of d "start" "start_date" "firstPerformance" ;;
  end_date <- date_of d "end" "end_date" "lastPerformance" ;;
  description <- if_set (get2 d "description" "synopsis")
                   (fun s => truncate (clean_text s)) TypeError ;;
  ticket_url <- if_set (get2 d "url" "link")
                  (fun u => normalize_url u (self_base_url self))
                  AttributeError ;;
  let instance_id := get2 d "instance_id" "instanceId" in
  let ticket_url :=
    if truthy instance_id && negb (truthy (PStr ticket_url))
    then self_base_url self ++ py "/performances/?instanceId="
         ++ py_str instance_id
    else ticket_url in
  venue <- if_set (get2 d "venue" "location") clean_text TypeError ;;
  image_url <- if_set (get2 d "image" "imageUrl")
                 (fun u => normalize_url u (self_base_url self))
                 AttributeError ;;
  playwright <- if_set (get2 d "playwright" "writer") clean_text TypeError ;;
  director <- if_set (get d (py "director") (PStr [])) clean_text TypeError ;;
  let price_range :=
    match lookup d (py "price") with
    | Some v => extract_price_range (py_str v)
    | None =>
        match lookup d (py "pricing") with
        | Some v => extract_price_range (py_str v)
        | None => None
        end
    end in
  status <- event_status d ;;
  show <- new_Show
    {| a_theater_name := self_theater_name self;
       a_theater_url := self_base_url self;
       a_show_title := title;
       a_playwright := or_None playwright;
       a_director := or_None director;
       a_dates := if opt_truthy start_date || opt_truthy end_date
                  then Some (DatesObj (mkShowDates start_date end_date None))
                  else None;
       a_venue := or_None venue;
       a_description := or_None description;
       a_ticket_url := or_None ticket_url;
       a_price_range := price_range;
       a_genres := [];
       a_cast := [];
       a_runtime := None;
       a_image_url := or_None image_url;
       a_status := status;
       a_scraped_at := utcnow_isoformat;
       a_scraper_version := py "1.0";
       a_scraper_type := Some (py "wordpress_spektrix") |} ;;
  Return (Some show).

(** [_parse_spektrix_event]: whatever [Exception] the body raises gives
    [None].  A record without a [get] method raises at the first line. *)
Definition _parse_spektrix_event (self : scraper) (event_data : value)
    : exc (option Show) :=
  try_except
    (match event_data with
     | PDict d => parse_event_body self d
     | _ => Raise (Exn AttributeError (py "object has no attribute 'get'"))
     end)
    is_Exception
    (fun _ => Return None).

End WithExternals.

(** The outcome of the scanning loop of [extract_js_array], with the value
    of [i] when the loop is left: the closing bracket is at [i]
    ([ScanFound]), the safety check broke the loop ([ScanBreak]), or the
    text ended ([ScanEnd]). *)
Inductive scan_result : Type :=
| ScanFound (i : Z)
| ScanBreak (i : Z)
| ScanEnd (i : Z).

Definition is_quote (c : N) : bool := ((c =? 34) || (c =? 39))%N.

Definition is_string_char (c : N) (string_char : option N) : bool :=
  match string_char with Some q => (c =? q)%N | None => false end.

(** The [while i < len(text)] loop of [extract_js_array]; [rest] is
    [text[i:]]. *)
Fixpoint scan (rest : pystr) (bracket_pos i depth : Z) (in_string : bool)
    (string_char : option N) (escape_next : bool) : scan_result :=
  match rest with
  | [] => ScanEnd i
  | char :: rest' =>
      if escape_next then
        scan rest' bracket_pos (i + 1) depth in_string string_char false
      else if (char =? 92)%N then
        scan rest' bracket_pos (i + 1) depth in_string string_char true
      else
        let next depth in_string string_char :=
          let i := i + 1 in
          if i - bracket_pos >? 500000 then ScanBreak i
          else scan rest' bracket_pos i depth in_string string_char false in
        if is_quote char && negb in_string then
          next depth true (Some char)
        else if is_string_char char string_char && in_string then
          next depth false None
        else if negb in_string then
          if (char =? 91)%N then next (depth + 1) in_string string_char
          else if (char =? 93)%N then
            let depth := depth - 1 in
            if depth =? 0 then ScanFound i
            else next depth in_string string_char
          else next depth in_string string_char
        else next depth in_string string_char
  end.

(** [extract_js_array] *)
Definition extract_js_array (text : pystr) (start_pattern : regex)
    : option pystr :=
  match search start_pattern text with
  | None => None
  | Some m =>
      let start_pos := m_end m in
      let bracket_pos := find text (py "[") (start_pos - 10) (start_pos + 10) in
      if bracket_pos =? -1 then None
      else
        match scan (skipn (Z.to_nat bracket_pos) text) bracket_pos bracket_pos
                   0 false None false with
        | ScanFound i => Some (slice text bracket_pos (i + 1))
        | _ => None
        end
  end.

(** [re.escape(var_keyword) + r'\s*=\s*'] *)
Definition anchor (var_keyword : string) : regex :=
  Lit var_keyword >> Star is_space >> Ch "=" >> Star is_space.

(** The keywords tried by [_scrape_from_page], in order. *)
Definition var_keywords : list string :=
  ["var events"; "const events"; "let events"]%string.

Definition is_closer (c : N) : bool := ((c =? 125) || (c =? 93))%N.

(** [,(\s*[}\]])] *)
Definition trailing_comma : regex :=
  Ch "," >> Group 1 (Star is_space >> Chr is_closer).

(** The cleaning of the extracted text before it is parsed. *)
Definition clean_json (events_json : pystr) : pystr :=
  let cleaned_json := events_json in
  let cleaned_json := replace [92%N; 39%N] [39%N] cleaned_json in
  let cleaned_json := sub trailing_comma (fun g => group g 1) cleaned_json in
  cleaned_json.

End WordpressSpektrix.

(* ===================================================================== *)
(** * The [json] decoder *)
(* ===================================================================== *)

Module Json.

(** A model of [json.loads] on the texts made of objects, arrays, strings
    with the one-letter escapes, integers and the three literals.  [None]
    stands for [JSONDecodeError], and also for the texts outside this
    fragment (a number with a fraction or an exponent, a [\u] escape,
    [NaN] and [Infinity]). *)

Definition is_json_ws (c : N) : bool :=
  ((c =? 32) || (c =? 9) || (c =? 10) || (c =? 13))%N.

Fixpoint skip_ws (s : pystr) : pystr :=
  match s with
  | c :: s' => if is_json_ws c then skip_ws s' else s
  | [] => []
  end.

Definition unescape (c : N) : option N :=
  (if c =? 34 then Some 34 else if c =? 92 then Some 92
   else if c =? 47 then Some 47 else if c =? 98 then Some 8
   else if c =? 102 then Some 12 else if c =? 110 then Some 10
   else if c =? 114 then Some 13 else if c =? 116 then Some 9
   else None)%N.

(** After the opening quote: the decoded string and what follows the
    closing quote. *)
Fixpoint parse_string (s acc : pystr) : option (pystr * pystr) :=
  match s with
  | [] => None
  | c :: r =>
      if (c =? 34)%N then Some (rev acc, r)
      else if (c =? 92)%N then
        match r with
        | e :: r' =>
            match unescape e with
            | Some x => parse_string r' (x :: acc)
            | None => None
            end
        | [] => None
        end
      else if (c <? 32)%N then None
      else parse_string r (c :: acc)
  end.

Definition is_ascii_digit (c : N) : bool := ((48 <=? c) && (c <=? 57))%N.

Fixpoint digits (s : pystr) (acc : Z) : Z * pystr :=
  match s with
  | c :: s' =>
      if is_ascii_digit c then digits s' (10 * acc + Z.of_N (c - 48))
      else (acc, s)
  | [] => (acc, [])
  end.

Definition starts_fraction (s : pystr) : bool :=
  match s with
  | c :: _ => ((c =? 46) || (c =? 101) || (c =? 69))%N
  | [] => false
  end.

(** An optional minus sign, then [0] or a digit run without a leading zero,
    not followed by a fraction or an exponent. *)
Definition parse_int (s : pystr) : option (Z * pystr) :=
  let (neg, s1) := match s with
                   | c :: s' => if (c =? 45)%N then (true, s') else (false, s)
                   | [] => (false, s)
                   end in
  match s1 with
  | c :: s2 =>
      if (c =? 48)%N then
        if starts_fraction s2 then None else Some (0, s2)
      else if is_ascii_digit c then
        let (n, rest) := digits s1 0 in
        if starts_fraction rest then None
        else Some (if neg then - n else n, rest)
      else None
  | [] => None
  end.

Fixpoint parse_value (fuel : nat) (s : pystr) : option (value * pystr) :=
  match fuel with
  | O => None
  | S fuel' =>
      match s with
      | [] => None
      | c :: r =>
          if (c =? 34)%N then
            match parse_string r [] with
            | Some (str, rest) => Some (PStr str, rest)
            | None => None
            end
          else if (c =? 91)%N then
            match skip_ws r with
            | c1 :: r1 =>
                if (c1 =? 93)%N then Some (PList [], r1)
                else parse_elements fuel' (c1 :: r1) []
            | [] => None
            end
          else if (c =? 123)%N then
            match skip_ws r with
            | c1 :: r1 =>
                if (c1 =? 125)%N then Some (PDict [], r1)
                else parse_members fuel' (c1 :: r1) []
            | [] => None
            end
          else if startswith s (py "null") then Some (PNone, skipn 4 s)
          else if startswith s (py "true") then Some (PBool true, skipn 4 s)
          else if startswith s (py "false") then Some (PBool false, skipn 5 s)
          else
            match parse_int s with
            | Some (n, rest) => Some (PInt n, rest)
            | None => None
            end
      end
  end

with parse_elements (fuel : nat) (s : pystr) (acc : list value)
    : option (value * pystr) :=
  match fuel with
  | O => None
  | S fuel' =>
      match parse_value fuel' s with
      | Some (v, rest) =>
          match skip_ws rest with
          | c :: r =>
              if (c =? 93)%N then Some (PList (acc ++ [v]), r)
              else if (c =? 44)%N then
                parse_elements fuel' (skip_ws r) (acc ++ [v])
              else None
          | [] => None
          end
      | None => None
      end
  end

with parse_members (fuel : nat) (s : pystr) (acc : list (pystr * value))
    : option (value * pystr) :=
  match fuel with
  | O => None
  | S fuel' =>
      match s with
      | c :: r =>
          if (c =? 34)%N then
            match parse_string r [] with
            | Some (key, rest) =>
                match skip_ws rest with
                | c1 :: r1 =>
                    if (c1 =? 58)%N then
                      match parse_value fuel' (skip_ws r1) with
                      | Some (v, rest2) =>
                          match skip_ws rest2 with
                          | c2 :: r2 =>
                              if (c2 =? 125)%N
                              then Some (PDict (setitem acc key v), r2)
                              else if (c2 =? 44)%N then
                                parse_members fuel' (skip_ws r2)
                                  (setitem acc key v)
                              else None
                          | [] => None
                          end
                      | None => None
                      end
                    else None
                | [] => None
                end
            | None => None
            end
          else None
      | [] => None
      end
  end.

(** [json.loads] *)
Definition loads (s : pystr) : option value :=
  match parse_value (2 * length s + 2) (skip_ws s) with
  | Some (v, rest) =>
      match skip_ws rest with
      | [] => Some v
      | _ :: _ => None
      end
  | None => None
  end.

End Json.

(* ===================================================================== *)
(** * An instance of the externals, for the examples *)
(* ===================================================================== *)

Module Model.
Import Parsing.

(** The instance stands for a run on a given day, on ASCII texts.  Its date
    parser follows [dateutil] on the texts that consist of a month name, a
    day number of one or two digits and possibly a year of four digits,
    with other words around them: what the text does not give is taken from
    the default date, which is the day of the run.  The theorems only use
    it on such texts. *)

Definition is_alpha (c : N) : bool :=
  ((65 <=? c) && (c <=? 90) || (97 <=? c) && (c <=? 122))%N.

Inductive token : Type :=
| Word (w : pystr)
| Number (digits : pystr).

(** The runs of letters and the runs of digits of a text; [cur] is the run
    being read, reversed. *)
Fixpoint tokens (s : pystr) (cur : option (bool * pystr)) : list token :=
  let flush :=
    match cur with
    | Some (true, w) => [Word (rev w)]
    | Some (false, n) => [Number (rev n)]
    | None => []
    end in
  match s with
  | [] => flush
  | c :: s' =>
      if is_alpha c then
        match cur with
        | Some (true, w) => tokens s' (Some (true, c :: w))
        | _ => flush ++ tokens s' (Some (true, [c]))
        end
      else if Json.is_ascii_digit c then
        match cur with
        | Some (false, n) => tokens s' (Some (false, c :: n))
        | _ => flush ++ tokens s' (Some (false, [c]))
        end
      else flush ++ tokens s' None
  end.

Definition month_names : list (string * string) :=
  [ ("jan", "january"); ("feb", "february"); ("mar", "march");
    ("apr", "april"); ("may", "may"); ("jun", "june"); ("jul", "july");
    ("aug", "august"); ("sep", "september"); ("oct", "october");
    ("nov", "november"); ("dec", "december") ]%string.

Definition ascii_lower (s : pystr) : pystr :=
  map (fun c => if ((65 <=? c) && (c <=? 90))%N then (c + 32)%N else c) s.

Fixpoint month_index (names : list (string * string)) (w : pystr) (i : Z)
    : option Z :=
  match names with
  | [] => None
  | (short, long) :: names' =>
      if str_eqb w (py short) || str_eqb w (py long) then Some i
      else month_index names' w (i + 1)
  end.

Definition days_in_month (y m : Z) : Z :=
  if m =? 2 then
    if ((y mod 4 =? 0) && negb (y mod 100 =? 0)) || (y mod 400 =? 0)
    then 29 else 28
  else if (m =? 4) || (m =? 6) || (m =? 9) || (m =? 11) then 30
  else 31.

(** What has been read of a date: year, month and day. *)
Definition partial : Type := option Z * option Z * option Z.

Definition read_token (acc : option partial) (t : token) : option partial :=
  match acc with
  | None => None
  | Some (y, m, d) =>
      match t with
      | Word w =>
          match month_index month_names (ascii_lower w) 1, m with
          | Some i, None => Some (y, Some i, d)
          | Some _, Some _ => None
          | None, _ => Some (y, m, d)
          end
      | Number n =>
          let v := fst (Json.digits n 0) in
          if (length n =? 4)%nat then
            match y with None => Some (Some v, m, d) | Some _ => None end
          else if (length n <=? 2)%nat then
            match d with None => Some (y, m, Some v) | Some _ => None end
          else None
      end
  end.

Definition parser_error : exn :=
  Exn ValueError (py "Unknown string format").

Definition dateutil_model (today : date) (s : pystr) : exc date :=
  match fold_left read_token (tokens s None) (Some (None, None, None)) with
  | None | Some (None, None, None) => Raise parser_error
  | Some (y, m, d) =>
      let y := match y with Some v => v | None => year today end in
      let m := match m with Some v => v | None => month today end in
      let d := match d with Some v => v | None => day today end in
      if (1 <=? y) && (1 <=? d) && (d <=? days_in_month y m)
      then Return (Date y m d)
      else Raise parser_error
  end.

Fixpoint decimal_go (fuel : nat) (n : Z) (acc : pystr) : pystr :=
  match fuel with
  | O => acc
  | S fuel' =>
      if n <? 10 then digit n :: acc
      else decimal_go fuel' (n / 10) (digit n :: acc)
  end.

Definition decimal (n : Z) : pystr :=
  if n <? 0 then py "-" ++ decimal_go (Z.to_nat (- n)) (- n) []
  else decimal_go (S (Z.to_nat n)) n [].

Definition str_model (v : value) : pystr :=
  match v with
  | PStr s => s
  | PInt n => decimal n
  | PNone => py "None"
  | PBool true => py "True"
  | PBool false => py "False"
  | _ => py "<object>"
  end.

Definition iso_shape (s : pystr) : bool :=
  match s with
  | [y1; y2; y3; y4; h1; m1; m2; h2; d1; d2] =>
      forallb Json.is_ascii_digit [y1; y2; y3; y4; m1; m2; d1; d2]
      && (h1 =? 45)%N && (h2 =? 45)%N
  | _ => false
  end.

Definition externals (today : date) : Externals :=
  {| dateutil_parse := dateutil_model today;
     uni_isdecimal := fun _ => false;
     uni_lower := fun _ c _ => [c];
     py_str := str_model;
     utcnow_isoformat := isoformat today ++ py "T12:00:00";
     fromisoformat_ok := iso_shape |}.

(** The day used in the examples. *)
Definition a_day : date := Date 2026 11 4.

End Model.

(* ===================================================================== *)
(** * src/scraper/base/base_scraper.py: fetching *)
(* ===================================================================== *)

Module Fetch.
Import BaseScraper.

(** The fields of a scraper that [fetch_page] reads besides the base URL. *)
Record retry_policy : Type := mkPolicy {
  retry_count : Z;
  retry_delay : Z
}.

(** What the callers read of a response: the status, the text, and what
    [response.json()] returns or raises. *)
Record response : Type := mkResponse {
  status_code : Z;
  resp_text : pystr;
  resp_json : exc value
}.

(** What [session.request] does: it returns a response, or raises one of
    the exceptions of [requests] in the order of the handlers of
    [fetch_page] ([OtherRequestError] is a [RequestException] that is none
    of the first two; [HTTPError] only comes from [raise_for_status]), or
    raises something else. *)
Inductive request_outcome : Type :=
| Responded (r : response)
| SSLError
| TimeoutError
| OtherRequestError
| OtherError (e : exn).

(** What the scraper does to the outside: requests and pauses. *)
Inductive effect : Type :=
| Request (url : pystr)
| Sleep (seconds : Z).

Definition trace := list effect.

Definition is_request (e : effect) : bool :=
  match e with Request _ => true | Sleep _ => false end.

Definition requests_made (tr : trace) : nat := length (filter is_request tr).

(** The seconds slept in a trace. *)
Definition slept (tr : trace) : Z :=
  fold_right (fun e acc => match e with Sleep s => s + acc | Request _ => acc end)
             0 tr.

(** The network: the outcome of a request, from the number of requests
    made before it and its URL. *)
Definition network := nat -> pystr -> request_outcome.

(** Code that acts on the outside: from the trace so far to an outcome and
    the trace after. *)
Definition io (A : Type) : Type := trace -> exc A * trace.

Definition io_ret {A} (a : A) : io A := fun tr => (Return a, tr).

Definition io_bind {A B} (m : io A) (f : A -> io B) : io B :=
  fun tr =>
    match m tr with
    | (Return a, tr') => f a tr'
    | (Raise e, tr') => (Raise e, tr')
    end.

(** [try: body except (classes): handler] *)
Definition io_try {A} (body : io A) (catches : exn_class -> bool)
    (handler : exn -> io A) : io A :=
  fun tr =>
    match body tr with
    | (Return a, tr') => (Return a, tr')
    | (Raise e, tr') =>
        if catches (exn_cls e) then handler e tr' else (Raise e, tr')
    end.

(** [time.sleep(seconds)], which refuses a negative length. *)
Definition sleep (seconds : Z) : io unit :=
  fun tr =>
    if seconds <? 0
    then (Raise (Exn ValueError (py "sleep length must be non-negative")), tr)
    else (Return tt, tr ++ [Sleep seconds]).

(** [response.raise_for_status()] raises for the statuses 400 to 599. *)
Definition is_http_error (r : response) : bool :=
  (400 <=? status_code r) && (status_code r <? 600).

(** The URL that [fetch_page] requests. *)
Definition full_url (self : scraper) (url : pystr) : pystr :=
  if startswith url (py "http") then url
  else self_base_url self ++ py "/" ++ lstrip_char 47%N url.

Section WithNetwork.
Variable net : network.
Variable self : scraper.
Variable policy : retry_policy.

(** The pause that the handlers make before the next attempt. *)
Definition backoff (attempt : Z) : io unit :=
  if attempt <? retry_count policy - 1
  then sleep (retry_delay policy * (attempt + 1))
  else io_ret tt.

(** The loop [for attempt in range(self.retry_count)] of [fetch_page], from
    [attempt] on, with [remaining] rounds to go. *)
Fixpoint fetch_loop (url : pystr) (remaining : nat) (attempt : Z)
    : io (option response) :=
  match remaining with
  | O => io_ret None
  | S remaining' =>
      fun tr =>
        let outcome := net (requests_made tr) url in
        let tr := tr ++ [Request url] in
        let next := io_bind (backoff attempt)
                      (fun _ => fetch_loop url remaining' (attempt + 1)) in
        match outcome with
        | Responded r =>
            if is_http_error r then
              if (status_code r =? 403) || (status_code r =? 404)
              then (Return None, tr)
              else next tr
            else io_bind (sleep 1) (fun _ => io_ret (Some r)) tr
        | SSLError | TimeoutError | OtherRequestError => next tr
        | OtherError e => (Raise e, tr)
        end
  end.

(** [fetch_page] *)
Definition fetch_page (url : pystr) : io (option response) :=
  fetch_loop (full_url self url) (Z.to_nat (retry_count policy)) 0.

End WithNetwork.

End Fetch.

(* ===================================================================== *)
(** * src/scraper/platforms/wordpress_spektrix.py: the strategies *)
(* ===================================================================== *)

Module SpektrixChain.
Import Re Parsing DataSchema BaseScraper WordpressSpektrix Fetch.

(** The fields of a [WordPressSpektrixScraper]. *)
Record spektrix_scraper : Type := mkSpektrix {
  base : scraper;
  api_endpoint : pystr;
  policy : retry_policy
}.

(** [__init__]: the endpoint given, or one made from the base URL as it was
    given, with its trailing slashes. *)
Definition init_spektrix (theater_name base_url : pystr)
    (api_endpoint : option pystr) (policy : retry_policy) : spektrix_scraper :=
  mkSpektrix (init theater_name base_url)
    (match api_endpoint with
     | Some ((_ :: _) as endpoint) => endpoint
     | _ => base_url ++ py "/wp-json/spektrix/v1"
     end)
    policy.

(** [len(v)] followed by [for x in v]: the items of a list, the keys of a
    dictionary, the characters of a string; a value without a length raises
    a [TypeError]. *)
Definition items (v : value) : exc (list value) :=
  match v with
  | PList l => Return l
  | PDict d => Return (map (fun kv => PStr (fst kv)) d)
  | PStr s => Return (map (fun c => PStr [c]) s)
  | _ => Raise (Exn TypeError (py "object has no len()"))
  end.

(** [a or b] *)
Definition or_value (a b : value) : value := if truthy a then a else b.

(** The events of the decoded answer of an endpoint. *)
Definition events_of (data : value) : value :=
  match data with
  | PList _ => data
  | PDict d =>
      or_value (get d (py "events") (PList []))
        (or_value (get d (py "performances") (PList []))
           (or_value (get d (py "data") (PList [])) (PList [])))
  | _ => PList []
  end.

(** A computation that does nothing to the outside. *)
Definition lift {A} (m : exc A) : io A := fun tr => (m, tr).

(** The three endpoints, in the order in which they are tried. *)
Definition endpoints (self : spektrix_scraper) : list pystr :=
  [ api_endpoint self ++ py "/events";
    api_endpoint self ++ py "/performances";
    api_endpoint self ++ py "/calendar" ].

Section WithWorld.
Context {E : Externals}.
Variable net : network.
(** [json.loads] *)
Variable loads : pystr -> exc value.
(** [BeautifulSoup(response.content, 'html.parser')], of which only the
    exception that the parser may raise matters: the object is not used. *)
Variable BeautifulSoup : response -> exc unit.
Variable self : spektrix_scraper.

(** The loop [for event_data in events] with its [shows.append]: the shows
    of the records that give one, in the order of the records.  No
    [Exception] leaves [_parse_spektrix_event], so what the loop has
    appended is only lost with the whole call. *)
Fixpoint parse_all (events : list value) : exc (list Show) :=
  match events with
  | [] => Return []
  | event_data :: rest =>
      show <- _parse_spektrix_event (base self) event_data ;;
      shows <- parse_all rest ;;
      Return (match show with Some s => s :: shows | None => shows end)
  end.

(** The body of the outer [try] of [_scrape_from_api] for one endpoint;
    [\[\]] stands for reaching its end without a [return]. *)
Definition api_attempt (endpoint : pystr) : io (list Show) :=
  io_bind (fetch_page net (base self) (policy self) endpoint)
    (fun response =>
       match response with
       | Some r =>
           if negb (is_http_error r) && (status_code r =? 200) then
             lift (data <- resp_json r ;;
                   events <- items (events_of data) ;;
                   parse_all events)
           else io_ret []
       | None => io_ret []
       end).

(** One round of the loop of [_scrape_from_api]: an [Exception] of the
    body leads to the next endpoint. *)
Definition api_round (endpoint : pystr) : io (list Show) :=
  io_try (api_attempt endpoint) is_Exception (fun _ => io_ret []).

Fixpoint api_loop (urls : list pystr) : io (list Show) :=
  match urls with
  | [] => io_ret []
  | endpoint :: rest =>
      io_bind (api_round endpoint)
        (fun shows =>
           match shows with
           | [] => api_loop rest
           | _ :: _ => io_ret shows
           end)
  end.

(** [_scrape_from_api] *)
Definition _scrape_from_api : io (list Show) := api_loop (endpoints self).

(** The body of the loop of [_scrape_from_page] for one keyword. *)
Definition page_attempt (html_text : pystr) (var_keyword : string)
    : exc (list Show) :=
  match extract_js_array html_text (anchor var_keyword) with
  | Some ((_ :: _) as events_json) =>
      try_except
        (events_data <- loads (clean_json events_json) ;;
         events <- items events_data ;;
         parse_all events)
        is_Exception
        (fun _ => Return [])
  | _ => Return []
  end.

Fixpoint page_loop (html_text : pystr) (keywords : list string)
    : exc (list Show) :=
  match keywords with
  | [] => Return []
  | var_keyword :: rest =>
      shows <- page_attempt html_text var_keyword ;;
      match shows with
      | [] => page_loop html_text rest
      | _ :: _ => Return shows
      end
  end.

(** [_scrape_from_page] *)
Definition _scrape_from_page : io (list Show) :=
  io_try
    (io_bind (fetch_page net (base self) (policy self) (self_base_url (base self)))
       (fun response =>
          match response with
          | Some r =>
              if is_http_error r then io_ret []
              else lift (soup <- BeautifulSoup r ;;
                         page_loop (resp_text r) var_keywords)
          | None => io_ret []
          end))
    is_Exception
    (fun _ => io_ret []).

(** [scrape] *)
Definition scrape : io ScraperResult :=
  io_bind _scrape_from_api
    (fun shows =>
       io_bind (match shows with
                | [] => _scrape_from_page
                | _ :: _ => io_ret shows
                end)
         (fun shows =>
            io_ret
              (match shows with
               | _ :: _ =>
                   {| r_theater_name := self_theater_name (base self);
                      success := true;
                      shows := shows;
                      error := None;
                      warnings := [];
                      r_scraped_at := utcnow_isoformat |}
               | [] =>
                   {| r_theater_name := self_theater_name (base self);
                      success := false;
                      shows := [];
                      error := Some (py "No shows found via API or page scraping");
                      warnings := [py "Could not find any event data"];
                      r_scraped_at := utcnow_isoformat |}
               end))).

End WithWorld.

End SpektrixChain.

(* ===================================================================== *)
(** * src/scraper/utils/parsing.py: runtimes *)
(* ===================================================================== *)

Module Runtime.
Import Re Parsing.
Local Open Scope re_scope.

(** [(?:hr|hour)s?] and [(?:min|minute)s?], with [re.IGNORECASE] *)
Definition hour_word : regex :=
  Alt (Lit_i "hr") (Lit_i "hour") >> Opt (Lit_i "s").

Definition minute_word : regex :=
  Alt (Lit_i "min") (Lit_i "minute") >> Opt (Lit_i "s").

Section WithExternals.
Context {E : Externals}.
(** [int] on a text of decimal digits; the interpreter refuses a text with
    more digits than its limit with a [ValueError]. *)
Variable int : pystr -> exc Z.

(** [(\d+)\s*(?:hr|hour)s?\s*(?:(\d+)\s*(?:min|minute)s?)?] *)
Definition hours_minutes : regex :=
  Group 1 (Plus is_digit) >> Star is_space >> hour_word >> Star is_space >>
  Opt (Group 2 (Plus is_digit) >> Star is_space >> minute_word).

(** [(\d+)\s*(?:min|minute)s?] *)
Definition minutes_pattern : regex :=
  Group 1 (Plus is_digit) >> Star is_space >> minute_word.

(** [f"{hours} hour{'s' if hours != 1 else ''}"] *)
Definition hours_text (hours : Z) : pystr :=
  py_str (PInt hours) ++ py " hour" ++ (if hours =? 1 then [] else py "s").

(** [extract_runtime] *)
Definition extract_runtime (text : pystr) : exc (option pystr) :=
  match text with
  | [] => Return None
  | _ :: _ =>
      match search hours_minutes text with
      | Some m =>
          hours <- int (group (m_groups m) 1) ;;
          minutes <- match group (m_groups m) 2 with
                     | [] => Return 0
                     | (_ :: _) as digits => int digits
                     end ;;
          if minutes =? 0 then Return (Some (hours_text hours))
          else Return (Some (hours_text hours ++ py " "
                             ++ py_str (PInt minutes) ++ py " minutes"))
      | None =>
          match search minutes_pattern text with
          | Some m => Return (Some (group (m_groups m) 1 ++ py " minutes"))
          | None => Return None
          end
      end
  end.

End WithExternals.

End Runtime.

(* ===================================================================== *)
(** * Predicates and inputs of the further statements *)
(* ===================================================================== *)

Module FetchSpec.
Import BaseScraper Fetch.

(** A failure after which [fetch_page] tries again: one of the exceptions
    of [requests], or a status from 400 to 599 other than 403 and 404. *)
Definition transient (o : request_outcome) : bool :=
  match o with
  | Responded r =>
      is_http_error r
      && negb ((status_code r =? 403) || (status_code r =? 404))
  | SSLError | TimeoutError | OtherRequestError => true
  | OtherError _ => false
  end.

(** A response that [raise_for_status] accepts. *)
Definition accepted (o : request_outcome) : option response :=
  match o with
  | Responded r => if is_http_error r then None else Some r
  | _ => None
  end.

(** A response with status 403 or 404. *)
Definition refused (o : request_outcome) : bool :=
  match o with
  | Responded r => (status_code r =? 403) || (status_code r =? 404)
  | _ => false
  end.

(** The trace of [k] failed attempts from [attempt] on, each followed by
    its pause. *)
Fixpoint retries (url : pystr) (delay : Z) (attempt : Z) (k : nat) : trace :=
  match k with
  | O => []
  | S k' =>
      Request url :: Sleep (delay * (attempt + 1))
      :: retries url delay (attempt + 1) k'
  end.

(** A network that times out twice and then answers 200. *)
Definition flaky (page : pystr) : network :=
  fun n _ =>
    match n with
    | O | S O => TimeoutError
    | _ => Responded (mkResponse 200 page (Raise (Exn ValueError (py "not JSON"))))
    end.

(** A network that answers every request with one status. *)
Definition always (status : Z) : network :=
  fun _ _ => Responded (mkResponse status [] (Raise (Exn ValueError (py "not JSON")))).

End FetchSpec.

Module SchemaSpec.
Import DataSchema.

(** A dictionary of strings and [None], as the keyword arguments that
    [ShowDates] receives from it. *)
Definition kwargs (d : list (pystr * value)) : list (pystr * option pystr) :=
  map (fun kv => (fst kv, match snd kv with PStr s => Some s | _ => None end)) d.

(** The names of the fields of [ShowDates]. *)
Definition is_dates_field (k : pystr) : bool :=
  str_eqb k (py "start") || str_eqb k (py "end") || str_eqb k (py "schedule").

(** The arguments [a] with [d] for [dates]. *)
Definition with_dates (a : ShowArgs) (d : option dates_arg) : ShowArgs :=
  {| a_theater_name := a_theater_name a;
     a_theater_url := a_theater_url a;
     a_show_title := a_show_title a;
     a_playwright := a_playwright a;
     a_director := a_director a;
     a_dates := d;
     a_venue := a_venue a;
     a_description := a_description a;
     a_ticket_url := a_ticket_url a;
     a_price_range := a_price_range a;
     a_genres := a_genres a;
     a_cast := a_cast a;
     a_runtime := a_runtime a;
     a_image_url := a_image_url a;
     a_status := a_status a;
     a_scraped_at := a_scraped_at a;
     a_scraper_version := a_scraper_version a;
     a_scraper_type := a_scraper_type a |}.

(** The entry of [to_dict] for an optional string: none when it is
    absent. *)
Definition str_entry (o : option pystr) : option field :=
  match o with Some s => Some (FVal (PStr s)) | None => None end.

(** The entry of [to_dict] for a list: none when it is empty. *)
Definition list_entry (l : list pystr) : option field :=
  match l with [] => None | _ :: _ => Some (FVal (PList (map PStr l))) end.

End SchemaSpec.

Module ParsingSpec.
Import Re.

(** Every match of the pattern passes over a character of the class [p]. *)
Fixpoint requires (p : N -> bool) (r : regex) : Prop :=
  match r with
  | Eps => False
  | Chr q => forall c, q c = true -> p c = true
  | Seq r1 r2 => requires p r1 \/ requires p r2
  | Alt r1 r2 => requires p r1 /\ requires p r2
  | Opt _ => False
  | Star _ => False
  | Group _ r1 => requires p r1
  end.

Definition is_dollar (c : N) : bool := (c =? 36)%N.

End ParsingSpec.

Module RecordSpec.


End RecordSpec.

Module RuntimeSpec.
Import Re.

(** [int] on ASCII digits. *)
Definition int_ascii (digits : pystr) : exc Z :=
  Return (fold_left (fun n c => 10 * n + (Z.of_N c - 48)) digits 0).

(** The letters that the words for hours and minutes begin with, in
    either case. *)
Definition is_h_or_m (c : N) : bool :=
  eq_ignorecase 104 c || eq_ignorecase 109 c.

End RuntimeSpec.

Module ChainSpec.
Import DataSchema BaseScraper Fetch SpektrixChain.

(** [json.loads], on the texts that the decoder above reads. *)
Definition json_loads (s : pystr) : exc value :=
  match Json.loads s with
  | Some v => Return v
  | None => Raise (Exn ValueError (py "Expecting value"))
  end.

Definition not_json : exc value := Raise (Exn ValueError (py "Expecting value")).

(** A site whose API answers every endpoint with one event under the key
    [performances]. *)
Definition api_site : network :=
  fun _ _ =>
    Responded
      (mkResponse 200 []
         (Return (PDict [ (py "events", PList []);
                          (py "performances",
                           PList [ PDict [ (py "title", PStr (py "Hamlet")) ] ]) ]))).

(** A site without the API: 404 below [/wp-json/], the page elsewhere. *)
Definition page_site (page : pystr) : network :=
  fun _ url =>
    if str_in (py "/wp-json/") url
    then Responded (mkResponse 404 [] not_json)
    else Responded (mkResponse 200 page not_json).

(** A page with the events in a script. *)
Definition events_page : pystr :=
  pyq "<script>const events = [{`title`: `Hamlet`, `venue`: `Main`},];</script>".

(** The same page behind a marked section with a keyword that
    [html.parser] does not know. *)
Definition marked_page : pystr := py "<![x]>" ++ events_page.

(** A parser that fails on the marked section [<![x]: [html.parser] raises
    an [AssertionError] for an unknown keyword there. *)
Definition html_parser (r : response) : exc unit :=
  if str_in (py "<![x") (resp_text r)
  then Raise (Exn AssertionError (py "unknown status keyword 'x' in marked section"))
  else Return tt.

(** The scraper of the [main] function of the source, without its
    [api_endpoint] argument. *)
Definition nytw : spektrix_scraper :=
  init_spektrix (py "New York Theatre Workshop") (py "https://www.nytw.org")
    None (mkPolicy 3 2).

End ChainSpec.

(* ===================================================================== *)
(** * Predicates and inputs of the statements *)
(* ===================================================================== *)

Import Re Parsing DataSchema BaseScraper WordpressSpektrix.

(** The page of the example of the specification, and its array. *)
Definition page_text : pystr := pyq "var events = [{`a`: `x]y`, `b`: 1},];".

Definition page_array : pystr := pyq "[{`a`: `x]y`, `b`: 1},]".

(** What [lstrip] returns does not start with a space. *)
Definition no_lead (s : pystr) : bool :=
  match s with c :: _ => negb (is_space c) | [] => true end.

(** What [re.sub(r'\s+', ' ', s)] computes: every run of white space
    becomes one space.  [prev] tells that the previous character was white
    space. *)
Fixpoint collapse (prev : bool) (s : pystr) : pystr :=
  match s with
  | [] => []
  | c :: s' =>
      if is_space c then
        if prev then collapse true s' else 32%N :: collapse true s'
      else c :: collapse false s'
  end.

(** Every white space character is a space that follows no other one. *)
Fixpoint sparse (prev : bool) (s : pystr) : bool :=
  match s with
  | [] => true
  | c :: s' =>
      if is_space c then (c =? 32)%N && negb prev && sparse true s'
      else sparse false s'
  end.

(** No character of [e] is white space. *)
Definition ws_free (e : pystr) : bool :=
  forallb (fun c => negb (is_space c)) e.

(** None of the entities that [clean_text] decodes occurs in [t]. *)
Definition entity_free (t : pystr) : bool :=
  forallb (fun e => negb (str_in (fst e) t)) entities.









(** A cancelled record of the main stage. *)
Definition cancelled_main_stage : list (pystr * value) :=
  [ (py "title", PStr (py "Hamlet"));
    (py "status", PStr (py "Cancelled"));
    (py "className", PStr (py "event main-stage")) ].

(** A value that [to_dict] stores: neither [None] nor an empty list. *)
Definition stored (v : field) : Prop :=
  is_None v = false /\ is_empty_list v = false.

(** A show of which only the first date is known. *)
Definition show_with_start : Show :=
  {| theater_name := py "New York Theatre Workshop";
     theater_url := py "https://www.nytw.org";
     show_title := py "Hamlet";
     playwright := None;
     director := None;
     dates := Some (mkShowDates (Some (py "2025-02-21")) None None);
     venue := None;
     description := None;
     ticket_url := None;
     price_range := None;
     genres := [];
     cast := [];
     runtime := None;
     image_url := None;
     status := UPCOMING;
     scraped_at := py "2025-01-05T12:00:00";
     scraper_version := py "1.0";
     scraper_type := None |}.

(** The value of [i] when the loop is left. *)
Definition scan_index (r : scan_result) : Z :=
  match r with ScanFound i | ScanBreak i | ScanEnd i => i end.

(** No character of [s] is a backslash. *)
Definition no_backslash (s : pystr) : bool :=
  forallb (fun c => negb (c =? 92)%N) s.

(** A page whose array is opened and followed by [n] backslashes. *)
Definition escapes_text (n : nat) : pystr :=
  py "var events = [" ++ repeat 92%N n.

(** A text in the form that white space normalisation gives: no white
    space at either end, and inside only single spaces. *)
Definition clean_form (t : pystr) : Prop :=
  no_lead t = true /\ no_lead (rev t) = true /\ sparse false t = true.

(* ===================================================================== *)
(** * Properties *)
(* ===================================================================== *)

(** ** Examples of the docstrings *)

Example clean_text_example :
  clean_text (py "  Twelfth   Night &amp; other  plays ")
  = py "Twelfth Night & other plays".
Proof. vm_compute. reflexivity. Qed.

Example extract_price_range_examples (E : Externals) :
  extract_price_range (py "Tickets $20-$65") = Some (py "$20-$65")
  /\ extract_price_range (py "Starting at $5") = Some (py "$5+")
  /\ extract_price_range (py "Price: $35") = Some (py "$35").
Proof. repeat split; vm_compute; reflexivity. Qed.

Example parse_date_range_example :
  parse_date_range (E := Model.externals (Date 2025 10 1)) (py "Feb 21 - Mar 29")
  = Return (Some (py "2025-02-21"), Some (py "2025-03-29")).
Proof. vm_compute. reflexivity. Qed.

(** ** The embedded array of the example *)

(** C1. On the text [var events = [{"a": "x]y", "b": 1},];] with the anchor
    [var events], [extract_js_array] returns exactly
    [[{"a": "x]y", "b": 1},]]: the closing bracket inside the string
    literal does not end the array.  Once the trailing comma is removed,
    the text decodes to the list of the one record with [a = "x]y"] and
    [b = 1]. *)
Theorem extract_js_array_example :
  extract_js_array page_text (anchor "var events") = Some page_array
  /\ clean_json page_array = pyq "[{`a`: `x]y`, `b`: 1}]"
  /\ Json.loads (clean_json page_array)
     = Some (PList [PDict [(py "a", PStr (py "x]y")); (py "b", PInt 1)]]).
Proof. repeat split; vm_compute; reflexivity. Qed.

(** ** Facts on strings *)

Section StringFacts.

Lemma startswith_nil (s : pystr) : startswith s [] = true.
Proof. destruct s; reflexivity. Qed.

Lemma startswith_spec (p s : pystr) :
  startswith s p = true <-> exists r, s = p ++ r.
Proof.
  revert s; induction p as [|a p IH]; intros s.
  - rewrite startswith_nil. split; [intros _; now exists s | reflexivity].
  - destruct s as [|b s]; simpl.
    + split; [discriminate | intros [r Hr]; discriminate].
    + rewrite andb_true_iff, N.eqb_eq, IH. split.
      * intros [-> [r ->]]. now exists r.
      * intros [r Hr]. injection Hr as -> ->. split; [reflexivity | now exists r].
Qed.

(** [sub in s] holds exactly when [s] has an occurrence of [sub]. *)
Lemma str_in_spec (sub s : pystr) :
  str_in sub s = true <-> exists a b, s = a ++ sub ++ b.
Proof.
  induction s as [|c s IH]; cbn [str_in].
  - rewrite orb_false_r, startswith_spec. split.
    + intros [r Hr]. now exists [], r.
    + intros [a [b H]]. destruct a; simpl in H.
      * now exists b.
      * discriminate.
  - rewrite orb_true_iff, startswith_spec, IH. split.
    + intros [[r Hr] | [a [b H]]].
      * now exists [], r.
      * exists (c :: a), b. now rewrite H.
    + intros [a [b H]]. destruct a as [|x a]; simpl in H.
      * left. now exists b.
      * right. injection H as _ H. now exists a, b.
Qed.

Lemma lstrip_split (s : pystr) :
  exists w, s = w ++ lstrip s /\ forallb is_space w = true.
Proof.
  induction s as [|c s [w [H1 H2]]]; simpl.
  - now exists [].
  - destruct (is_space c) eqn:Hc.
    + exists (c :: w). simpl. rewrite Hc, H2. now rewrite <- H1.
    + now exists [].
Qed.

Lemma rstrip_split (s : pystr) :
  exists w, s = rstrip s ++ w /\ forallb is_space w = true.
Proof.
  unfold rstrip. destruct (lstrip_split (rev s)) as [w [H1 H2]].
  exists (rev w). split.
  - rewrite <- rev_app_distr, <- H1. now rewrite rev_involutive.
  - rewrite forallb_forall in *. intros x Hx. apply H2. now apply in_rev.
Qed.

Lemma lstrip_no_lead (s : pystr) : no_lead (lstrip s) = true.
Proof.
  induction s as [|c s IH]; simpl; [reflexivity|].
  destruct (is_space c) eqn:Hc; [exact IH | simpl; now rewrite Hc].
Qed.

Lemma lstrip_id (s : pystr) : no_lead s = true -> lstrip s = s.
Proof.
  destruct s as [|c s]; simpl; [reflexivity|].
  now destruct (is_space c).
Qed.

Lemma lstrip_all_space (s : pystr) :
  lstrip s = [] <-> forallb is_space s = true.
Proof.
  induction s as [|c s IH]; simpl; [tauto|].
  destruct (is_space c); simpl; [exact IH | split; discriminate].
Qed.

Lemma forallb_rev {A} (f : A -> bool) (l : list A) :
  forallb f (rev l) = forallb f l.
Proof.
  induction l as [|x l IH]; simpl; [reflexivity|].
  rewrite forallb_app, IH. simpl. rewrite andb_true_r. apply andb_comm.
Qed.

Lemma rstrip_all_space (s : pystr) :
  rstrip s = [] <-> forallb is_space s = true.
Proof.
  unfold rstrip. rewrite <- (forallb_rev is_space s), <- lstrip_all_space.
  split; intros H.
  - apply (f_equal (@rev N)) in H. now rewrite rev_involutive in H.
  - now rewrite H.
Qed.

(** [s.strip()] is empty exactly when [s] consists of white space. *)
Lemma strip_nil_iff (s : pystr) :
  strip s = [] <-> forallb is_space s = true.
Proof.
  unfold strip. rewrite rstrip_all_space. split; intros H.
  - apply lstrip_all_space.
    pose proof (lstrip_no_lead s) as Hn.
    destruct (lstrip s) as [|c r]; [reflexivity|].
    simpl in *. destruct (is_space c); discriminate.
  - apply lstrip_all_space in H. now rewrite H.
Qed.

Lemma blank_iff (s : pystr) :
  blank s = true <-> forallb is_space s = true.
Proof.
  unfold blank. destruct s as [|c s]; [simpl; tauto|].
  rewrite <- strip_nil_iff. destruct (strip (c :: s)); split; congruence.
Qed.

End StringFacts.

(** ** The text normalizer *)

Section CleanText.

Lemma star_space {A} (s : pystr) (f : pystr -> A) :
  star is_space s (fun s1 => Some (f s1)) = Some (f (lstrip s)).
Proof.
  induction s as [|c s IH]; simpl; [reflexivity|].
  destruct (is_space c); [now rewrite IH | reflexivity].
Qed.

Lemma match_here_ws_run (s : pystr) :
  match_here ws_run s =
  match s with
  | c :: s' => if is_space c then Some (lstrip s', []) else None
  | [] => None
  end.
Proof.
  unfold match_here, ws_run, Plus. simpl.
  destruct s as [|c s]; [reflexivity|].
  destruct (is_space c); [|reflexivity].
  apply (star_space s (fun s1 => (s1, @nil (nat * pystr)))).
Qed.

Lemma length_lstrip (s : pystr) : (length (lstrip s) <= length s)%nat.
Proof.
  induction s as [|c s IH]; simpl; [lia|].
  destruct (is_space c); simpl; lia.
Qed.

Lemma sub_go_skip r repl (s : pystr) :
  sub_go r repl s (length s - length (lstrip s)) = sub_go r repl (lstrip s) 0.
Proof.
  induction s as [|c s IH]; [reflexivity|].
  cbn [lstrip]. destruct (is_space c).
  - pose proof (length_lstrip s).
    replace (length (c :: s) - length (lstrip s))%nat
      with (S (length s - length (lstrip s))) by (cbn [length]; lia).
    exact IH.
  - now rewrite Nat.sub_diag.
Qed.

Lemma collapse_true_lstrip (s : pystr) :
  collapse true s = collapse false (lstrip s).
Proof.
  induction s as [|c s IH]; simpl; [reflexivity|].
  destruct (is_space c) eqn:Hc; [exact IH | simpl; now rewrite Hc].
Qed.

(** The substitution of the source is [collapse]. *)
Lemma sub_ws_run_collapse (s : pystr) :
  sub ws_run (fun _ => py " ") s = collapse false s.
Proof.
  unfold sub.
  remember (length s) as n eqn:Hn.
  assert (Hle : (length s <= n)%nat) by lia. clear Hn.
  revert s Hle. induction n as [|n IH]; intros s Hle.
  - destruct s; [reflexivity | simpl in Hle; lia].
  - destruct s as [|c s]; [reflexivity|].
    cbn [sub_go collapse]. rewrite match_here_ws_run.
    destruct (is_space c).
    + replace (length (c :: s) - length (lstrip s) - 1)%nat
        with (length s - length (lstrip s))%nat by (cbn [length]; lia).
      rewrite sub_go_skip, IH, collapse_true_lstrip.
      * reflexivity.
      * pose proof (length_lstrip s). simpl in Hle. lia.
    + rewrite IH; [reflexivity | simpl in Hle; lia].
Qed.

Lemma clean_text_eq (t : pystr) :
  clean_text t = decode_entities (strip (collapse false t)).
Proof.
  destruct t as [|c t]; [reflexivity|].
  unfold clean_text. now rewrite sub_ws_run_collapse.
Qed.

Lemma collapse_sparse (f : bool) (t : pystr) : sparse f (collapse f t) = true.
Proof.
  revert f; induction t as [|c t IH]; intros f; simpl; [reflexivity|].
  destruct (is_space c) eqn:Hc.
  - destruct f; [apply IH|]. simpl. now rewrite IH.
  - simpl. rewrite Hc. apply IH.
Qed.

Lemma collapse_fixed (f : bool) (s : pystr) :
  sparse f s = true -> collapse f s = s.
Proof.
  revert f; induction s as [|c s IH]; intros f; simpl; [reflexivity|].
  destruct (is_space c).
  - rewrite !andb_true_iff, N.eqb_eq, negb_true_iff.
    intros [[-> ->] H]. now rewrite (IH true H).
  - intros H. now rewrite (IH false H).
Qed.

Lemma sparse_weaken (s : pystr) : sparse true s = true -> sparse false s = true.
Proof.
  destruct s as [|c s]; simpl; [reflexivity|].
  destruct (is_space c); [|tauto].
  rewrite andb_false_r. discriminate.
Qed.

Lemma sparse_lstrip (f : bool) (s : pystr) :
  sparse f s = true -> sparse false (lstrip s) = true.
Proof.
  revert f; induction s as [|c s IH]; intros f; simpl; [reflexivity|].
  destruct (is_space c) eqn:Hc.
  - rewrite !andb_true_iff. intros [_ H]. now apply (IH true).
  - simpl. now rewrite Hc.
Qed.

Lemma sparse_app_l (f : bool) (a b : pystr) :
  sparse f (a ++ b) = true -> sparse f a = true.
Proof.
  revert f; induction a as [|c a IH]; intros f; simpl; [reflexivity|].
  destruct (is_space c).
  - rewrite !andb_true_iff. intros [H1 H2]. split; [exact H1 | now apply IH].
  - apply IH.
Qed.

Lemma sparse_strip (f : bool) (s : pystr) :
  sparse f s = true -> sparse false (strip s) = true.
Proof.
  intros H. apply sparse_lstrip in H. unfold strip.
  destruct (rstrip_split (lstrip s)) as [w [Hw _]].
  rewrite Hw in H. now apply sparse_app_l in H.
Qed.

Lemma lstrip_lstrip (s : pystr) : lstrip (lstrip s) = lstrip s.
Proof. apply lstrip_id, lstrip_no_lead. Qed.

Lemma rstrip_rstrip (s : pystr) : rstrip (rstrip s) = rstrip s.
Proof. unfold rstrip. now rewrite rev_involutive, lstrip_lstrip. Qed.

Lemma no_lead_app_l (a b : pystr) : no_lead (a ++ b) = true -> a <> [] -> no_lead a = true.
Proof. destruct a; simpl; [congruence | tauto]. Qed.

Lemma strip_no_lead (s : pystr) : no_lead (strip s) = true.
Proof.
  unfold strip. pose proof (lstrip_no_lead s) as H.
  destruct (rstrip_split (lstrip s)) as [w [Hw _]].
  destruct (rstrip (lstrip s)) as [|c r] eqn:Hr; [reflexivity|].
  rewrite Hw in H. exact H.
Qed.

Lemma strip_strip (s : pystr) : strip (strip s) = strip s.
Proof.
  unfold strip at 1. rewrite (lstrip_id _ (strip_no_lead s)).
  unfold strip. apply rstrip_rstrip.
Qed.

(** White space normalisation alone is idempotent. *)
Lemma normalise_idempotent (t : pystr) :
  strip (collapse false (strip (collapse false t))) = strip (collapse false t).
Proof.
  rewrite (collapse_fixed false).
  - apply strip_strip.
  - apply (sparse_strip false), collapse_sparse.
Qed.

Lemma replace_go_absent (old new s : pystr) :
  str_in old s = false -> replace_go old new s 0 = s.
Proof.
  induction s as [|c s IH]; [reflexivity|].
  cbn [str_in replace_go]. rewrite orb_false_iff. intros [H1 H2].
  rewrite H1. now rewrite IH.
Qed.

Lemma replace_absent (old new s : pystr) :
  old <> [] -> str_in old s = false -> replace old new s = s.
Proof.
  destruct old; [congruence|]. intros _. apply replace_go_absent.
Qed.

Lemma decode_entities_absent (t : pystr) :
  entity_free t = true -> decode_entities t = t.
Proof.
  unfold entity_free, decode_entities, entities.
  cbn [forallb fold_left fst snd].
  rewrite !andb_true_iff, !negb_true_iff.
  intros (H1 & H2 & H3 & H4 & H5 & H6 & _).
  rewrite (replace_absent _ _ t); [|discriminate|exact H1].
  rewrite (replace_absent _ _ t); [|discriminate|exact H2].
  rewrite (replace_absent _ _ t); [|discriminate|exact H3].
  rewrite (replace_absent _ _ t); [|discriminate|exact H4].
  rewrite (replace_absent _ _ t); [|discriminate|exact H5].
  rewrite (replace_absent _ _ t); [|discriminate|exact H6].
  reflexivity.
Qed.

Lemma startswith_space_head (e r : pystr) :
  ws_free e = true -> e <> [] -> startswith (32%N :: r) e = false.
Proof.
  destruct e as [|x e]; [congruence|]. simpl.
  rewrite andb_true_iff, negb_true_iff. intros [Hx _] _.
  destruct (N.eqb_spec x 32) as [->|]; [discriminate Hx | reflexivity].
Qed.

Lemma startswith_collapse (e t : pystr) :
  ws_free e = true ->
  startswith (collapse false t) e = true -> startswith t e = true.
Proof.
  revert t; induction e as [|x e IH]; intros t He; [intros; apply startswith_nil|].
  simpl in He. apply andb_true_iff in He as [Hx He].
  apply negb_true_iff in Hx.
  destruct t as [|c t]; simpl; [tauto|].
  destruct (is_space c) eqn:Hc; simpl.
  - destruct (N.eqb_spec x 32) as [->|]; [discriminate Hx | discriminate].
  - rewrite !andb_true_iff. intros [H1 H2]. split; [exact H1 | now apply IH].
Qed.

Lemma str_in_collapse (e t : pystr) (f : bool) :
  ws_free e = true -> e <> [] ->
  str_in e (collapse f t) = true -> str_in e t = true.
Proof.
  intros He Hne. revert f; induction t as [|c t IH]; intros f.
  - simpl. now destruct e.
  - cbn [collapse]. destruct (is_space c) eqn:Hc.
    + destruct f.
      * intros H. apply IH in H. cbn [str_in]. rewrite H. apply orb_true_r.
      * cbn [str_in]. rewrite startswith_space_head by assumption.
        simpl. intros H. apply IH in H. rewrite H. apply orb_true_r.
    + cbn [str_in]. rewrite !orb_true_iff. intros [H | H].
      * left. apply (startswith_collapse e (c :: t) He).
        simpl. now rewrite Hc.
      * right. now apply (IH false).
Qed.

Lemma str_in_strip (e s : pystr) :
  str_in e (strip s) = true -> str_in e s = true.
Proof.
  rewrite !str_in_spec. intros [a [b H]].
  destruct (lstrip_split s) as [w1 [H1 _]].
  destruct (rstrip_split (lstrip s)) as [w2 [H2 _]].
  fold (strip s) in H2. exists (w1 ++ a), (b ++ w2).
  rewrite H1 at 1. rewrite H2 at 1. rewrite H.
  now rewrite <- !app_assoc.
Qed.

Lemma entity_free_normalise (t : pystr) :
  entity_free t = true -> entity_free (strip (collapse false t)) = true.
Proof.
  unfold entity_free. rewrite !forallb_forall. intros H e He.
  specialize (H e He). apply negb_true_iff. apply negb_true_iff in H.
  destruct (str_in (fst e) (strip (collapse false t))) eqn:Hin; [|reflexivity].
  rewrite <- H. symmetry.
  apply str_in_strip in Hin. revert Hin. apply str_in_collapse.
  - unfold entities in He. simpl in He.
    repeat (destruct He as [<- | He]; [reflexivity|]). contradiction.
  - unfold entities in He. simpl in He.
    repeat (destruct He as [<- | He]; [discriminate|]). contradiction.
Qed.

Lemma rev_strip_no_lead (s : pystr) : no_lead (rev (strip s)) = true.
Proof.
  unfold strip, rstrip. rewrite rev_involutive. apply lstrip_no_lead.
Qed.

Lemma strip_id (t : pystr) :
  no_lead t = true -> no_lead (rev t) = true -> strip t = t.
Proof.
  intros H1 H2. unfold strip, rstrip. rewrite (lstrip_id t H1).
  rewrite (lstrip_id (rev t) H2). apply rev_involutive.
Qed.

(** Neither step of [clean_text] makes a text longer, and decoding an
    entity makes it shorter. *)
Lemma length_collapse (f : bool) (s : pystr) :
  (length (collapse f s) <= length s)%nat.
Proof.
  revert f; induction s as [|c s IH]; intros f; cbn [collapse length]; [lia|].
  destruct (is_space c).
  - destruct f; cbn [length]; [specialize (IH true) | specialize (IH true)]; lia.
  - cbn [length]. specialize (IH false). lia.
Qed.

Lemma length_strip (s : pystr) : (length (strip s) <= length s)%nat.
Proof.
  unfold strip, rstrip. rewrite length_rev.
  pose proof (length_lstrip (rev (lstrip s))) as H1.
  rewrite length_rev in H1. pose proof (length_lstrip s). lia.
Qed.

Lemma startswith_length (s p : pystr) :
  startswith s p = true -> (length p <= length s)%nat.
Proof.
  intros H. apply startswith_spec in H as [r ->]. rewrite length_app. lia.
Qed.

Lemma replace_go_length (old new s : pystr) :
  (length new <= length old)%nat ->
  forall skip,
    (length (replace_go old new s skip) + Nat.min skip (length s)
     <= length s)%nat.
Proof.
  intros Hn. induction s as [|c s IH]; intros skip.
  - cbn [replace_go length]. lia.
  - cbn [replace_go]. destruct skip as [|n].
    + destruct (startswith (c :: s) old) eqn:Hs.
      * apply startswith_length in Hs. cbn [length] in Hs |- *.
        rewrite length_app. specialize (IH (length old - 1)%nat). lia.
      * cbn [length]. specialize (IH 0%nat). lia.
    + cbn [length]. specialize (IH n). lia.
Qed.

Lemma replace_go_shorter (old new s : pystr) :
  (length new < length old)%nat ->
  str_in old s = true ->
  (length (replace_go old new s 0) < length s)%nat.
Proof.
  intros Hn. induction s as [|c s IH]; intros H.
  - destruct old; [cbn [length] in Hn; lia | discriminate H].
  - cbn [replace_go]. cbn [str_in] in H.
    destruct (startswith (c :: s) old) eqn:Hs.
    + apply startswith_length in Hs. cbn [length] in Hs |- *.
      rewrite length_app.
      pose proof (replace_go_length old new s ltac:(lia) (length old - 1)%nat).
      lia.
    + cbn [orb] in H. cbn [length]. specialize (IH H). lia.
Qed.

Lemma replace_length (old new s : pystr) :
  (length new < length old)%nat ->
  (length (replace old new s) <= length s)%nat
  /\ (str_in old s = true -> (length (replace old new s) < length s)%nat).
Proof.
  intros Hn. destruct old as [|a old]; [cbn [length] in Hn; lia|].
  unfold replace. split.
  - pose proof (replace_go_length (a :: old) new s ltac:(lia) 0%nat). lia.
  - now apply replace_go_shorter.
Qed.

Lemma decode_fold_length (es : list (pystr * pystr)) :
  Forall (fun e => (length (snd e) < length (fst e))%nat) es ->
  forall v,
    (length (fold_left (fun t e => replace (fst e) (snd e) t) es v)
     <= length v)%nat
    /\ (forallb (fun e => negb (str_in (fst e) v)) es = false ->
        (length (fold_left (fun t e => replace (fst e) (snd e) t) es v)
         < length v)%nat).
Proof.
  induction 1 as [|e es He Hes IH]; intros v.
  - cbn [fold_left forallb]. split; [lia | discriminate].
  - cbn [fold_left forallb].
    destruct (replace_length (fst e) (snd e) v He) as [Hle Hlt].
    destruct (IH (replace (fst e) (snd e) v)) as [IHle _].
    split; [exact (Nat.le_trans _ _ _ IHle Hle)|].
    destruct (str_in (fst e) v) eqn:Hin; cbn [negb andb].
    + intros _. exact (Nat.le_lt_trans _ _ _ IHle (Hlt eq_refl)).
    + intros Hrest. apply andb_false_iff in Hrest as [Hrest | Hrest].
      { apply negb_false_iff in Hrest.
        discriminate (eq_trans (eq_sym Hrest) Hin). }
      assert (Hne : fst e <> []).
      { destruct (fst e); [cbn [length] in He; lia | discriminate]. }
      rewrite (replace_absent _ _ v Hne Hin).
      destruct (IH v) as [_ IHlt]. exact (IHlt Hrest).
Qed.

Lemma entities_shorten :
  Forall (fun e => (length (snd e) < length (fst e))%nat) entities.
Proof. repeat constructor. Qed.

Lemma decode_entities_length (v : pystr) :
  (length (decode_entities v) <= length v)%nat
  /\ (entity_free v = false ->
      (length (decode_entities v) < length v)%nat).
Proof. exact (decode_fold_length entities entities_shorten v). Qed.

(** The texts that [clean_text] returns as they are. *)
Lemma clean_text_fixed (u : pystr) :
  clean_text u = u <-> entity_free u = true /\ clean_form u.
Proof.
  rewrite clean_text_eq. split.
  - intros H.
    pose proof (length_collapse false u) as H1.
    pose proof (length_strip (collapse false u)) as H2.
    destruct (decode_entities_length (strip (collapse false u))) as [H3 H4].
    assert (Hlen : length (decode_entities (strip (collapse false u)))
                   = length u) by now rewrite H.
    destruct (entity_free (strip (collapse false u))) eqn:Hfree.
    + rewrite (decode_entities_absent _ Hfree) in H.
      assert (Hc : clean_form (strip (collapse false u))).
      { repeat split.
        - apply strip_no_lead.
        - apply rev_strip_no_lead.
        - apply (sparse_strip false), collapse_sparse. }
      rewrite H in Hfree, Hc. now split.
    + specialize (H4 eq_refl). lia.
  - intros [Hfree (H1 & H2 & H3)].
    rewrite (collapse_fixed false u H3), (strip_id u H1 H2).
    now apply decode_entities_absent.
Qed.

End CleanText.

(** C10, as the specification states it, fails: a decoded [&nbsp;] leaves
    a space that a second run removes. *)
Lemma clean_text_not_idempotent :
  clean_text (py "a&nbsp;") = py "a "
  /\ clean_text (clean_text (py "a&nbsp;")) = py "a"
  /\ clean_text (clean_text (py "a&nbsp;")) <> clean_text (py "a&nbsp;").
Proof.
  split; [vm_compute; reflexivity|].
  split; [vm_compute; reflexivity|].
  vm_compute. discriminate.
Qed.

(** C10, amended.  [clean_text] applied to its own output returns that
    output exactly when the output contains none of the six entities, has
    no white space at either end, and inside only single spaces.  This is
    so for every text in which no entity occurs. *)
Theorem clean_text_idempotent_iff (t : pystr) :
  (clean_text (clean_text t) = clean_text t
   <-> entity_free (clean_text t) = true /\ clean_form (clean_text t))
  /\ (entity_free t = true -> clean_text (clean_text t) = clean_text t).
Proof.
  split.
  - apply clean_text_fixed.
  - intros H. rewrite !clean_text_eq.
    pose proof (entity_free_normalise t H) as Hn.
    rewrite (decode_entities_absent _ Hn).
    rewrite normalise_idempotent. exact (decode_entities_absent _ Hn).
Qed.

Lemma clean_text_idempotent_witness :
  clean_text (py " Tom  &amp; Jerry&#8217;s ") = py "Tom & Jerry's"
  /\ clean_text (clean_text (py " Tom  &amp; Jerry&#8217;s "))
     = clean_text (py " Tom  &amp; Jerry&#8217;s ")
  /\ clean_text (clean_text (py "  Hello   World & co "))
     = clean_text (py "  Hello   World & co ").
Proof.
  split; [reflexivity|]. split.
  - apply (proj2 (proj1 (clean_text_idempotent_iff
                           (py " Tom  &amp; Jerry&#8217;s ")))).
    split; [reflexivity|]. repeat split; reflexivity.
  - apply (proj2 (clean_text_idempotent_iff (py "  Hello   World & co "))).
    reflexivity.
Defined.

(** ** Construction of a Show *)

(** C3. A [Show] whose title or theater name is empty or consists of white
    space cannot be constructed, whatever the other arguments: the
    constructor raises a [ValueError].  With a title and a theater name
    that have a character other than white space, and every optional
    argument left out, the constructor returns a [Show], and its status is
    [UPCOMING]. *)
Theorem Show_construction (E : Externals) :
  (forall a : ShowArgs,
      forallb is_space (a_show_title a) = true
      \/ forallb is_space (a_theater_name a) = true ->
      exists msg, new_Show a = Raise (Exn ValueError msg))
  /\ (forall theater_name theater_url show_title : pystr,
      forallb is_space show_title = false ->
      forallb is_space theater_name = false ->
      exists show,
        new_Show (default_args theater_name theater_url show_title)
        = Return show
        /\ status show = UPCOMING
        /\ DataSchema.show_title show = show_title
        /\ DataSchema.theater_name show = theater_name).
Proof.
  split.
  - intros a H. unfold new_Show.
    destruct (blank (a_show_title a)) eqn:Ht; [eauto|].
    destruct (blank (a_theater_name a)) eqn:Hn; [eauto|].
    destruct H as [H | H]; apply blank_iff in H; congruence.
  - intros name url title Ht Hn. unfold new_Show, default_args. simpl.
    destruct (blank title) eqn:Bt.
    { apply blank_iff in Bt. congruence. }
    destruct (blank name) eqn:Bn.
    { apply blank_iff in Bn. congruence. }
    eexists. repeat split.
Qed.

Lemma Show_construction_witness :
  (exists msg,
      new_Show (default_args (E := Model.externals Model.a_day)
                  (py "Vineyard Theatre") (py "https://vineyardtheatre.org")
                  (py "   "))
      = Raise (Exn ValueError msg))
  /\ (exists show,
      new_Show (default_args (E := Model.externals Model.a_day)
                  (py "Vineyard Theatre") (py "https://vineyardtheatre.org")
                  (py "Hamlet"))
      = Return show
      /\ status show = UPCOMING
      /\ DataSchema.show_title show = py "Hamlet"
      /\ DataSchema.theater_name show = py "Vineyard Theatre").
Proof.
  split.
  - apply (proj1 (Show_construction (Model.externals Model.a_day))).
    left. reflexivity.
  - apply (proj2 (Show_construction (Model.externals Model.a_day)));
      reflexivity.
Defined.

(** ** The scrape session *)

(** C4, as the specification states it, fails: [run] catches [Exception],
    and an interrupt of the scrape is none, so it leaves [run]. *)
Lemma run_propagates_interrupt :
  run (E := Model.externals Model.a_day)
      (init (py "New York Theatre Workshop") (py "https://www.nytw.org/"))
      (Raise (Exn KeyboardInterrupt []))
  = Raise (Exn KeyboardInterrupt [])
  /\ forall r,
      run (E := Model.externals Model.a_day)
          (init (py "New York Theatre Workshop") (py "https://www.nytw.org/"))
          (Raise (Exn KeyboardInterrupt []))
      <> Return r.
Proof.
  split; [reflexivity|]. intros r. discriminate.
Qed.

(** C4, amended.  When the scrape raises an exception that is an
    [Exception], [run] does not raise: it returns a result for the theater
    of the scraper, with [success] false and the message of the exception
    as [error].  Whatever the scrape does, short of an interrupt or an
    exit of the interpreter, [run] returns a result.  An exception that is
    no [Exception] leaves [run] as it came. *)
Theorem run_returns_result (E : Externals) (self : scraper) :
  (forall e : exn,
      is_Exception (exn_cls e) = true ->
      exists r,
        run self (Raise e) = Return r
        /\ success r = false
        /\ error r = Some (exn_str e)
        /\ r_theater_name r = self_theater_name self
        /\ shows r = [])
  /\ (forall scrape : exc ScraperResult,
      (forall e, scrape = Raise e -> is_Exception (exn_cls e) = true) ->
      exists r, run self scrape = Return r)
  /\ (forall e : exn,
      is_Exception (exn_cls e) = false -> run self (Raise e) = Raise e).
Proof.
  split; [|split].
  - intros e He. unfold run, try_except. simpl. rewrite He.
    eexists. repeat split.
  - intros scrape H. unfold run, try_except.
    destruct scrape as [result | e]; simpl.
    + eexists. reflexivity.
    + rewrite (H e eq_refl). eexists. reflexivity.
  - intros e He. unfold run, try_except. simpl. now rewrite He.
Qed.

Lemma run_returns_result_witness :
  exists r,
    run (E := Model.externals Model.a_day)
        (init (py "New York Theatre Workshop") (py "https://www.nytw.org/"))
        (Raise (Exn RuntimeError (py "connection reset")))
    = Return r
    /\ success r = false
    /\ error r = Some (py "connection reset")
    /\ r_theater_name r = py "New York Theatre Workshop"
    /\ shows r = [].
Proof.
  apply (proj1 (run_returns_result (Model.externals Model.a_day)
                  (init (py "New York Theatre Workshop")
                        (py "https://www.nytw.org/")))
               (Exn RuntimeError (py "connection reset"))).
  reflexivity.
Defined.

(** ** Dates and date ranges *)

Section DateRange.
Context {E : Externals}.

Lemma parse_date_nonempty (d s : pystr) :
  parse_date d = Return (Some s) -> s <> [].
Proof.
  unfold parse_date. destruct d as [|c d]; [discriminate|].
  unfold try_except, bind.
  destruct (dateutil_parse (c :: d)) as [dt | e].
  - intros H. injection H as <-. discriminate.
  - destruct (exn_cls e); discriminate.
Qed.


Lemma loop_skip_app (before seps : list pystr) (text : pystr) :
  (forall sep, In sep before -> str_in sep text = false) ->
  parse_date_range_loop (before ++ seps) text = parse_date_range_loop seps text.
Proof.
  induction before as [|sep before IH]; intros H; [reflexivity|].
  cbn [app parse_date_range_loop].
  rewrite (H sep (or_introl eq_refl)).
  apply IH. intros s Hs. apply H. now right.
Qed.

(** [split] cuts at the first occurrence of the separator. *)
Lemma split1_first (sep l r : pystr) :
  no_earlier sep (l ++ sep ++ r) (length l) = true ->
  split1 sep (l ++ sep ++ r) = [l; r].
Proof.
  induction l as [|c l IH]; intros H.
  - cbn [app]. assert (Hs : startswith (sep ++ r) sep = true)
      by (apply startswith_spec; now exists r).
    destruct (sep ++ r) as [|x t] eqn:Ht.
    + destruct sep; [|discriminate]. simpl in Ht. subst r. reflexivity.
    + cbn [split1]. rewrite Hs. rewrite <- Ht.
      rewrite skipn_app, skipn_all, Nat.sub_diag. reflexivity.
  - cbn [length no_earlier app] in H. apply andb_true_iff in H as [H1 H2].
    apply negb_true_iff in H1. cbn [app split1].
    cbn [app] in H1. rewrite H1. now rewrite (IH H2).
Qed.

End DateRange.

(** C6, as the specification states it, fails.  Each side of a range is
    parsed on its own, and a side that names no year takes the year of the
    day of the run: on 4 November 2026 the start of
    ["Feb 21 - Mar 29, 2025"] is in 2026, after the end. *)
Lemma parse_date_range_start_after_end :
  parse_date_range (E := Model.externals (Date 2026 11 4))
    (py "Feb 21 - Mar 29, 2025")
  = Return (Some (py "2026-02-21"), Some (py "2025-03-29"))
  /\ str_leb (py "2026-02-21") (py "2025-03-29") = false
  /\ parse_date_range (E := Model.externals (Date 2026 11 4))
       (py "Feb 21 - Mar 29, 2025")
     <> Return (Some (py "2025-02-21"), Some (py "2025-03-29")).
Proof.
  split; [vm_compute; reflexivity|].
  split; [vm_compute; reflexivity|].
  vm_compute. discriminate.
Qed.

(** Whatever the date parser is, the start of ["Feb 21 - Mar 29, 2025"] is
    what it makes of ["Feb 21"] alone, in which there is no year. *)
Lemma parse_date_range_sides (E : Externals) :
  parse_date_range (py "Feb 21 - Mar 29, 2025")
  = (start <- parse_date (py "Feb 21") ;;
     end_ <- parse_date (py "Mar 29, 2025") ;;
     Return (start, end_)).
Proof. vm_compute. reflexivity. Qed.

(** C6, amended.  When [sep] is the first separator of the list that
    occurs in the text, and [left] and [right] are what is before and after
    its first occurrence, [parse_date_range] returns the pair of
    [parse_date] of [left] and of [right], both stripped: each side is
    parsed on its own, and nothing orders the two dates. *)
Theorem parse_date_range_split (E : Externals)
    (before after : list pystr) (sep left right : pystr) :
  separators = before ++ sep :: after ->
  (forall s, In s before -> str_in s (left ++ sep ++ right) = false) ->
  no_earlier sep (left ++ sep ++ right) (length left) = true ->
  parse_date_range (left ++ sep ++ right)
  = (start <- parse_date (strip left) ;;
     end_ <- parse_date (strip right) ;;
     Return (start, end_)).
Proof.
  intros Hseps Hbefore Hfirst.
  assert (Hin : str_in sep (left ++ sep ++ right) = true)
    by (apply str_in_spec; now exists left, right).
  assert (Hne : sep <> []).
  { assert (Hs : In sep separators) by (rewrite Hseps; apply in_elt).
    unfold separators in Hs. simpl in Hs.
    repeat (destruct Hs as [<- | Hs]; [discriminate|]). contradiction. }
  unfold parse_date_range.
  destruct (left ++ sep ++ right) as [|c t] eqn:Ht.
  { destruct left; [destruct sep; [congruence | discriminate] | discriminate]. }
  rewrite <- Ht in *. rewrite Hseps.
  rewrite (loop_skip_app before (sep :: after) _ Hbefore).
  cbn [parse_date_range_loop]. rewrite Hin.
  now rewrite (split1_first sep left right Hfirst).
Qed.

Lemma parse_date_range_split_witness :
  parse_date_range (E := Model.externals (Date 2025 6 1))
    (py "Feb 21 - Mar 29, 2025")
  = Return (Some (py "2025-02-21"), Some (py "2025-03-29")).
Proof.
  change (py "Feb 21 - Mar 29, 2025")
    with (py "Feb 21" ++ py " - " ++ py "Mar 29, 2025").
  rewrite (parse_date_range_split (Model.externals (Date 2025 6 1))
             [py " to "]
             [[32%N; en_dash; 32%N]; py " through "; [en_dash]; py "-"]
             (py " - ") (py "Feb 21") (py "Mar 29, 2025")).
  - vm_compute. reflexivity.
  - reflexivity.
  - intros s [<- | []]. vm_compute. reflexivity.
  - vm_compute. reflexivity.
Defined.



(** ** Prices *)

Section Matching.

(** A match that succeeds before a continuation succeeds before any
    continuation that succeeds wherever the first does. *)
Lemma star_mono {A B} (p : N -> bool) (s : pystr)
    (k : pystr -> option A) (k' : pystr -> option B) :
  (forall s1 x, k s1 = Some x -> exists y, k' s1 = Some y) ->
  forall x, star p s k = Some x -> exists y, star p s k' = Some y.
Proof.
  intros Hk. induction s as [|c s IH]; simpl; intros x H.
  - now apply (Hk [] x).
  - destruct (p c); [|now apply (Hk (c :: s) x)].
    destruct (star p s k) as [x1|] eqn:H1.
    + destruct (IH x1 eq_refl) as [y ->]. now exists y.
    + destruct (star p s k') as [y|]; [now exists y|].
      now apply (Hk (c :: s) x).
Qed.

Lemma rmatch_mono {A B} (r : regex) :
  forall (s : pystr) (g : groups)
         (k : pystr -> groups -> option A) (k' : pystr -> groups -> option B),
  (forall s1 g1 x, k s1 g1 = Some x -> exists y, k' s1 g1 = Some y) ->
  forall x, rmatch r s g k = Some x -> exists y, rmatch r s g k' = Some y.
Proof.
  induction r as [|p|r1 IH1 r2 IH2|r1 IH1 r2 IH2|r1 IH1|p|n r1 IH1];
    intros s g k k' Hk x H; cbn [rmatch] in *.
  - now apply (Hk s g x).
  - destruct s as [|c s]; [discriminate|].
    destruct (p c); [now apply (Hk s g x) | discriminate].
  - refine (IH1 s g _ _ _ x H).
    intros s1 g1 x1 H1. now apply (IH2 s1 g1 k k' Hk x1).
  - destruct (rmatch r1 s g k) as [x1|] eqn:H1.
    + destruct (IH1 s g k k' Hk x1 H1) as [y ->]. now exists y.
    + destruct (rmatch r1 s g k') as [y|]; [now exists y|].
      now apply (IH2 s g k k' Hk x).
  - destruct (rmatch r1 s g k) as [x1|] eqn:H1.
    + destruct (IH1 s g k k' Hk x1 H1) as [y ->]. now exists y.
    + destruct (rmatch r1 s g k') as [y|]; [now exists y|].
      now apply (Hk s g x).
  - refine (star_mono p s (fun s1 => k s1 g) (fun s1 => k' s1 g) _ x H).
    intros s1 x1. apply Hk.
  - refine (IH1 s g _ _ _ x H).
    intros s1 g1 x1. apply Hk.
Qed.

Context {E : Externals}.

(** Where the range pattern matches, the pattern of a single price, with
    which it begins, matches too. *)
Lemma range_match_single (s : pystr) :
  match_here range_pattern s <> None -> match_here single_pattern s <> None.
Proof.
  unfold match_here. intros H.
  destruct (rmatch range_pattern s [] (fun rest g => Some (rest, g)))
    as [x|] eqn:Hr; [clear H | congruence].
  change (rmatch range_pattern s [] (fun rest g => Some (rest, g)))
    with (rmatch single_pattern s []
            (fun s3 g3 =>
               rmatch (Star is_space >> Chr is_dash >> Star is_space >>
                       Opt (Ch "$") >> Star is_space >> Group 2 amount)%re
                      s3 g3 (fun rest g => Some (rest, g)))) in Hr.
  destruct (rmatch_mono single_pattern s [] _
              (fun rest g => Some (rest, g)) (fun s1 g1 x1 _ => ex_intro _ (s1, g1) eq_refl)
              x Hr) as [y ->].
  discriminate.
Qed.

Lemma range_search_single (s : pystr) (i : Z) :
  search_from range_pattern s i <> None ->
  search_from single_pattern s i <> None.
Proof.
  revert i; induction s as [|c s IH]; intros i; cbn [search_from].
  - pose proof (range_match_single []) as H.
    destruct (match_here range_pattern []) as [[? ?]|].
    + destruct (match_here single_pattern []) as [[? ?]|]; [discriminate|].
      intros _. exfalso. now apply H.
    + congruence.
  - pose proof (range_match_single (c :: s)) as H.
    destruct (match_here range_pattern (c :: s)) as [[? ?]|].
    + destruct (match_here single_pattern (c :: s)) as [[? ?]|]; [discriminate|].
      intros _. exfalso. now apply H.
    + destruct (match_here single_pattern (c :: s)) as [[? ?]|]; [discriminate|].
      apply IH.
Qed.

End Matching.

(** C8. The three patterns are tried in a fixed order.  Whenever the range
    pattern matches somewhere in a text, the result is the range, built
    from its two groups, although the pattern of a single price matches in
    that text as well: ["Tickets $20-$65, rush $10"] gives ["$20-$65"].
    ["Starting at $5"] gives ["$5+"], and ["no price info"], in which no
    pattern matches, gives [None]. *)
Theorem extract_price_range_precedence (E : Externals) :
  (forall (text : pystr) (range_match : match_obj),
      search range_pattern text = Some range_match ->
      search single_pattern text <> None
      /\ extract_price_range text
         = Some (py "$" ++ group (m_groups range_match) 1 ++ py "-$"
                 ++ group (m_groups range_match) 2))
  /\ extract_price_range (py "Tickets $20-$65, rush $10")
     = Some (py "$20-$65")
  /\ extract_price_range (py "Starting at $5") = Some (py "$5+")
  /\ (search range_pattern (py "no price info") = None
      /\ search starting_pattern (py "no price info") = None
      /\ search single_pattern (py "no price info") = None
      /\ extract_price_range (py "no price info") = None).
Proof.
  split.
  - intros text m H. split.
    + apply range_search_single. unfold search in H. congruence.
    + unfold extract_price_range.
      destruct text as [|c text]; [discriminate H|].
      now rewrite H.
  - split; [vm_compute; reflexivity|].
    split; [vm_compute; reflexivity|].
    repeat split; vm_compute; reflexivity.
Qed.

Lemma extract_price_range_precedence_witness :
  search (range_pattern (E := Model.externals Model.a_day))
    (py "Orchestra $45.50 - $120, rush $10")
  = Some (MatchObj 10 23 [(2%nat, py "120"); (1%nat, py "45.50")])
  /\ search (single_pattern (E := Model.externals Model.a_day))
       (py "Orchestra $45.50 - $120, rush $10") <> None
  /\ extract_price_range (E := Model.externals Model.a_day)
       (py "Orchestra $45.50 - $120, rush $10")
     = Some (py "$45.50-$120").
Proof.
  split; [vm_compute; reflexivity|].
  apply (proj1 (extract_price_range_precedence (Model.externals Model.a_day))
               (py "Orchestra $45.50 - $120, rush $10")
               (MatchObj 10 23 [(2%nat, py "120"); (1%nat, py "45.50")])).
  vm_compute. reflexivity.
Defined.

(** ** Status of a record *)

Section Status.
Context {E : Externals}.






Ltac step_bind H :=
  match type of H with
  | bind ?m _ = _ =>
      let x := fresh "x" in
      let Hx := fresh "Hx" in
      destruct m as [x | ?] eqn:Hx; cbn [bind] in H; [|discriminate H]
  end.





End Status.



(** ** Serialization of a Show *)

Section ToDict.

Lemma str_eqb_eq (a b : pystr) : str_eqb a b = true <-> a = b.
Proof.
  unfold str_eqb. destruct (list_eq_dec N.eq_dec a b); split; congruence.
Qed.

Lemma str_eqb_neq (a b : pystr) : str_eqb a b = false <-> a <> b.
Proof.
  unfold str_eqb. destruct (list_eq_dec N.eq_dec a b); split; congruence.
Qed.

Lemma lookup_setitem_eq {V} (d : list (pystr * V)) (k : pystr) (v : V) :
  lookup (setitem d k v) k = Some v.
Proof.
  induction d as [|[k0 w] d IH]; simpl.
  - assert (H : str_eqb k k = true) by now apply str_eqb_eq.
    now rewrite H.
  - destruct (str_eqb k0 k) eqn:Hk; simpl; rewrite Hk; [reflexivity | exact IH].
Qed.

Lemma lookup_setitem_ne {V} (d : list (pystr * V)) (k k' : pystr) (v : V) :
  k <> k' -> lookup (setitem d k v) k' = lookup d k'.
Proof.
  intros Hne. induction d as [|[k0 w] d IH]; simpl.
  - apply str_eqb_neq in Hne. now rewrite Hne.
  - destruct (str_eqb k0 k) eqn:Hk; simpl.
    + apply str_eqb_eq in Hk. subst k0.
      apply str_eqb_neq in Hne. now rewrite Hne.
    + now rewrite IH.
Qed.

(** A round of the loop for another key leaves the entry of [key]. *)
Lemma to_dict_step_other (result : list (pystr * field)) (kv : pystr * field)
    (key : pystr) :
  fst kv <> key -> lookup (to_dict_step result kv) key = lookup result key.
Proof.
  destruct kv as [k v]. simpl. intros Hne.
  destruct (is_None v); [reflexivity|].
  destruct (str_eqb k (py "dates") && is_dict v);
    [now apply lookup_setitem_ne|].
  destruct (str_eqb k (py "status")); [now apply lookup_setitem_ne|].
  destruct (is_empty_list v); [reflexivity | now apply lookup_setitem_ne].
Qed.

Lemma to_dict_fold_other (l : list (pystr * field))
    (result : list (pystr * field)) (key : pystr) :
  Forall (fun kv => fst kv <> key) l ->
  lookup (fold_left to_dict_step l result) key = lookup result key.
Proof.
  revert result; induction l as [|kv l IH]; intros result H; [reflexivity|].
  inversion H as [|? ? H1 H2]; subst. simpl.
  rewrite (IH _ H2). now apply to_dict_step_other.
Qed.

Lemma fold_left_cons {A B} (f : A -> B -> A) (x : B) (l : list B) (a : A) :
  fold_left f (x :: l) a = fold_left f l (f a x).
Proof. reflexivity. Qed.

Ltac other_keys :=
  repeat (constructor; [cbn [fst]; discriminate|]); constructor.

(** The entry of [dates] is the [asdict] of the [ShowDates], with all
    three keys. *)
Lemma Show_to_dict_dates (s : Show) :
  lookup (Show_to_dict s) (py "dates")
  = match dates s with
    | Some d => Some (FVal (PDict (asdict_ShowDates d)))
    | None => None
    end.
Proof.
  unfold Show_to_dict, asdict_Show.
  set (v := FVal (match dates s with
                  | Some d => PDict (asdict_ShowDates d)
                  | None => PNone
                  end)).
  match goal with
  | |- lookup (fold_left _ (?a :: ?b :: ?c :: ?d :: ?e :: (?k, v) :: ?post) [])
         _ = _ =>
      change (a :: b :: c :: d :: e :: (k, v) :: post)
        with ([a; b; c; d; e] ++ (k, v) :: post);
      rewrite fold_left_app, fold_left_cons;
      rewrite (to_dict_fold_other post _ (py "dates")) by other_keys
  end.
  set (r := fold_left to_dict_step _ []).
  assert (Hr : lookup r (py "dates") = None).
  { subst r. rewrite to_dict_fold_other by other_keys. reflexivity. }
  subst v. destruct (dates s) as [d|].
  - cbn [to_dict_step is_None].
    change (str_eqb (py "dates") (py "dates")) with true.
    cbn [andb is_dict]. apply lookup_setitem_eq.
  - exact Hr.
Qed.

(** The entry of [status] is the lowercase name of the status. *)
Lemma Show_to_dict_status (s : Show) :
  lookup (Show_to_dict s) (py "status")
  = Some (FVal (PStr (status_value (status s)))).
Proof.
  unfold Show_to_dict, asdict_Show.
  match goal with
  | |- lookup (fold_left _ ?l []) _ = _ =>
      match l with
      | context [(?k, FStatus ?st) :: ?post] =>
          change l with (firstn 14 l ++ (k, FStatus st) :: post)
      end
  end.
  rewrite fold_left_app, fold_left_cons.
  rewrite (to_dict_fold_other _ _ (py "status")) by other_keys.
  cbn [to_dict_step is_None].
  change (str_eqb (py "status") (py "dates")) with false.
  change (str_eqb (py "status") (py "status")) with true.
  cbn [andb value_attr]. apply lookup_setitem_eq.
Qed.

Lemma lookup_setitem_inv {V} (d : list (pystr * V)) (k k' : pystr) (v w : V) :
  lookup (setitem d k v) k' = Some w -> w = v \/ lookup d k' = Some w.
Proof.
  destruct (list_eq_dec N.eq_dec k k') as [<- | Hne].
  - rewrite lookup_setitem_eq. intros H. injection H as <-. now left.
  - rewrite (lookup_setitem_ne d k k' v Hne). now right.
Qed.

Lemma to_dict_step_stored (result : list (pystr * field)) (kv : pystr * field) :
  (forall k v, lookup result k = Some v -> stored v) ->
  (fst kv = py "status" -> exists st, snd kv = FStatus st) ->
  forall k v, lookup (to_dict_step result kv) k = Some v -> stored v.
Proof.
  destruct kv as [key value]. cbn [fst snd to_dict_step]. intros Hr Hst k v.
  destruct (is_None value) eqn:Hn; [apply Hr|].
  destruct (str_eqb key (py "dates") && is_dict value) eqn:Hd.
  { intros H. apply lookup_setitem_inv in H as [-> | H]; [|now apply (Hr k)].
    apply andb_true_iff in Hd as [_ Hd]. split; [exact Hn|].
    destruct value as [[]|]; try discriminate Hd. reflexivity. }
  destruct (str_eqb key (py "status")) eqn:Hs.
  { intros H. apply lookup_setitem_inv in H as [-> | H]; [|now apply (Hr k)].
    apply str_eqb_eq in Hs. destruct (Hst Hs) as [st ->]. now split. }
  destruct (is_empty_list value) eqn:He; [apply Hr|].
  intros H. apply lookup_setitem_inv in H as [-> | H]; [|now apply (Hr k)].
  now split.
Qed.

Lemma to_dict_fold_stored (l : list (pystr * field)) :
  Forall (fun kv => fst kv = py "status" -> exists st, snd kv = FStatus st) l ->
  forall result,
    (forall k v, lookup result k = Some v -> stored v) ->
    forall k v, lookup (fold_left to_dict_step l result) k = Some v -> stored v.
Proof.
  induction l as [|kv l IH]; intros Hl result Hr; [exact Hr|].
  inversion Hl as [|? ? H1 H2]; subst. cbn [fold_left].
  apply (IH H2). now apply to_dict_step_stored.
Qed.

(** At the top level [to_dict] has no entry for an absent field and none
    for an empty list. *)
Lemma Show_to_dict_stored (s : Show) (k : pystr) (v : field) :
  lookup (Show_to_dict s) k = Some v ->
  v <> FVal PNone /\ v <> FVal (PList []).
Proof.
  intros H.
  assert (Hs : stored v).
  { revert H. apply to_dict_fold_stored; [|discriminate].
    unfold asdict_Show.
    repeat (constructor; [cbn [fst snd]; first [discriminate | eauto]|]).
    constructor. }
  destruct Hs as [H1 H2]. split; intros ->; discriminate.
Qed.

End ToDict.

(** C9 does not hold of the code for the nested dates.  [Show.to_dict]
    stores the dictionary that [asdict] made of the [ShowDates], in which
    the absent [end] and [schedule] are [None] entries; [ShowDates.to_dict],
    which leaves them out, is not called.  The top level is as the
    specification says: no entry for an absent field or an empty list, and
    the status as its lowercase name. *)
Theorem Show_to_dict_dates_keep_None :
  lookup (Show_to_dict show_with_start) (py "dates")
  = Some (FVal (PDict [ (py "start", PStr (py "2025-02-21"));
                        (py "end", PNone);
                        (py "schedule", PNone) ]))
  /\ ShowDates_to_dict (mkShowDates (Some (py "2025-02-21")) None None)
     = [ (py "start", PStr (py "2025-02-21")) ]
  /\ map fst (Show_to_dict show_with_start)
     = [ py "theater_name"; py "theater_url"; py "show_title"; py "dates";
         py "status"; py "scraped_at"; py "scraper_version" ]
  /\ lookup (Show_to_dict show_with_start) (py "status")
     = Some (FVal (PStr (py "upcoming")))
  /\ forall s,
       lookup (Show_to_dict s) (py "dates")
       = match dates s with
         | Some d =>
             Some (FVal (PDict [ (py "start", opt_str (start d));
                                 (py "end", opt_str (end_ d));
                                 (py "schedule", opt_str (schedule d)) ]))
         | None => None
         end.
Proof.
  split; [vm_compute; reflexivity|].
  split; [vm_compute; reflexivity|].
  split; [vm_compute; reflexivity|].
  split; [vm_compute; reflexivity|].
  intros s. apply Show_to_dict_dates.
Qed.


(** ** The bound of the scan *)

Section ScanBound.

(** On backslashes alone the loop only takes its two [continue] branches,
    which do not reach the safety check: it runs to the end of the text. *)
Lemma scan_backslashes (n : nat) :
  forall bracket_pos i depth in_string string_char escape_next,
    scan (repeat 92%N n) bracket_pos i depth in_string string_char escape_next
    = ScanEnd (i + Z.of_nat n).
Proof.
  induction n as [|n IH]; intros bp i depth ins sc esc.
  - simpl. f_equal. lia.
  - cbn [repeat scan]. destruct esc.
    + rewrite IH. f_equal. lia.
    + change (92 =? 92)%N with true. cbv iota. rewrite IH. f_equal. lia.
Qed.

Lemma scan_backslash_pairs (k : nat) (rest : pystr) :
  forall bracket_pos i depth in_string string_char,
    scan (repeat 92%N (2 * k) ++ rest) bracket_pos i depth in_string
         string_char false
    = scan rest bracket_pos (i + 2 * Z.of_nat k) depth in_string
           string_char false.
Proof.
  induction k as [|k IH]; intros bp i depth ins sc.
  - simpl. f_equal. lia.
  - replace (2 * S k)%nat with (S (S (2 * k))) by lia.
    cbn [repeat app scan]. change (92 =? 92)%N with true. cbv iota.
    rewrite IH. f_equal. lia.
Qed.

(** The loop ends on every text, within the text. *)
Lemma scan_within_text (rest : pystr) :
  forall bracket_pos i depth in_string string_char escape_next,
    i <= scan_index (scan rest bracket_pos i depth in_string string_char
                          escape_next)
      <= i + len rest.
Proof.
  unfold len. induction rest as [|c rest IH];
    intros bp i depth ins sc esc; cbn [scan length]; [cbn [scan_index]; lia|].
  repeat match goal with
         | |- context [if ?b then _ else _] => destruct b
         end;
    cbn [scan_index]; try lia;
    match goal with
    | |- context [scan rest ?a ?b ?c ?d ?e ?f] =>
        specialize (IH a b c d e f); lia
    end.
Qed.

(** On a text without a backslash the safety check is reached at every
    character: the loop is left at most 500,001 characters after the
    opening bracket. *)
Lemma scan_bound_without_escapes (rest : pystr) :
  no_backslash rest = true ->
  forall bracket_pos i depth in_string string_char,
    i - bracket_pos <= 500000 ->
    scan_index (scan rest bracket_pos i depth in_string string_char false)
    - bracket_pos <= 500001.
Proof.
  induction rest as [|c rest IH]; intros Hn bp i depth ins sc Hi;
    cbn [scan]; [cbn [scan_index]; lia|].
  cbn [no_backslash forallb] in Hn. apply andb_true_iff in Hn as [Hc Hn].
  apply negb_true_iff in Hc. rewrite Hc. fold (no_backslash rest) in Hn.
  repeat match goal with
         | |- context [if ?b then _ else _] => destruct b eqn:?
         end;
    cbn [scan_index]; try lia;
    match goal with
    | H : (?j - bp >? 500000) = false |- context [scan rest ?a ?j ?c ?d ?e false] =>
        apply (IH Hn a j c d e); lia
    end.
Qed.

Lemma search_from_here (r : regex) (s rest : pystr) (g : groups) (i : Z) :
  match_here r s = Some (rest, g) ->
  search_from r s i = Some (MatchObj i (i + len s - len rest) g).
Proof. intros H. destruct s; cbn [search_from]; now rewrite H. Qed.

Lemma anchor_match (R : pystr) :
  match_here (anchor "var events") (py "var events = [" ++ R)
  = Some (py "[" ++ R, []).
Proof. vm_compute. reflexivity. Qed.

Lemma len_prefix (R : pystr) :
  len (py "var events = [" ++ R) = 14 + len R.
Proof. unfold len. rewrite length_app. change (length (py "var events = [")) with 14%nat. lia. Qed.

Lemma anchor_search (R : pystr) :
  search (anchor "var events") (py "var events = [" ++ R)
  = Some (MatchObj 0 13 []).
Proof.
  unfold search. rewrite (search_from_here _ _ _ _ 0 (anchor_match R)).
  rewrite len_prefix. change (py "[" ++ R) with (91%N :: R).
  unfold len. cbn [length]. f_equal. f_equal. lia.
Qed.

Lemma find_bracket (R : pystr) :
  (9 <= length R)%nat ->
  find (py "var events = [" ++ R) (py "[") 3 23 = 13.
Proof.
  intros H. unfold find, slice.
  assert (Hl : 23 <= len (py "var events = [" ++ R))
    by (rewrite len_prefix; unfold len; lia).
  assert (Ha : slice_bound (len (py "var events = [" ++ R)) 3 = 3)
    by (unfold slice_bound; cbn [Z.ltb Z.compare]; lia).
  assert (Hb : slice_bound (len (py "var events = [" ++ R)) 23 = 23)
    by (unfold slice_bound; cbn [Z.ltb Z.compare]; lia).
  rewrite Ha, Hb.
  assert (Hc : (len (py "var events = [" ++ R) <? 3) = false)
    by (apply Z.ltb_ge; lia).
  rewrite Hc. clear Hl Ha Hb Hc.
  do 9 (destruct R as [|? R]; [cbn [length] in H; lia|]).
  vm_compute. reflexivity.
Qed.

Lemma escapes_scan (n : nat) :
  scan (skipn 13 (escapes_text n)) 13 13 0 false None false
  = ScanEnd (14 + Z.of_nat n).
Proof.
  unfold escapes_text.
  change (skipn 13 (py "var events = [" ++ repeat 92%N n))
    with (91%N :: repeat 92%N n).
  cbn [scan]. change (91 =? 92)%N with false.
  change (is_quote 91 && negb false) with false.
  change (is_string_char 91 None && false) with false.
  change (negb false) with true. change (91 =? 91)%N with true.
  cbv iota beta zeta.
  change (13 + 1 - 13 >? 500000) with false. cbv iota.
  now rewrite scan_backslashes.
Qed.

Lemma escapes_extract (n : nat) :
  (9 <= n)%nat ->
  extract_js_array (escapes_text n) (anchor "var events") = None.
Proof.
  intros H. unfold extract_js_array, escapes_text.
  rewrite anchor_search. cbn [m_end].
  change (13 - 10) with 3. change (13 + 10) with 23.
  rewrite find_bracket by (now rewrite repeat_length).
  change (13 =? -1) with false. cbv iota.
  change (Z.to_nat 13) with 13%nat.
  fold (escapes_text n). now rewrite escapes_scan.
Qed.

Lemma escapes_closed_scan (k : nat) :
  scan (skipn 13 (escapes_text (2 * k) ++ py "]")) 13 13 0 false None false
  = ScanFound (14 + 2 * Z.of_nat k).
Proof.
  unfold escapes_text. rewrite <- app_assoc.
  change (skipn 13 (py "var events = [" ++ repeat 92%N (2 * k) ++ py "]"))
    with (91%N :: repeat 92%N (2 * k) ++ py "]").
  cbn [scan]. change (91 =? 92)%N with false.
  change (is_quote 91 && negb false) with false.
  change (is_string_char 91 None && false) with false.
  change (negb false) with true. change (91 =? 91)%N with true.
  cbv iota beta zeta.
  change (13 + 1 - 13 >? 500000) with false. cbv iota.
  rewrite scan_backslash_pairs. reflexivity.
Qed.

End ScanBound.

(** C2 does not hold of the code.  After an opening bracket followed by
    600,000 backslashes and nothing else, the loop passes over every one of
    them: it is left at the end of the text, at index 600,014, and not by
    the safety check at 500,000 characters from the bracket, which the two
    branches for escapes skip.  The result is [None], as for every array
    that is not closed.  With a closing bracket after the backslashes the
    loop finds it, 600,001 characters after the opening one. *)
Theorem scan_passes_bound_on_escapes :
  find (escapes_text (Z.to_nat 600000)) (py "[") 3 23 = 13
  /\ scan (skipn 13 (escapes_text (Z.to_nat 600000))) 13 13 0 false None false
     = ScanEnd 600014
  /\ extract_js_array (escapes_text (Z.to_nat 600000)) (anchor "var events")
     = None
  /\ scan (skipn 13 (escapes_text (Z.to_nat 600000) ++ py "]"))
          13 13 0 false None false
     = ScanFound 600014.
Proof.
  split.
  { apply find_bracket. rewrite repeat_length. lia. }
  split.
  { rewrite escapes_scan, Z2Nat.id by lia. reflexivity. }
  split.
  { apply escapes_extract. lia. }
  replace (Z.to_nat 600000) with (2 * Z.to_nat 300000)%nat by lia.
  rewrite escapes_closed_scan, Z2Nat.id by lia. reflexivity.
Qed.

(* ===================================================================== *)
(** * Further properties *)
(* ===================================================================== *)

(** ** Fetching a page *)

Section FetchFacts.
Import Fetch FetchSpec.
Variable net : network.
Variable self : scraper.
Variable policy : retry_policy.

Lemma requests_made_app (a b : trace) :
  requests_made (a ++ b) = (requests_made a + requests_made b)%nat.
Proof. unfold requests_made. now rewrite filter_app, length_app. Qed.

Lemma requests_made_request (tr : trace) (url : pystr) :
  requests_made (tr ++ [Request url]) = S (requests_made tr).
Proof. rewrite requests_made_app. unfold requests_made. simpl. lia. Qed.

Lemma requests_made_sleep (tr : trace) (s : Z) :
  requests_made (tr ++ [Sleep s]) = requests_made tr.
Proof. rewrite requests_made_app. unfold requests_made. simpl. lia. Qed.

Lemma slept_app (a b : trace) : slept (a ++ b) = slept a + slept b.
Proof.
  unfold slept. induction a as [|e a IH]; simpl; [reflexivity|].
  destruct e; rewrite IH; lia.
Qed.

Lemma backoff_requests (attempt : Z) (tr : trace) :
  requests_made (snd (backoff policy attempt tr)) = requests_made tr.
Proof.
  unfold backoff, sleep, io_ret.
  destruct (attempt <? retry_count policy - 1); [|reflexivity].
  destruct (_ <? 0); [reflexivity|]. simpl.
  apply requests_made_sleep.
Qed.

Lemma fetch_loop_budget (url : pystr) (remaining : nat) :
  forall attempt tr,
    (requests_made (snd (fetch_loop net policy url remaining attempt tr))
     <= requests_made tr + remaining)%nat.
Proof.
  induction remaining as [|remaining IH]; intros attempt tr.
  - simpl. lia.
  - cbn [fetch_loop].
    pose proof (requests_made_request tr url) as Hreq.
    assert (Hnext :
      (requests_made
         (snd (io_bind (backoff policy attempt)
                 (fun _ => fetch_loop net policy url remaining (attempt + 1))
                 (tr ++ [Request url])))
       <= requests_made tr + S remaining)%nat).
    { unfold io_bind.
      pose proof (backoff_requests attempt (tr ++ [Request url])) as Hb.
      destruct (backoff policy attempt (tr ++ [Request url])) as [[[]|e] tr'];
        simpl in Hb |- *.
      - specialize (IH (attempt + 1) tr'). lia.
      - lia. }
    destruct (net (requests_made tr) url) as [r| | | |e]; try exact Hnext.
    + destruct (is_http_error r).
      * destruct ((status_code r =? 403) || (status_code r =? 404));
          [simpl; lia | exact Hnext].
      * unfold io_bind, sleep, io_ret. simpl.
        rewrite requests_made_sleep. lia.
    + simpl. lia.
Qed.

Lemma slept_retries (url : pystr) (delay : Z) (k : nat) :
  forall attempt,
    2 * slept (retries url delay attempt k)
    = delay * Z.of_nat k * (2 * attempt + Z.of_nat k + 1).
Proof.
  induction k as [|k IH]; intros attempt; [simpl; lia|].
  cbn [retries]. change (slept (Request url :: ?t)) with (slept t).
  change (slept (Sleep ?s :: ?t)) with (s + slept t).
  specialize (IH (attempt + 1)). nia.
Qed.

Lemma triangle_half (k : Z) : 0 <= k -> 2 * (k * (k + 1) / 2) = k * (k + 1).
Proof.
  intros H. assert (Hm : (k * (k + 1)) mod 2 = 0).
  { replace (k * (k + 1)) with (k * k + k) by lia.
    rewrite Z.add_mod, Z.mul_mod by lia.
    pose proof (Z.mod_pos_bound k 2 ltac:(lia)).
    assert (Hc : k mod 2 = 0 \/ k mod 2 = 1) by lia.
    destruct Hc as [-> | ->]; reflexivity. }
  pose proof (Z.div_mod (k * (k + 1)) 2 ltac:(lia)). lia.
Qed.

Lemma slept_retries_from_zero (url : pystr) (delay : Z) (k : nat) :
  slept (retries url delay 0 k)
  = delay * (Z.of_nat k * (Z.of_nat k + 1) / 2).
Proof.
  pose proof (slept_retries url delay k 0) as H.
  pose proof (triangle_half (Z.of_nat k) ltac:(lia)) as Ht.
  nia.
Qed.

Lemma requests_made_retries (url : pystr) (delay : Z) (k : nat) :
  forall attempt, requests_made (retries url delay attempt k) = k.
Proof.
  induction k as [|k IH]; intros attempt; [reflexivity|].
  cbn [retries]. unfold requests_made in *. simpl. now rewrite IH.
Qed.

(** After [k] failures that can be retried, with rounds left for each of
    their pauses, the loop is where it would be [k] rounds later. *)
Lemma fetch_loop_retries (url : pystr) (k m : nat) :
  forall attempt tr,
    0 <= retry_delay policy -> 0 <= attempt ->
    attempt + Z.of_nat k <= retry_count policy - 1 ->
    (forall j, (j < k)%nat ->
               transient (net (requests_made tr + j)%nat url) = true) ->
    fetch_loop net policy url (k + m) attempt tr
    = fetch_loop net policy url m (attempt + Z.of_nat k)
        (tr ++ retries url (retry_delay policy) attempt k).
Proof.
  induction k as [|k IH]; intros attempt tr Hd Ha Hk Hnet.
  - cbn [retries Nat.add]. rewrite app_nil_r. f_equal. lia.
  - replace (S k + m)%nat with (S (k + m)) by lia. cbn [fetch_loop].
    assert (Hnext :
      io_bind (backoff policy attempt)
        (fun _ => fetch_loop net policy url (k + m) (attempt + 1))
        (tr ++ [Request url])
      = fetch_loop net policy url m (attempt + Z.of_nat (S k))
          (tr ++ retries url (retry_delay policy) attempt (S k))).
    { unfold io_bind, backoff, sleep.
      assert (H1 : (attempt <? retry_count policy - 1) = true)
        by (apply Z.ltb_lt; lia).
      assert (H2 : (retry_delay policy * (attempt + 1) <? 0) = false)
        by (apply Z.ltb_ge; nia).
      rewrite H1, H2. rewrite IH; try lia.
      - cbn [retries]. rewrite <- !app_assoc. cbn [app]. f_equal. lia.
      - intros j Hj. rewrite requests_made_sleep, requests_made_request.
        replace (S (requests_made tr) + j)%nat
          with (requests_made tr + S j)%nat by lia.
        apply Hnet. lia. }
    specialize (Hnet 0%nat ltac:(lia)). rewrite Nat.add_0_r in Hnet.
    destruct (net (requests_made tr) url) as [r| | | |e];
      cbn [transient] in Hnet; try exact Hnext; [|discriminate].
    apply andb_true_iff in Hnet as [Hh Hs]. apply negb_true_iff in Hs.
    rewrite Hh, Hs. exact Hnext.
Qed.

End FetchFacts.

(** X1. [fetch_page] makes at most [retry_count] requests, whatever the
    network answers; with a [retry_count] of zero or less it makes none and
    returns [None]. *)
Theorem fetch_page_request_budget (net : Fetch.network) (self : scraper)
    (policy : Fetch.retry_policy) (url : pystr) (tr : Fetch.trace) :
  (Fetch.requests_made (snd (Fetch.fetch_page net self policy url tr))
   <= Fetch.requests_made tr + Z.to_nat (Fetch.retry_count policy))%nat
  /\ (Fetch.retry_count policy <= 0 ->
      Fetch.fetch_page net self policy url tr = (Return None, tr)).
Proof.
  split.
  - apply fetch_loop_budget.
  - intros H. unfold Fetch.fetch_page.
    replace (Z.to_nat (Fetch.retry_count policy)) with 0%nat by lia.
    reflexivity.
Qed.

Lemma fetch_page_request_budget_witness :
  Fetch.fetch_page (FetchSpec.always 200)
    (init (py "The Tank") (py "https://thetanknyc.org/"))
    (Fetch.mkPolicy 0 2) (py "/calendar") []
  = (Return None, []).
Proof.
  apply (proj2 (fetch_page_request_budget (FetchSpec.always 200)
                  (init (py "The Tank") (py "https://thetanknyc.org/"))
                  (Fetch.mkPolicy 0 2) (py "/calendar") [])).
  simpl. lia.
Defined.

(** X2. When the first [k] requests fail in a way that is retried and the
    next one is accepted, [fetch_page] returns that response.  It has made
    [k + 1] requests, paused [retry_delay * (i + 1)] seconds after the
    failure of attempt [i], and one second after the success. *)
Theorem fetch_page_retries_then_succeeds (net : Fetch.network) (self : scraper)
    (policy : Fetch.retry_policy) (url : pystr) (tr : Fetch.trace)
    (k : nat) (r : Fetch.response) :
  0 <= Fetch.retry_delay policy ->
  Z.of_nat k < Fetch.retry_count policy ->
  (forall j, (j < k)%nat ->
     FetchSpec.transient
       (net (Fetch.requests_made tr + j)%nat (Fetch.full_url self url)) = true) ->
  FetchSpec.accepted
    (net (Fetch.requests_made tr + k)%nat (Fetch.full_url self url)) = Some r ->
  let tr' := tr ++ FetchSpec.retries (Fetch.full_url self url)
                     (Fetch.retry_delay policy) 0 k
                ++ [Fetch.Request (Fetch.full_url self url); Fetch.Sleep 1] in
  Fetch.fetch_page net self policy url tr = (Return (Some r), tr')
  /\ Fetch.requests_made tr' = (Fetch.requests_made tr + k + 1)%nat
  /\ Fetch.slept tr'
     = Fetch.slept tr
       + Fetch.retry_delay policy * (Z.of_nat k * (Z.of_nat k + 1) / 2) + 1.
Proof.
  intros Hd Hk Hnet Hok tr'. split; [|split].
  - unfold Fetch.fetch_page.
    replace (Z.to_nat (Fetch.retry_count policy))
      with (k + S (Z.to_nat (Fetch.retry_count policy) - k - 1))%nat by lia.
    rewrite fetch_loop_retries; try lia; [|exact Hnet].
    cbn [Fetch.fetch_loop]. rewrite requests_made_app, requests_made_retries.
    destruct (net (Fetch.requests_made tr + k)%nat (Fetch.full_url self url))
      as [r0| | | |e]; try discriminate Hok.
    cbn [FetchSpec.accepted] in Hok.
    destruct (Fetch.is_http_error r0); [discriminate|].
    injection Hok as ->. unfold Fetch.io_bind, Fetch.sleep, Fetch.io_ret.
    simpl. subst tr'. now rewrite <- !app_assoc.
  - subst tr'. rewrite !requests_made_app, requests_made_retries.
    unfold Fetch.requests_made. simpl. lia.
  - subst tr'. rewrite !slept_app, slept_retries_from_zero.
    unfold Fetch.slept. simpl. lia.
Qed.

Lemma fetch_page_retries_then_succeeds_witness :
  Fetch.fetch_page (FetchSpec.flaky (py "<html>"))
    (init (py "The Tank") (py "https://thetanknyc.org/"))
    (Fetch.mkPolicy 3 2) (py "/calendar") []
  = (Return (Some (Fetch.mkResponse 200 (py "<html>")
                     (Raise (Exn ValueError (py "not JSON"))))),
     [ Fetch.Request (py "https://thetanknyc.org/calendar"); Fetch.Sleep 2;
       Fetch.Request (py "https://thetanknyc.org/calendar"); Fetch.Sleep 4;
       Fetch.Request (py "https://thetanknyc.org/calendar"); Fetch.Sleep 1 ]).
Proof.
  apply (fetch_page_retries_then_succeeds (FetchSpec.flaky (py "<html>"))
           (init (py "The Tank") (py "https://thetanknyc.org/"))
           (Fetch.mkPolicy 3 2) (py "/calendar") [] 2).
  - simpl. lia.
  - simpl. lia.
  - intros [|[|j]] Hj; [reflexivity | reflexivity | lia].
  - reflexivity.
Defined.

(** X3. A response with status 403 or 404 ends [fetch_page] at once: after
    [k] failures that were retried, the request that is answered 403 or
    404 is the last one, no pause follows it, and the result is [None],
    however many attempts are left. *)
Theorem fetch_page_stops_on_refusal (net : Fetch.network) (self : scraper)
    (policy : Fetch.retry_policy) (url : pystr) (tr : Fetch.trace) (k : nat) :
  0 <= Fetch.retry_delay policy ->
  Z.of_nat k < Fetch.retry_count policy ->
  (forall j, (j < k)%nat ->
     FetchSpec.transient
       (net (Fetch.requests_made tr + j)%nat (Fetch.full_url self url)) = true) ->
  FetchSpec.refused
    (net (Fetch.requests_made tr + k)%nat (Fetch.full_url self url)) = true ->
  Fetch.fetch_page net self policy url tr
  = (Return None,
     tr ++ FetchSpec.retries (Fetch.full_url self url)
             (Fetch.retry_delay policy) 0 k
        ++ [Fetch.Request (Fetch.full_url self url)]).
Proof.
  intros Hd Hk Hnet Hno. unfold Fetch.fetch_page.
  replace (Z.to_nat (Fetch.retry_count policy))
    with (k + S (Z.to_nat (Fetch.retry_count policy) - k - 1))%nat by lia.
  rewrite fetch_loop_retries; try lia; [|exact Hnet].
  cbn [Fetch.fetch_loop]. rewrite requests_made_app, requests_made_retries.
  destruct (net (Fetch.requests_made tr + k)%nat (Fetch.full_url self url))
    as [r0| | | |e]; try discriminate Hno.
  cbn [FetchSpec.refused] in Hno. rewrite Hno.
  assert (Hh : Fetch.is_http_error r0 = true).
  { unfold Fetch.is_http_error. apply orb_true_iff in Hno.
    destruct Hno as [H | H]; apply Z.eqb_eq in H; rewrite H; reflexivity. }
  rewrite Hh. now rewrite <- app_assoc.
Qed.

Lemma fetch_page_stops_on_refusal_witness :
  Fetch.fetch_page (FetchSpec.always 404)
    (init (py "The Tank") (py "https://thetanknyc.org/"))
    (Fetch.mkPolicy 3 2) (py "/calendar") []
  = (Return None, [ Fetch.Request (py "https://thetanknyc.org/calendar") ]).
Proof.
  apply (fetch_page_stops_on_refusal (FetchSpec.always 404)
           (init (py "The Tank") (py "https://thetanknyc.org/"))
           (Fetch.mkPolicy 3 2) (py "/calendar") [] 0).
  - simpl. lia.
  - simpl. lia.
  - intros j Hj. lia.
  - reflexivity.
Defined.

(** X4. With a [retry_delay] that is not negative, when every attempt
    fails in a way that is retried, [fetch_page] returns [None] after
    exactly [retry_count] requests.  It pauses [retry_delay * (i + 1)]
    seconds after attempt [i], except after the last one. *)
Theorem fetch_page_gives_up (net : Fetch.network) (self : scraper)
    (policy : Fetch.retry_policy) (url : pystr) (tr : Fetch.trace) (n : nat) :
  0 <= Fetch.retry_delay policy ->
  Fetch.retry_count policy = Z.of_nat (S n) ->
  (forall j, (j <= n)%nat ->
     FetchSpec.transient
       (net (Fetch.requests_made tr + j)%nat (Fetch.full_url self url)) = true) ->
  let tr' := tr ++ FetchSpec.retries (Fetch.full_url self url)
                     (Fetch.retry_delay policy) 0 n
                ++ [Fetch.Request (Fetch.full_url self url)] in
  Fetch.fetch_page net self policy url tr = (Return None, tr')
  /\ Fetch.requests_made tr' = (Fetch.requests_made tr + S n)%nat
  /\ Fetch.slept tr'
     = Fetch.slept tr
       + Fetch.retry_delay policy * (Z.of_nat n * (Z.of_nat n + 1) / 2).
Proof.
  intros Hd Hn Hnet tr'. split; [|split].
  - unfold Fetch.fetch_page. rewrite Hn.
    replace (Z.to_nat (Z.of_nat (S n))) with (n + 1)%nat by lia.
    rewrite fetch_loop_retries; try lia; [|intros j Hj; apply Hnet; lia].
    cbn [Fetch.fetch_loop]. rewrite requests_made_app, requests_made_retries.
    specialize (Hnet n (Nat.le_refl n)).
    assert (Hb : Fetch.backoff policy (0 + Z.of_nat n)
                 = Fetch.io_ret tt).
    { unfold Fetch.backoff.
      assert (H : (0 + Z.of_nat n <? Fetch.retry_count policy - 1) = false)
        by (apply Z.ltb_ge; lia).
      now rewrite H. }
    unfold Fetch.io_bind. rewrite Hb. unfold Fetch.io_ret.
    cbn [Fetch.fetch_loop]. subst tr'. rewrite <- app_assoc.
    destruct (net (Fetch.requests_made tr + n)%nat (Fetch.full_url self url))
      as [r0| | | |e]; cbn [FetchSpec.transient] in Hnet;
      try reflexivity; [|discriminate].
    apply andb_true_iff in Hnet as [Hh Hs]. apply negb_true_iff in Hs.
    now rewrite Hh, Hs.
  - subst tr'. rewrite !requests_made_app, requests_made_retries.
    unfold Fetch.requests_made. simpl. lia.
  - subst tr'. rewrite !slept_app, slept_retries_from_zero.
    unfold Fetch.slept. simpl. lia.
Qed.

Lemma fetch_page_gives_up_witness :
  Fetch.fetch_page (FetchSpec.always 503)
    (init (py "The Tank") (py "https://thetanknyc.org/"))
    (Fetch.mkPolicy 3 2) (py "/calendar") []
  = (Return None,
     [ Fetch.Request (py "https://thetanknyc.org/calendar"); Fetch.Sleep 2;
       Fetch.Request (py "https://thetanknyc.org/calendar"); Fetch.Sleep 4;
       Fetch.Request (py "https://thetanknyc.org/calendar") ]).
Proof.
  apply (fetch_page_gives_up (FetchSpec.always 503)
           (init (py "The Tank") (py "https://thetanknyc.org/"))
           (Fetch.mkPolicy 3 2) (py "/calendar") [] 2).
  - simpl. lia.
  - reflexivity.
  - intros j Hj. reflexivity.
Defined.

Section UrlFacts.

Lemma lstrip_char_split (ch : N) (s : pystr) :
  exists j, s = repeat ch j ++ lstrip_char ch s
            /\ hd_error (lstrip_char ch s) <> Some ch.
Proof.
  induction s as [|c s [j [H1 H2]]]; cbn [lstrip_char].
  - exists 0%nat. split; [reflexivity | discriminate].
  - destruct (N.eqb_spec c ch) as [-> | Hne].
    + exists (S j). split; [cbn [repeat app]; now rewrite <- H1 | exact H2].
    + exists 0%nat. split; [reflexivity|]. simpl. congruence.
Qed.

Lemma rstrip_char_split (ch : N) (s : pystr) :
  exists j, s = rstrip_char ch s ++ repeat ch j
            /\ hd_error (rev (rstrip_char ch s)) <> Some ch.
Proof.
  unfold rstrip_char. destruct (lstrip_char_split ch (rev s)) as [j [H1 H2]].
  exists j. split.
  - apply (f_equal (@rev N)) in H1. rewrite rev_involutive, rev_app_distr in H1.
    rewrite H1 at 1. f_equal. clear. induction j as [|j IH]; [reflexivity|].
    cbn [repeat rev]. rewrite IH. clear IH.
    induction j as [|j IH]; [reflexivity|]. cbn [repeat app]. now rewrite IH.
  - now rewrite rev_involutive.
Qed.

End UrlFacts.

(** X5. The URL that [fetch_page] requests.  A URL that starts with [http]
    is requested as it is.  Any other is appended to the base URL of the
    scraper with one slash between them: the slashes that end the base URL
    given to the constructor and those that start the relative URL are
    dropped. *)
Theorem full_url_one_slash (theater_name base_url url : pystr) :
  (startswith url (py "http") = true ->
   Fetch.full_url (init theater_name base_url) url = url)
  /\ (startswith url (py "http") = false ->
      exists base path i j,
        base_url = base ++ repeat 47%N i
        /\ url = repeat 47%N j ++ path
        /\ hd_error (rev base) <> Some 47%N
        /\ hd_error path <> Some 47%N
        /\ Fetch.full_url (init theater_name base_url) url
           = base ++ py "/" ++ path).
Proof.
  unfold Fetch.full_url, init. cbn [self_base_url]. split; intros H; rewrite H.
  - reflexivity.
  - destruct (rstrip_char_split 47 base_url) as [i [H1 H2]].
    destruct (lstrip_char_split 47 url) as [j [H3 H4]].
    exists (rstrip_char 47 base_url), (lstrip_char 47 url), i, j.
    repeat split; assumption.
Qed.

Lemma full_url_one_slash_witness :
  startswith (py "//calendar/") (py "http") = false
  /\ exists base path i j,
      py "https://thetanknyc.org//" = base ++ repeat 47%N i
      /\ py "//calendar/" = repeat 47%N j ++ path
      /\ hd_error (rev base) <> Some 47%N
      /\ hd_error path <> Some 47%N
      /\ Fetch.full_url (init (py "The Tank") (py "https://thetanknyc.org//"))
           (py "//calendar/")
         = base ++ py "/" ++ path.
Proof.
  split; [reflexivity|].
  apply (proj2 (full_url_one_slash (py "The Tank")
                  (py "https://thetanknyc.org//") (py "//calendar/"))).
  reflexivity.
Defined.

(** ** Validation *)

Section ValidationFacts.
Context {E : Externals}.

Lemma date_warning_length (label : string) (o : option pystr) :
  (length (date_warning label o) <= 1)%nat.
Proof.
  unfold date_warning. destruct o as [[|c d]|]; [cbn [length]; lia | | cbn [length]; lia].
  destruct (fromisoformat_ok (c :: d)); cbn [length]; lia.
Qed.

Lemma validate_show_length (show : Show) :
  (length (validate_show show) <= 4)%nat.
Proof.
  unfold validate_show. rewrite !length_app.
  assert (H1 : forall (b : bool) (w : pystr),
             (length (if b then [w] else []) <= 1)%nat)
    by (intros [] w; cbn [length]; lia).
  match goal with
  | |- (length ?a + (length ?b + length ?c) <= 4)%nat =>
      assert (Ha : (length a <= 1)%nat) by apply H1;
      assert (Hb : (length b <= 1)%nat);
      [|assert (Hc : (length c <= 2)%nat); [|lia]]
  end.
  - destruct (ticket_url show) as [[|c u]|];
      [cbn [length]; lia | apply H1 | cbn [length]; lia].
  - destruct (dates show) as [d|]; [|cbn [length]; lia]. rewrite length_app.
    pose proof (date_warning_length "start" (start d)).
    pose proof (date_warning_length "end" (end_ d)). lia.
Qed.

Lemma flat_map_validate_length (l : list Show) :
  (length (flat_map validate_show l) <= 4 * length l)%nat.
Proof.
  induction l as [|s l IH]; simpl; [lia|].
  rewrite length_app. pose proof (validate_show_length s). lia.
Qed.

End ValidationFacts.

(** X6. Validation only adds warnings.  When the scrape returns a result,
    [run] returns it with the same shows, in the same order, and the same
    [success], [error], theater name and time.  Its warnings are those
    that the result had, followed by the warnings of [validate_show] for
    each show, in the order of the shows: at most four a show.  A result
    whose shows all pass validation without a warning is returned as it
    is. *)
Theorem run_keeps_shows (E : Externals) (self : scraper) (result : ScraperResult) :
  exists r,
    run self (Return result) = Return r
    /\ shows r = shows result
    /\ success r = success result
    /\ error r = error result
    /\ r_theater_name r = r_theater_name result
    /\ r_scraped_at r = r_scraped_at result
    /\ warnings r
       = warnings result ++ flat_map validate_show (shows result)
    /\ (length (warnings r)
        <= length (warnings result) + 4 * length (shows result))%nat
    /\ ((forall show, In show (shows result) -> validate_show show = []) ->
        r = result).
Proof.
  unfold run, try_except. cbn [bind].
  eexists. split; [reflexivity|].
  cbn [shows success error r_theater_name r_scraped_at warnings].
  do 6 (split; [reflexivity|]). split.
  - rewrite length_app. pose proof (flat_map_validate_length (shows result)). lia.
  - intros Hall.
    assert (Hnone : flat_map validate_show (shows result) = []).
    { induction (shows result) as [|s l IH]; [reflexivity|].
      cbn [flat_map]. rewrite (Hall s (or_introl eq_refl)).
      apply IH. intros show Hin. apply Hall. now right. }
    rewrite Hnone, app_nil_r. destruct result; reflexivity.
Qed.

(** X7. [validate_show] has no warning for a show exactly when its
    stripped title has two characters or more, its ticket URL, if it has a
    non-empty one, starts with [http], and each of its two dates, if
    present and not empty, is accepted by [datetime.fromisoformat]. *)
Theorem validate_show_silent (E : Externals) (show : Show) :
  validate_show show = []
  <-> (2 <= len (strip (show_title show))
       /\ (forall u, ticket_url show = Some u ->
                     u = [] \/ startswith u (py "http") = true)
       /\ (forall d s, dates show = Some d ->
                       start d = Some s \/ end_ d = Some s ->
                       s = [] \/ fromisoformat_ok s = true)).
Proof.
  unfold validate_show. split.
  - intros H. apply app_eq_nil in H as [H1 H]. apply app_eq_nil in H as [H2 H3].
    split; [|split].
    + destruct (negb (truthy (PStr (show_title show)))
                || (len (strip (show_title show)) <? 2)) eqn:Hb;
        [discriminate H1|].
      apply orb_false_iff in Hb as [_ Hb]. apply Z.ltb_ge in Hb. exact Hb.
    + intros u Hu. rewrite Hu in H2. destruct u as [|c u]; [now left|]. right.
      destruct (startswith (c :: u) (py "http")); [reflexivity | discriminate H2].
    + intros d s Hd Hs. rewrite Hd in H3. apply app_eq_nil in H3 as [Hs1 Hs2].
      destruct s as [|c s]; [now left|]. right.
      destruct Hs as [Hs | Hs]; rewrite Hs in *; unfold date_warning in *;
        destruct (fromisoformat_ok (c :: s)); try reflexivity; discriminate.
  - intros (H1 & H2 & H3).
    assert (Hb : negb (truthy (PStr (show_title show)))
                 || (len (strip (show_title show)) <? 2) = false).
    { apply orb_false_iff. split.
      - destruct (show_title show); [|reflexivity].
        vm_compute in H1. now contradiction H1.
      - apply Z.ltb_ge. exact H1. }
    rewrite Hb. cbn [app].
    assert (Ht : match ticket_url show with
                 | Some ((_ :: _) as u) =>
                     if negb (startswith u (py "http"))
                     then [py "Invalid ticket URL: " ++ u] else []
                 | _ => []
                 end = []).
    { destruct (ticket_url show) as [[|c u]|]; try reflexivity.
      destruct (H2 (c :: u) eq_refl) as [H | H]; [discriminate|].
      now rewrite H. }
    rewrite Ht. cbn [app].
    destruct (dates show) as [d|]; [|reflexivity].
    assert (Hd : forall label o,
               (forall s, o = Some s -> s = [] \/ fromisoformat_ok s = true) ->
               date_warning label o = []).
    { intros label [[|c s]|] Ho; try reflexivity. unfold date_warning.
      destruct (Ho (c :: s) eq_refl) as [H | H]; [discriminate|].
      now rewrite H. }
    rewrite (Hd "start"%string (start d)), (Hd "end"%string (end_ d));
      [reflexivity| |].
    + intros s Hs. apply (H3 d s eq_refl). now right.
    + intros s Hs. apply (H3 d s eq_refl). now left.
Qed.

Lemma validate_show_silent_witness :
  validate_show (E := Model.externals Model.a_day) show_with_start = [].
Proof.
  apply (validate_show_silent (Model.externals Model.a_day) show_with_start).
  split; [vm_compute; discriminate|]. split.
  - intros u Hu. discriminate Hu.
  - intros d s Hd Hs. injection Hd as <-. cbn [start end_] in Hs.
    destruct Hs as [Hs | Hs]; [|discriminate Hs].
    injection Hs as <-. right. reflexivity.
Defined.

(** ** The data schema *)

Section SchemaFacts.
Import SchemaSpec.

Lemma ShowDates_of_to_dict (sd : ShowDates) :
  ShowDates_of_dict (kwargs (ShowDates_to_dict sd)) (mkShowDates None None None)
  = Return sd.
Proof. destruct sd as [[s|] [e|] [c|]]; reflexivity. Qed.

Lemma ShowDates_of_asdict (sd : ShowDates) :
  ShowDates_of_dict (kwargs (asdict_ShowDates sd)) (mkShowDates None None None)
  = Return sd.
Proof. destruct sd as [[s|] [e|] [c|]]; reflexivity. Qed.

Lemma ShowDates_of_dict_unknown (d : list (pystr * option pystr)) :
  forall acc,
    existsb (fun kv => negb (is_dates_field (fst kv))) d = true ->
    exists msg, ShowDates_of_dict d acc = Raise (Exn TypeError msg).
Proof.
  induction d as [|[k v] d IH]; intros acc H; [discriminate|].
  cbn [existsb fst] in H. cbn [ShowDates_of_dict].
  unfold is_dates_field in H.
  destruct (str_eqb k (py "start")); [now apply IH|].
  destruct (str_eqb k (py "end")); [now apply IH|].
  destruct (str_eqb k (py "schedule")); [now apply IH|].
  eauto.
Qed.

End SchemaFacts.

(** X8. The dictionary of a [ShowDates] gives the [ShowDates] back.  A
    [Show] constructed with [dates] set to what [ShowDates.to_dict]
    returns, or to what [asdict] returns, is the [Show] constructed with
    the [ShowDates] itself. *)
Theorem Show_dates_dict_round_trip (a : ShowArgs) (sd : ShowDates) :
  new_Show (SchemaSpec.with_dates a
              (Some (DatesDict (SchemaSpec.kwargs (ShowDates_to_dict sd)))))
  = new_Show (SchemaSpec.with_dates a (Some (DatesObj sd)))
  /\ new_Show (SchemaSpec.with_dates a
                 (Some (DatesDict (SchemaSpec.kwargs (asdict_ShowDates sd)))))
     = new_Show (SchemaSpec.with_dates a (Some (DatesObj sd))).
Proof.
  split; unfold new_Show, SchemaSpec.with_dates;
    cbn [a_show_title a_theater_name a_dates];
    [rewrite ShowDates_of_to_dict | rewrite ShowDates_of_asdict];
    reflexivity.
Qed.

(** X9. A dictionary for [dates] with a key that is no field of
    [ShowDates] makes the constructor of [Show] raise a [TypeError], when
    the title and the theater name pass their test, which comes first. *)
Theorem Show_dates_dict_unknown_key (a : ShowArgs)
    (d : list (pystr * option pystr)) :
  blank (a_show_title a) = false ->
  blank (a_theater_name a) = false ->
  a_dates a = Some (DatesDict d) ->
  existsb (fun kv => negb (SchemaSpec.is_dates_field (fst kv))) d = true ->
  exists msg, new_Show a = Raise (Exn TypeError msg).
Proof.
  intros Ht Hn Hd Hk. unfold new_Show. rewrite Ht, Hn, Hd.
  destruct (ShowDates_of_dict_unknown d (mkShowDates None None None) Hk)
    as [msg ->].
  cbn [bind]. now exists msg.
Qed.

Lemma Show_dates_dict_unknown_key_witness :
  exists msg,
    new_Show
      (SchemaSpec.with_dates
         (default_args (E := Model.externals Model.a_day)
            (py "The Tank") (py "https://thetanknyc.org") (py "Hamlet"))
         (Some (DatesDict [ (py "start", Some (py "2025-02-21"));
                            (py "until", Some (py "2025-03-29")) ])))
    = Raise (Exn TypeError msg).
Proof.
  apply (Show_dates_dict_unknown_key _
           [ (py "start", Some (py "2025-02-21"));
             (py "until", Some (py "2025-03-29")) ]); reflexivity.
Defined.

Section ToDictEntries.
Import SchemaSpec.

Ltac other_keys :=
  repeat (constructor;
          [cbn [fst]; let H := fresh in intro H; vm_compute in H; discriminate H|]);
  constructor.

Lemma to_dict_step_fresh (r : list (pystr * field)) (k : pystr) (v : field) :
  lookup r k = None ->
  lookup (to_dict_step r (k, v)) k = lookup (to_dict_step [] (k, v)) k.
Proof.
  intros Hr. cbn [to_dict_step].
  destruct (is_None v); [exact Hr|].
  destruct (str_eqb k (py "dates") && is_dict v);
    [now rewrite !lookup_setitem_eq|].
  destruct (str_eqb k (py "status")); [now rewrite !lookup_setitem_eq|].
  destruct (is_empty_list v); [exact Hr | now rewrite !lookup_setitem_eq].
Qed.

(** The entry of a key is decided by the round of that key alone. *)
Lemma to_dict_lookup_at (pre post : list (pystr * field)) (k : pystr) (v : field) :
  Forall (fun kv => fst kv <> k) pre ->
  Forall (fun kv => fst kv <> k) post ->
  lookup (fold_left to_dict_step (pre ++ (k, v) :: post) []) k
  = lookup (to_dict_step [] (k, v)) k.
Proof.
  intros Hpre Hpost. rewrite fold_left_app, fold_left_cons.
  rewrite (to_dict_fold_other post _ k Hpost).
  apply to_dict_step_fresh. now rewrite (to_dict_fold_other pre [] k Hpre).
Qed.

Ltac entry n :=
  unfold Show_to_dict, asdict_Show;
  match goal with
  | |- lookup (fold_left _ ?l []) _ = _ =>
      change l with (firstn n l ++ nth n l (py "", FVal PNone) :: skipn (S n) l)
  end;
  cbn [firstn skipn nth];
  rewrite to_dict_lookup_at by other_keys.

Lemma opt_entry (k : pystr) (o : option pystr) :
  str_eqb k (py "dates") = false -> str_eqb k (py "status") = false ->
  lookup (to_dict_step [] (k, FVal (opt_str o))) k = str_entry o.
Proof.
  intros H1 H2. destruct o as [s|]; cbn [to_dict_step opt_str is_None is_dict];
    [|reflexivity].
  rewrite H1, H2. cbn [andb is_empty_list]. apply lookup_setitem_eq.
Qed.

Lemma str_entry_always (k s : pystr) :
  str_eqb k (py "dates") = false -> str_eqb k (py "status") = false ->
  lookup (to_dict_step [] (k, FVal (PStr s))) k = Some (FVal (PStr s)).
Proof. intros H1 H2. exact (opt_entry k (Some s) H1 H2). Qed.

Lemma lst_entry (k : pystr) (l : list pystr) :
  str_eqb k (py "dates") = false -> str_eqb k (py "status") = false ->
  lookup (to_dict_step [] (k, FVal (str_list l))) k = list_entry l.
Proof.
  intros H1 H2. destruct l as [|x l];
    cbn [to_dict_step str_list map is_None is_dict is_empty_list];
    rewrite H1, H2; cbn [andb]; [reflexivity | apply lookup_setitem_eq].
Qed.

(** What [to_dict] has for each key. *)
Lemma Show_to_dict_entries (s : Show) :
  lookup (Show_to_dict s) (py "theater_name") = Some (FVal (PStr (theater_name s)))
  /\ lookup (Show_to_dict s) (py "theater_url") = Some (FVal (PStr (theater_url s)))
  /\ lookup (Show_to_dict s) (py "show_title") = Some (FVal (PStr (show_title s)))
  /\ lookup (Show_to_dict s) (py "playwright") = str_entry (playwright s)
  /\ lookup (Show_to_dict s) (py "director") = str_entry (director s)
  /\ lookup (Show_to_dict s) (py "venue") = str_entry (venue s)
  /\ lookup (Show_to_dict s) (py "description") = str_entry (description s)
  /\ lookup (Show_to_dict s) (py "ticket_url") = str_entry (ticket_url s)
  /\ lookup (Show_to_dict s) (py "price_range") = str_entry (price_range s)
  /\ lookup (Show_to_dict s) (py "genres") = list_entry (genres s)
  /\ lookup (Show_to_dict s) (py "cast") = list_entry (cast s)
  /\ lookup (Show_to_dict s) (py "runtime") = str_entry (runtime s)
  /\ lookup (Show_to_dict s) (py "image_url") = str_entry (image_url s)
  /\ lookup (Show_to_dict s) (py "scraped_at") = Some (FVal (PStr (scraped_at s)))
  /\ lookup (Show_to_dict s) (py "scraper_version")
     = Some (FVal (PStr (scraper_version s)))
  /\ lookup (Show_to_dict s) (py "scraper_type") = str_entry (scraper_type s).
Proof.
  repeat split.
  - entry 0%nat. now apply str_entry_always.
  - entry 1%nat. now apply str_entry_always.
  - entry 2%nat. now apply str_entry_always.
  - entry 3%nat. now apply opt_entry.
  - entry 4%nat. now apply opt_entry.
  - entry 6%nat. now apply opt_entry.
  - entry 7%nat. now apply opt_entry.
  - entry 8%nat. now apply opt_entry.
  - entry 9%nat. now apply opt_entry.
  - entry 10%nat. now apply lst_entry.
  - entry 11%nat. now apply lst_entry.
  - entry 12%nat. now apply opt_entry.
  - entry 13%nat. now apply opt_entry.
  - entry 15%nat. now apply str_entry_always.
  - entry 16%nat. now apply str_entry_always.
  - entry 17%nat. now apply opt_entry.
Qed.

Lemma str_entry_inj (a b : option pystr) : str_entry a = str_entry b -> a = b.
Proof. destruct a, b; simpl; congruence. Qed.

Lemma map_PStr_inj (a b : list pystr) : map PStr a = map PStr b -> a = b.
Proof.
  revert b; induction a as [|x a IH]; intros [|y b] H; try discriminate;
    [reflexivity|].
  simpl in H. injection H as -> H. now rewrite (IH b H).
Qed.

Lemma list_entry_inj (a b : list pystr) : list_entry a = list_entry b -> a = b.
Proof.
  destruct a, b; cbn [list_entry]; try congruence.
  intros H. apply map_PStr_inj. congruence.
Qed.

Lemma status_value_inj (a b : ShowStatus) : status_value a = status_value b -> a = b.
Proof. destruct a, b; intros H; try reflexivity; vm_compute in H; discriminate H. Qed.

End ToDictEntries.

(** X10. At its top level the dictionary of a [Show] has no entry whose
    value is [None] and none whose value is an empty list, and the three
    required fields, the status, the time and the version always have
    their entry. *)
Theorem Show_to_dict_top_level (s : Show) :
  (forall k, lookup (Show_to_dict s) k <> Some (FVal PNone)
             /\ lookup (Show_to_dict s) k <> Some (FVal (PList [])))
  /\ lookup (Show_to_dict s) (py "theater_name")
     = Some (FVal (PStr (theater_name s)))
  /\ lookup (Show_to_dict s) (py "theater_url")
     = Some (FVal (PStr (theater_url s)))
  /\ lookup (Show_to_dict s) (py "show_title")
     = Some (FVal (PStr (show_title s)))
  /\ lookup (Show_to_dict s) (py "status")
     = Some (FVal (PStr (status_value (status s))))
  /\ lookup (Show_to_dict s) (py "scraped_at")
     = Some (FVal (PStr (scraped_at s)))
  /\ lookup (Show_to_dict s) (py "scraper_version")
     = Some (FVal (PStr (scraper_version s))).
Proof.
  split.
  - intros k. split; intros H;
      destruct (Show_to_dict_stored s k _ H) as [H1 H2]; congruence.
  - pose proof (Show_to_dict_entries s) as He.
    repeat split; try apply He. apply Show_to_dict_status.
Qed.

(** X11. The dictionary of a [Show] determines the [Show]: two shows with
    the same dictionary are equal in every field. *)
Theorem Show_to_dict_injective (s1 s2 : Show) :
  Show_to_dict s1 = Show_to_dict s2 -> s1 = s2.
Proof.
  intros H.
  assert (Hk : forall k, lookup (Show_to_dict s1) k = lookup (Show_to_dict s2) k)
    by (intros k; now rewrite H).
  clear H.
  destruct (Show_to_dict_entries s1)
    as (A1 & A2 & A3 & A4 & A5 & A6 & A7 & A8 & A9 & A10 & A11
        & A12 & A13 & A14 & A15 & A16).
  destruct (Show_to_dict_entries s2)
    as (B1 & B2 & B3 & B4 & B5 & B6 & B7 & B8 & B9 & B10 & B11
        & B12 & B13 & B14 & B15 & B16).
  rewrite Hk, B1 in A1. rewrite Hk, B2 in A2. rewrite Hk, B3 in A3.
  rewrite Hk, B4 in A4. rewrite Hk, B5 in A5. rewrite Hk, B6 in A6.
  rewrite Hk, B7 in A7. rewrite Hk, B8 in A8. rewrite Hk, B9 in A9.
  rewrite Hk, B10 in A10. rewrite Hk, B11 in A11. rewrite Hk, B12 in A12.
  rewrite Hk, B13 in A13. rewrite Hk, B14 in A14. rewrite Hk, B15 in A15.
  rewrite Hk, B16 in A16.
  clear B1 B2 B3 B4 B5 B6 B7 B8 B9 B10 B11 B12 B13 B14 B15 B16.
  pose proof (Hk (py "dates")) as Hd. rewrite !Show_to_dict_dates in Hd.
  pose proof (Hk (py "status")) as Hs. rewrite !Show_to_dict_status in Hs.
  clear Hk.
  apply str_entry_inj in A4, A5, A6, A7, A8, A9, A12, A13, A16.
  apply list_entry_inj in A10, A11.
  assert (Hst : status s2 = status s1)
    by (apply status_value_inj; congruence).
  assert (Hdt : dates s2 = dates s1).
  { destruct (dates s1) as [[a b c]|], (dates s2) as [[a' b' c']|];
      try discriminate Hd; [|reflexivity].
    unfold asdict_ShowDates, opt_str in Hd. cbn [start end_ schedule] in Hd.
    destruct a, a', b, b', c, c'; congruence. }
  destruct s1, s2. cbn [theater_name theater_url show_title playwright
    director dates venue description ticket_url price_range genres cast
    runtime image_url status scraped_at scraper_version scraper_type] in *.
  subst. f_equal; congruence.
Qed.

Lemma Show_to_dict_injective_witness :
  show_with_start = show_with_start.
Proof.
  apply (Show_to_dict_injective show_with_start show_with_start).
  reflexivity.
Defined.

(** ** Cleaning, prices and URLs *)

Section CleanForm.

Lemma collapse_all_space (t : pystr) :
  forallb is_space t = true -> collapse true t = [].
Proof.
  induction t as [|c t IH]; [reflexivity|]. cbn [forallb collapse].
  intros H. apply andb_true_iff in H as [Hc Ht]. rewrite Hc. now apply IH.
Qed.

End CleanForm.

(** X12. On a text without entity, what [clean_text] returns has no white
    space at either end and only single spaces inside; and [clean_text]
    returns a text unchanged exactly when the text is in that form. *)
Theorem clean_text_clean_form (t : pystr) :
  entity_free t = true ->
  clean_form (clean_text t) /\ (clean_text t = t <-> clean_form t).
Proof.
  intros H.
  assert (Hc : clean_form (clean_text t)).
  { rewrite clean_text_eq.
    rewrite (decode_entities_absent _ (entity_free_normalise t H)).
    repeat split.
    - apply strip_no_lead.
    - apply rev_strip_no_lead.
    - apply (sparse_strip false), collapse_sparse. }
  split; [exact Hc|]. split.
  - intros Heq. now rewrite Heq in Hc.
  - intros (H1 & H2 & H3). rewrite clean_text_eq.
    rewrite (collapse_fixed false t H3), (strip_id t H1 H2).
    now apply decode_entities_absent.
Qed.

Lemma clean_text_clean_form_witness :
  clean_form (clean_text (py "  Twelfth   Night "))
  /\ (clean_text (py "  Twelfth   Night ") = py "  Twelfth   Night "
      <-> clean_form (py "  Twelfth   Night ")).
Proof.
  apply (clean_text_clean_form (py "  Twelfth   Night ")). reflexivity.
Defined.

(** X13. [clean_text] returns the empty string for every text that
    consists of white space only. *)
Theorem clean_text_blank (t : pystr) :
  forallb is_space t = true -> clean_text t = [].
Proof.
  intros H. rewrite clean_text_eq. destruct t as [|c t]; [reflexivity|].
  cbn [forallb] in H. apply andb_true_iff in H as [Hc Ht].
  cbn [collapse]. rewrite Hc, (collapse_all_space t Ht). reflexivity.
Qed.

Lemma clean_text_blank_witness :
  clean_text [32%N; 9%N; 160%N; 10%N] = [].
Proof. apply (clean_text_blank [32%N; 9%N; 160%N; 10%N]). reflexivity. Defined.

Section PriceFacts.
Import ParsingSpec.

Lemma star_suffix {A} (p : N -> bool) (s : pystr) (k : pystr -> option A) (x : A) :
  star p s k = Some x -> exists w s1, s = w ++ s1 /\ k s1 = Some x.
Proof.
  induction s as [|c s IH]; simpl; intros H.
  - now exists [], [].
  - destruct (p c); [|now exists [], (c :: s)].
    destruct (star p s k) as [y|] eqn:Hs.
    + injection H as ->. destruct (IH eq_refl) as (w & s1 & -> & Hk).
      now exists (c :: w), s1.
    + now exists [], (c :: s).
Qed.

(** A match passes over a part of the text and calls what follows on the
    rest; the part has a character of [p] if the pattern requires one. *)
Lemma rmatch_consumes {A} (p : N -> bool) (r : regex) :
  forall (s : pystr) (g : groups) (k : pystr -> groups -> option A) (x : A),
    rmatch r s g k = Some x ->
    exists w s1 g1,
      s = w ++ s1 /\ k s1 g1 = Some x /\ (requires p r -> existsb p w = true).
Proof.
  induction r as [|q|r1 IH1 r2 IH2|r1 IH1 r2 IH2|r1 IH1|q|n r1 IH1];
    intros s g k x H; cbn [rmatch requires] in *.
  - exists [], s, g. now repeat split.
  - destruct s as [|c s]; [discriminate|].
    destruct (q c) eqn:Hq; [|discriminate].
    exists [c], s, g. repeat split; [exact H|].
    intros Hr. simpl. now rewrite (Hr c Hq).
  - destruct (IH1 _ _ _ _ H) as (w1 & s1 & g1 & -> & H2 & Hr1).
    destruct (IH2 _ _ _ _ H2) as (w2 & s2 & g2 & -> & H3 & Hr2).
    exists (w1 ++ w2), s2, g2. repeat split.
    + now rewrite app_assoc.
    + exact H3.
    + intros [Hr | Hr]; rewrite existsb_app; apply orb_true_iff;
        [left; now apply Hr1 | right; now apply Hr2].
  - destruct (rmatch r1 s g k) as [y|] eqn:Hm.
    + injection H as ->. destruct (IH1 _ _ _ _ Hm) as (w & s1 & g1 & Hs & Hk & Hr).
      exists w, s1, g1. repeat split; try assumption. intros [Hr1 _]. now apply Hr.
    + destruct (IH2 _ _ _ _ H) as (w & s1 & g1 & Hs & Hk & Hr).
      exists w, s1, g1. repeat split; try assumption. intros [_ Hr2]. now apply Hr.
  - destruct (rmatch r1 s g k) as [y|] eqn:Hm.
    + injection H as ->. destruct (IH1 _ _ _ _ Hm) as (w & s1 & g1 & Hs & Hk & _).
      exists w, s1, g1. repeat split; try assumption. contradiction.
    + exists [], s, g. repeat split; [exact H | contradiction].
  - destruct (star_suffix q s _ x H) as (w & s1 & Hs & Hk).
    exists w, s1, g. repeat split; try assumption. contradiction.
  - destruct (IH1 _ _ _ _ H) as (w & s1 & g1 & Hs & Hk & Hr).
    eexists w, s1, _. repeat split; [exact Hs | exact Hk | exact Hr].
Qed.

Lemma search_requires (p : N -> bool) (r : regex) (s : pystr) (i : Z) :
  requires p r -> existsb p s = false -> search_from r s i = None.
Proof.
  intros Hr. revert i. induction s as [|c s IH]; intros i Hs; cbn [search_from].
  - unfold match_here.
    destruct (rmatch r [] [] (fun rest g => Some (rest, g))) as [[rest g]|] eqn:Hm;
      [|reflexivity].
    destruct (rmatch_consumes p r _ _ _ _ Hm) as (w & s1 & g1 & Hw & _ & He).
    specialize (He Hr). destruct w; [discriminate He | discriminate Hw].
  - unfold match_here.
    destruct (rmatch r (c :: s) [] (fun rest g => Some (rest, g)))
      as [[rest g]|] eqn:Hm.
    + destruct (rmatch_consumes p r _ _ _ _ Hm) as (w & s1 & g1 & Hw & _ & He).
      specialize (He Hr). rewrite Hw, existsb_app, He in Hs. discriminate Hs.
    + apply IH. cbn [existsb] in Hs. now apply orb_false_iff in Hs as [_ Hs].
Qed.

Lemma Ch_dollar (c : N) :
  existsb (N.eqb c) (py "$") = true -> is_dollar c = true.
Proof. cbn [py map list_ascii_of_string existsb]. now rewrite orb_false_r. Qed.

End PriceFacts.

(** X14. [extract_price_range] returns [None] for every text without a
    dollar sign: each of its three patterns needs one. *)
Theorem extract_price_range_needs_dollar (E : Externals) (text : pystr) :
  existsb ParsingSpec.is_dollar text = false ->
  extract_price_range text = None.
Proof.
  intros H. unfold extract_price_range. destruct text as [|c text]; [reflexivity|].
  unfold search.
  rewrite (search_requires ParsingSpec.is_dollar range_pattern _ 0);
    [|left; exact Ch_dollar | exact H].
  rewrite (search_requires ParsingSpec.is_dollar starting_pattern _ 0);
    [|right; right; left; exact Ch_dollar | exact H].
  rewrite (search_requires ParsingSpec.is_dollar single_pattern _ 0);
    [|left; exact Ch_dollar | exact H].
  reflexivity.
Qed.

Lemma extract_price_range_needs_dollar_witness :
  extract_price_range (E := Model.externals Model.a_day)
    (py "Tickets from 20 to 65 euros") = None.
Proof.
  apply (extract_price_range_needs_dollar (Model.externals Model.a_day)).
  reflexivity.
Defined.

(** X15. [normalize_url] leaves a URL that starts with [http://] or
    [https://] as it is and puts [https:] before one that starts with
    [//], whatever the base URL; what it returns for such a URL it returns
    again when applied to it. *)
Theorem normalize_url_absolute (E : Externals) (url base_url base_url' : pystr) :
  (startswith url (py "http://") || startswith url (py "https://") = true ->
   normalize_url url base_url = url)
  /\ (startswith url (py "//") = true ->
      normalize_url url base_url = py "https:" ++ url)
  /\ (startswith url (py "http://") || startswith url (py "https://")
      || startswith url (py "//") = true ->
      normalize_url (normalize_url url base_url) base_url'
      = normalize_url url base_url).
Proof.
  assert (Habs : forall u b,
             startswith u (py "http://") || startswith u (py "https://") = true ->
             normalize_url u b = u).
  { intros u b H. unfold normalize_url. destruct u as [|c u]; [reflexivity|].
    now rewrite H. }
  assert (Hrel : forall b, startswith url (py "//") = true ->
             normalize_url url b = py "https:" ++ url).
  { intros b H. unfold normalize_url.
    apply startswith_spec in H as [r ->].
    change (py "//" ++ r) with (47%N :: 47%N :: r).
    assert (H1 : startswith (47%N :: 47%N :: r) (py "http://") = false)
      by reflexivity.
    assert (H2 : startswith (47%N :: 47%N :: r) (py "https://") = false)
      by reflexivity.
    assert (H3 : startswith (47%N :: 47%N :: r) (py "//") = true)
      by (apply startswith_spec; now exists r).
    now rewrite H1, H2, H3. }
  split; [apply Habs|]. split; [apply Hrel|].
  intros H. apply orb_true_iff in H as [H | H].
  - rewrite (Habs url base_url H). exact (Habs url base_url' H).
  - rewrite (Hrel base_url H). apply Habs.
    apply startswith_spec in H as [r ->].
    change (py "https:" ++ py "//" ++ r) with (py "https://" ++ r).
    apply orb_true_iff. right. apply startswith_spec. now exists r.
Qed.

Lemma normalize_url_absolute_witness :
  normalize_url (py "//cdn.nytw.org/hamlet.jpg") (py "https://www.nytw.org")
  = py "https://cdn.nytw.org/hamlet.jpg".
Proof.
  apply (proj1 (proj2 (normalize_url_absolute (Model.externals Model.a_day)
                         (py "//cdn.nytw.org/hamlet.jpg")
                         (py "https://www.nytw.org") []))).
  reflexivity.
Defined.

(** ** Normalisation of a record *)

Section RecordFacts.
Context {E : Externals}.

Ltac step_bind H :=
  match type of H with
  | bind ?m _ = _ =>
      let x := fresh "x" in
      let Hx := fresh "Hx" in
      destruct m as [x | ?] eqn:Hx; cbn [bind] in H; [|discriminate H]
  end.

(** What the constructor returns has the fields it was given, and a title
    and a theater name that are not blank. *)
Lemma new_Show_fields (a : ShowArgs) (show : Show) :
  new_Show a = Return show ->
  blank (a_show_title a) = false
  /\ blank (a_theater_name a) = false
  /\ show_title show = a_show_title a
  /\ theater_name show = a_theater_name a
  /\ theater_url show = a_theater_url a
  /\ playwright show = a_playwright a
  /\ director show = a_director a
  /\ venue show = a_venue a
  /\ description show = a_description a
  /\ ticket_url show = a_ticket_url a
  /\ price_range show = a_price_range a
  /\ genres show = a_genres a
  /\ cast show = a_cast a
  /\ runtime show = a_runtime a
  /\ image_url show = a_image_url a
  /\ scraper_type show = a_scraper_type a
  /\ (forall sd, a_dates a = Some (DatesObj sd) -> dates show = Some sd)
  /\ (a_dates a = None -> dates show = None).
Proof.
  unfold new_Show.
  destruct (blank (a_show_title a)); [discriminate|].
  destruct (blank (a_theater_name a)); [discriminate|].
  destruct (a_dates a) as [[sd | dd]|]; cbn [bind].
  - intros H. injection H as <-. cbn. repeat split; congruence.
  - destruct (ShowDates_of_dict dd _); cbn [bind]; [|discriminate].
    intros H. injection H as <-. cbn. repeat split; congruence.
  - intros H. injection H as <-. cbn. repeat split; congruence.
Qed.

(** The steps of [_parse_spektrix_event] behind a show that it returns. *)
Lemma parse_event_steps (self : scraper) (d : list (pystr * value)) (show : Show) :
  _parse_spektrix_event self (PDict d) = Return (Some show) ->
  exists title start_date end_date description ticket_url venue image_url
         playwright director status,
    truthy (get2 d "title" "name") = true
    /\ if_set (get2 d "title" "name") clean_text TypeError = Return title
    /\ date_of d "start" "start_date" "firstPerformance" = Return start_date
    /\ date_of d "end" "end_date" "lastPerformance" = Return end_date
    /\ if_set (get2 d "description" "synopsis")
         (fun s => truncate (clean_text s)) TypeError = Return description
    /\ if_set (get2 d "url" "link")
         (fun u => normalize_url u (self_base_url self)) AttributeError
       = Return ticket_url
    /\ if_set (get2 d "venue" "location") clean_text TypeError = Return venue
    /\ if_set (get2 d "image" "imageUrl")
         (fun u => normalize_url u (self_base_url self)) AttributeError
       = Return image_url
    /\ if_set (get2 d "playwright" "writer") clean_text TypeError
       = Return playwright
    /\ if_set (get d (py "director") (PStr [])) clean_text TypeError
       = Return director
    /\ event_status d = Return status
    /\ new_Show
         {| a_theater_name := self_theater_name self;
            a_theater_url := self_base_url self;
            a_show_title := title;
            a_playwright := or_None playwright;
            a_director := or_None director;
            a_dates := if opt_truthy start_date || opt_truthy end_date
                       then Some (DatesObj (mkShowDates start_date end_date None))
                       else None;
            a_venue := or_None venue;
            a_description := or_None description;
            a_ticket_url :=
              or_None
                (if truthy (get2 d "instance_id" "instanceId")
                    && negb (truthy (PStr ticket_url))
                 then self_base_url self ++ py "/performances/?instanceId="
                      ++ py_str (get2 d "instance_id" "instanceId")
                 else ticket_url);
            a_price_range :=
              match lookup d (py "price") with
              | Some v => extract_price_range (py_str v)
              | None =>
                  match lookup d (py "pricing") with
                  | Some v => extract_price_range (py_str v)
                  | None => None
                  end
              end;
            a_genres := [];
            a_cast := [];
            a_runtime := None;
            a_image_url := or_None image_url;
            a_status := status;
            a_scraped_at := utcnow_isoformat;
            a_scraper_version := py "1.0";
            a_scraper_type := Some (py "wordpress_spektrix") |}
       = Return show.
Proof.
  unfold _parse_spektrix_event, try_except.
  destruct (parse_event_body self d) as [r | e] eqn:Hb.
  - intros H. injection H as ->. revert Hb. unfold parse_event_body.
    destruct (truthy (get2 d "title" "name")) eqn:Ht; cbn [negb];
      [|discriminate].
    intros H. do 11 step_bind H. injection H as <-.
    repeat eexists; eassumption.
  - destruct (is_Exception (exn_cls e)); discriminate.
Qed.

Lemma if_set_str (v : value) (f : pystr -> pystr) (cls : exn_class) (r : pystr) :
  truthy v = true -> if_set v f cls = Return r ->
  exists s, v = PStr s /\ s <> [] /\ r = f s.
Proof.
  unfold if_set. intros Ht. rewrite Ht.
  destruct v; try discriminate. intros H. injection H as <-.
  exists s. repeat split. destruct s; [discriminate Ht | discriminate].
Qed.

Lemma if_set_cases (v : value) (f : pystr -> pystr) (cls : exn_class) (r : pystr) :
  if_set v f cls = Return r ->
  r = [] \/ exists s, v = PStr s /\ r = f s.
Proof.
  unfold if_set. destruct (truthy v).
  - destruct v; try discriminate. intros H. injection H as <-. right. eauto.
  - intros H. injection H as <-. now left.
Qed.

Lemma truncate_length (s : pystr) : len (truncate s) <= 500.
Proof.
  unfold truncate. destruct (len s >? 500) eqn:H.
  - apply Z.gtb_lt in H. unfold len, take in *.
    rewrite length_app, firstn_length_le by (change (Z.to_nat 497) with 497%nat; lia).
    change (length (py "...")) with 3%nat. change (Z.to_nat 497) with 497%nat. lia.
  - rewrite Z.gtb_ltb in H. apply Z.ltb_ge in H. exact H.
Qed.

Lemma or_None_nonempty (s r : pystr) : or_None s = Some r -> r = s /\ r <> [].
Proof. destruct s; simpl; [discriminate|]. intros H. injection H as <-. now split. Qed.

Lemma extract_price_range_nonempty (text p : pystr) :
  extract_price_range text = Some p -> p <> [].
Proof.
  unfold extract_price_range. destruct text as [|c text]; [discriminate|].
  destruct (search range_pattern (c :: text)).
  { intros H. injection H as <-. discriminate. }
  destruct (search starting_pattern (c :: text)).
  { intros H. injection H as <-. discriminate. }
  destruct (search single_pattern (c :: text)); [|discriminate].
  intros H. injection H as <-. discriminate.
Qed.

Lemma date_of_nonempty (d : list (pystr * value)) (k1 k2 k3 : string)
    (s : pystr) :
  date_of d k1 k2 k3 = Return (Some s) -> s <> [].
Proof.
  assert (Hv : forall v, parse_date_value v = Return (Some s) -> s <> []).
  { intros v. destruct v; try discriminate. apply parse_date_nonempty. }
  unfold date_of.
  destruct (lookup d (py k1)) as [v|]; [apply Hv|].
  destruct (lookup d (py k2)) as [v|]; [apply Hv|].
  destruct (lookup d (py k3)) as [v|]; [apply Hv | discriminate].
Qed.

End RecordFacts.

(** X16. [_parse_spektrix_event] returns [None] for a record that is no
    dictionary, and for a dictionary whose title is missing or false.  The
    key [name] is only read when the key [title] is absent: a record with
    an empty [title] gives [None] whatever its [name]. *)
Theorem parse_event_without_title (E : Externals) (self : scraper) :
  (forall event_data,
      (forall d, event_data <> PDict d) ->
      _parse_spektrix_event self event_data = Return None)
  /\ (forall d v,
      lookup d (py "title") = Some v -> truthy v = false ->
      _parse_spektrix_event self (PDict d) = Return None)
  /\ (forall d,
      lookup d (py "title") = None ->
      (forall v, lookup d (py "name") = Some v -> truthy v = false) ->
      _parse_spektrix_event self (PDict d) = Return None).
Proof.
  split; [|split].
  - intros v Hv. destruct v; try reflexivity. now contradiction (Hv d).
  - intros d v Hl Ht. unfold _parse_spektrix_event, parse_event_body, get2, get.
    rewrite Hl, Ht. reflexivity.
  - intros d Hl Hn. unfold _parse_spektrix_event, parse_event_body, get2, get.
    rewrite Hl. destruct (lookup d (py "name")) as [v|].
    + rewrite (Hn v eq_refl). reflexivity.
    + reflexivity.
Qed.

Lemma parse_event_without_title_witness :
  _parse_spektrix_event (E := Model.externals Model.a_day)
    (init (py "New York Theatre Workshop") (py "https://www.nytw.org"))
    (PDict [ (py "title", PStr []); (py "name", PStr (py "Hamlet")) ])
  = Return None.
Proof.
  apply (proj1 (proj2 (parse_event_without_title (Model.externals Model.a_day)
                         (init (py "New York Theatre Workshop")
                               (py "https://www.nytw.org"))))
               [ (py "title", PStr []); (py "name", PStr (py "Hamlet")) ]
               (PStr [])); reflexivity.
Defined.

(** X17. Every show that [_parse_spektrix_event] returns has the cleaned
    title of the record, which is not blank, the theater name and the base
    URL of the scraper, the tag [wordpress_spektrix], no genres, cast or
    runtime, a description of at most 500 characters, and no optional text
    that is empty: not the playwright, director, venue, description,
    ticket URL, price range, runtime, image URL or scraper type, and not a
    date of its [dates], which has no schedule. *)
Theorem parse_event_show_invariants (E : Externals) (self : scraper)
    (d : list (pystr * value)) (show : Show) :
  _parse_spektrix_event self (PDict d) = Return (Some show) ->
  (exists s, get2 d "title" "name" = PStr s /\ show_title show = clean_text s)
  /\ forallb is_space (show_title show) = false
  /\ theater_name show = self_theater_name self
  /\ theater_url show = self_base_url self
  /\ scraper_type show = Some (py "wordpress_spektrix")
  /\ genres show = [] /\ cast show = [] /\ runtime show = None
  /\ (forall text, description show = Some text -> len text <= 500)
  /\ (forall text,
        In (Some text) [ playwright show; director show; venue show;
                         description show; ticket_url show;
                         price_range show; runtime show; image_url show;
                         scraper_type show ] ->
        text <> [])
  /\ (forall sd, dates show = Some sd ->
        schedule sd = None
        /\ forall text, In (Some text) [start sd; end_ sd] -> text <> []).
Proof.
  intros H.
  destruct (parse_event_steps self d show H)
    as (title & sd0 & ed0 & desc & turl & ven & img & pw & dir & st
        & Ht & Htitle & Hsd & Hed & Hdesc & _ & _ & _ & _ & _ & _ & Hnew).
  apply new_Show_fields in Hnew.
  cbn [a_theater_name a_theater_url a_show_title a_playwright a_director
       a_dates a_venue a_description a_ticket_url a_price_range a_genres
       a_cast a_runtime a_image_url a_status a_scraped_at
       a_scraper_version a_scraper_type] in Hnew.
  destruct Hnew as (Hb & _ & F1 & F2 & F3 & F4 & F5 & F6 & F7 & F8 & F9
                    & F10 & F11 & F12 & F13 & F14 & Fd1 & Fd2).
  destruct (if_set_str _ _ _ _ Ht Htitle) as (s & Hs & _ & Hc).
  split; [exists s; split; [exact Hs | congruence]|].
  split.
  { rewrite F1. destruct (forallb is_space title) eqn:Hsp; [|reflexivity].
    apply blank_iff in Hsp. congruence. }
  do 6 (split; [assumption|]).
  split.
  { intros text Hd. rewrite F7 in Hd. apply or_None_nonempty in Hd as [-> _].
    destruct (if_set_cases _ _ _ _ Hdesc) as [-> | (s' & _ & ->)].
    - vm_compute. discriminate.
    - apply truncate_length. }
  split.
  { intros text Hin. cbn [In] in Hin.
    rewrite F4, F5, F6, F7, F8, F9, F12, F13, F14 in Hin.
    destruct Hin as [Hin | [Hin | [Hin | [Hin | [Hin | [Hin | [Hin | [Hin | [Hin | []]]]]]]]]].
    - apply or_None_nonempty in Hin; tauto.
    - apply or_None_nonempty in Hin; tauto.
    - apply or_None_nonempty in Hin; tauto.
    - apply or_None_nonempty in Hin; tauto.
    - apply or_None_nonempty in Hin; tauto.
    - destruct (lookup d (py "price")) as [v|].
      + exact (extract_price_range_nonempty _ _ Hin).
      + destruct (lookup d (py "pricing")) as [v|]; [|discriminate Hin].
        exact (extract_price_range_nonempty _ _ Hin).
    - discriminate Hin.
    - apply or_None_nonempty in Hin; tauto.
    - injection Hin as <-. discriminate. }
  intros sd Hdates.
  assert (Hsd0 : sd = mkShowDates sd0 ed0 None).
  { destruct (opt_truthy sd0 || opt_truthy ed0).
    - rewrite (Fd1 _ eq_refl) in Hdates. congruence.
    - rewrite (Fd2 eq_refl) in Hdates. discriminate. }
  subst sd. cbn [schedule start end_ In]. split; [reflexivity|].
  intros text [Hin | [Hin | []]]; subst.
  - exact (date_of_nonempty _ _ _ _ _ Hsd).
  - exact (date_of_nonempty _ _ _ _ _ Hed).
Qed.

Lemma parse_event_show_invariants_witness :
  exists show,
    _parse_spektrix_event (E := Model.externals Model.a_day)
      (init (py "New York Theatre Workshop") (py "https://www.nytw.org"))
      (PDict cancelled_main_stage) = Return (Some show)
    /\ show_title show = py "Hamlet"
    /\ theater_name show = py "New York Theatre Workshop".
Proof.
  eexists. split; [vm_compute; reflexivity|].
  match goal with
  | |- show_title ?s = _ /\ _ =>
      pose proof (parse_event_show_invariants (Model.externals Model.a_day)
                    (init (py "New York Theatre Workshop")
                          (py "https://www.nytw.org"))
                    cancelled_main_stage s) as H
  end.
  destruct H as ([s [Hs Ht]] & _ & Hn & _); [vm_compute; reflexivity|].
  split; [|exact Hn].
  rewrite Ht. vm_compute in Hs. injection Hs as <-. vm_compute. reflexivity.
Defined.



(** ** The extracted array *)

Section ExtractFacts.

Lemma find_from_spec (sub t : pystr) :
  forall i p,
    find_from sub t i = p -> p <> -1 -> 0 <= i ->
    exists k, p = i + Z.of_nat k /\ startswith (skipn k t) sub = true.
Proof.
  induction t as [|c t IH]; intros i p H Hp Hi; cbn [find_from] in H.
  - destruct (startswith [] sub) eqn:Hs; [|congruence].
    exists 0%nat. split; [lia | exact Hs].
  - destruct (startswith (c :: t) sub) eqn:Hs.
    + exists 0%nat. split; [lia | exact Hs].
    + destruct (IH (i + 1) p H Hp ltac:(lia)) as [k [Hk1 Hk2]].
      exists (S k). split; [lia | exact Hk2].
Qed.

Lemma startswith_firstn (n : nat) (s sub : pystr) :
  startswith (firstn n s) sub = true -> startswith s sub = true.
Proof.
  rewrite !startswith_spec. intros [r Hr].
  exists (r ++ skipn n s). rewrite app_assoc, <- Hr. symmetry. apply firstn_skipn.
Qed.

Lemma slice_bound_nonneg (n i : Z) : 0 <= n -> 0 <= slice_bound n i.
Proof. unfold slice_bound. destruct (i <? 0) eqn:H; [lia|]. apply Z.ltb_ge in H. lia. Qed.

(** Where [find] finds the bracket, there is one. *)
Lemma find_bracket_spec (s : pystr) (a b p : Z) :
  find s (py "[") a b = p -> p <> -1 ->
  0 <= p /\ exists rest, skipn (Z.to_nat p) s = 91%N :: rest.
Proof.
  unfold find, slice. intros H Hp.
  destruct ((len s <? a) || (slice_bound (len s) b <? slice_bound (len s) a));
    [congruence|].
  pose proof (slice_bound_nonneg (len s) a ltac:(unfold len; lia)) as Ha.
  destruct (find_from_spec _ _ _ _ H Hp Ha) as [k [Hk1 Hk2]].
  split; [lia|].
  rewrite skipn_firstn_comm in Hk2. apply startswith_firstn in Hk2.
  rewrite skipn_skipn in Hk2.
  replace (Z.to_nat p) with (k + Z.to_nat (slice_bound (len s) a))%nat by lia.
  apply startswith_spec in Hk2 as [r Hr]. now exists r.
Qed.

(** Where the loop stops with success, there is a closing bracket. *)
Lemma scan_found_spec (rest : pystr) :
  forall bracket_pos i depth in_string string_char escape_next j,
    scan rest bracket_pos i depth in_string string_char escape_next
    = ScanFound j ->
    exists k, j = i + Z.of_nat k /\ nth_error rest k = Some 93%N.
Proof.
  induction rest as [|c rest IH]; intros bp i depth ins sc esc j H;
    cbn [scan] in H; [discriminate|].
  assert (Hrec : forall a d e f g,
             scan rest bp a d e f g = ScanFound j -> a = i + 1 ->
             exists k, j = i + Z.of_nat k /\ nth_error (c :: rest) k = Some 93%N).
  { intros a d e f g Hs ->. destruct (IH _ _ _ _ _ _ _ Hs) as [k [Hk1 Hk2]].
    exists (S k). split; [lia | exact Hk2]. }
  repeat match type of H with
         | (if ?b then _ else _) = _ => destruct b eqn:?
         | ScanBreak _ = _ => discriminate H
         end;
    try (eapply Hrec; [exact H | reflexivity]).
  injection H as <-. exists 0%nat. split; [lia|].
  match goal with Hc : (c =? 93)%N = true |- _ => apply N.eqb_eq in Hc; now rewrite Hc end.
Qed.

End ExtractFacts.

(** X19. Whatever [extract_js_array] returns is a part of the page that
    starts with an opening bracket and ends with a closing bracket. *)
Theorem extract_js_array_bracketed (text : pystr) (start_pattern : regex)
    (array : pystr) :
  extract_js_array text start_pattern = Some array ->
  exists before inside after,
    text = before ++ array ++ after
    /\ array = py "[" ++ inside ++ py "]".
Proof.
  unfold extract_js_array.
  destruct (search start_pattern text) as [m|]; [|discriminate].
  set (p := find text (py "[") (m_end m - 10) (m_end m + 10)).
  destruct (p =? -1) eqn:Hp; [discriminate|]. apply Z.eqb_neq in Hp.
  destruct (find_bracket_spec text _ _ p eq_refl Hp) as [Hp0 [rest Hrest]].
  rewrite Hrest.
  destruct (scan (91%N :: rest) p p 0 false None false) as [j| |] eqn:Hs;
    try discriminate.
  intros H. injection H as <-.
  destruct (scan_found_spec _ _ _ _ _ _ _ _ Hs) as [k [Hj Hk]].
  destruct k as [|k]; [discriminate Hk|]. cbn [nth_error] in Hk.
  apply nth_error_split in Hk as (l1 & l2 & Hl & Hlen). subst rest.
  clear Hs.
  assert (Hlt : (Z.to_nat p < length text)%nat).
  { destruct (Nat.lt_ge_cases (Z.to_nat p) (length text)) as [Hlt | Hge];
      [exact Hlt|].
    rewrite skipn_all2 in Hrest by exact Hge. discriminate. }
  assert (Hlenr : length (skipn (Z.to_nat p) text)
                  = S (length l1 + S (length l2))).
  { rewrite Hrest. cbn [length]. rewrite length_app. reflexivity. }
  rewrite length_skipn in Hlenr.
  assert (Ha : slice_bound (len text) p = p).
  { unfold slice_bound, len. destruct (p <? 0) eqn:Hn;
      [apply Z.ltb_lt in Hn; lia | lia]. }
  assert (Hb : slice_bound (len text) (j + 1) = j + 1).
  { unfold slice_bound, len. destruct (j + 1 <? 0) eqn:Hn;
      [apply Z.ltb_lt in Hn; lia | lia]. }
  assert (Hslice : slice text p (j + 1) = 91%N :: l1 ++ [93%N]).
  { unfold slice. rewrite Ha, Hb, Hrest.
    replace (Z.to_nat (j + 1 - p)) with (S (length l1 + 1)) by lia.
    cbn [firstn]. f_equal.
    rewrite firstn_app, firstn_all2 by lia.
    replace (length l1 + 1 - length l1)%nat with 1%nat by lia. reflexivity. }
  rewrite Hslice.
  exists (firstn (Z.to_nat p) text), l1, l2. split; [|reflexivity].
  rewrite <- (firstn_skipn (Z.to_nat p) text) at 1. rewrite Hrest.
  cbn [app]. now rewrite <- app_assoc.
Qed.

Lemma extract_js_array_bracketed_witness :
  exists before inside after,
    page_text = before ++ page_array ++ after
    /\ page_array = py "[" ++ inside ++ py "]".
Proof.
  apply (extract_js_array_bracketed page_text (anchor "var events") page_array).
  vm_compute. reflexivity.
Defined.

(** X20. A string literal passes through the scanning loop without any
    effect on the depth: from outside a string, a quote, any characters
    other than that quote and the backslash, brackets included, and the
    same quote again leave the loop outside a string at the same depth,
    as long as the safety bound is not reached. *)
Theorem scan_skips_string_literal (quote : N) (body rest : pystr)
    (bracket_pos i depth : Z) :
  is_quote quote = true ->
  forallb (fun c => negb (c =? quote)%N && negb (c =? 92)%N) body = true ->
  i + len body + 2 - bracket_pos <= 500000 ->
  scan (quote :: body ++ quote :: rest) bracket_pos i depth false None false
  = scan rest bracket_pos (i + len body + 2) depth false None false.
Proof.
  intros Hq Hbody Hbound.
  assert (Hq92 : (quote =? 92)%N = false).
  { unfold is_quote in Hq. apply orb_true_iff in Hq.
    destruct Hq as [H | H]; apply N.eqb_eq in H; now subst. }
  assert (Hin : forall body i,
             forallb (fun c => negb (c =? quote)%N && negb (c =? 92)%N) body = true ->
             i + len body + 1 - bracket_pos <= 500000 ->
             scan (body ++ quote :: rest) bracket_pos i depth true (Some quote) false
             = scan rest bracket_pos (i + len body + 1) depth false None false).
  { clear Hbody Hbound body i. unfold len.
    induction body as [|c body IH]; intros i Hb Hlim.
    - cbn [app scan length]. rewrite Hq92, Hq. cbn [negb andb is_string_char].
      rewrite N.eqb_refl. cbn [andb].
      assert (Hc : (i + 1 - bracket_pos >? 500000) = false)
        by (rewrite Z.gtb_ltb; apply Z.ltb_ge; cbn [length] in Hlim; lia).
      rewrite Hc. f_equal. cbn [length]. lia.
    - cbn [forallb] in Hb. apply andb_true_iff in Hb as [Hc Hb].
      apply andb_true_iff in Hc as [Hc1 Hc2].
      apply negb_true_iff in Hc1, Hc2.
      cbn [app scan]. rewrite Hc2. cbn [negb is_string_char].
      rewrite andb_false_r, Hc1. cbn [andb].
      assert (Hlt : (i + 1 - bracket_pos >? 500000) = false)
        by (rewrite Z.gtb_ltb; apply Z.ltb_ge; cbn [length] in Hlim; lia).
      rewrite Hlt. rewrite IH; [|exact Hb | cbn [length] in Hlim; lia].
      f_equal. cbn [length]. lia. }
  cbn [scan]. rewrite Hq92, Hq. cbn [negb andb].
  assert (Hlt : (i + 1 - bracket_pos >? 500000) = false)
    by (rewrite Z.gtb_ltb; apply Z.ltb_ge; unfold len in Hbound; lia).
  rewrite Hlt. rewrite Hin; [|exact Hbody | lia].
  f_equal. lia.
Qed.

Lemma scan_skips_string_literal_witness :
  scan (34%N :: py "x]y[[" ++ 34%N :: py "]") 0 1 1 false None false
  = scan (py "]") 0 (1 + len (py "x]y[[") + 2) 1 false None false.
Proof.
  apply (scan_skips_string_literal 34 (py "x]y[[") (py "]") 0 1 1);
    [reflexivity | reflexivity | vm_compute; discriminate].
Defined.

(** ** The strategies of the Spektrix scraper *)

Section ChainFacts.
Import Fetch FetchSpec SpektrixChain.
Context {E : Externals}.
Variable net : network.
Variable loads : pystr -> exc value.
Variable parser : response -> exc unit.
Variable self : spektrix_scraper.

Lemma fetch_page_accepted (url : pystr) (tr : trace) (r : response) :
  0 < retry_count (policy self) ->
  accepted (net (requests_made tr) (full_url (base self) url)) = Some r ->
  fetch_page net (base self) (policy self) url tr
  = (Return (Some r),
     tr ++ [Request (full_url (base self) url); Sleep 1]).
Proof.
  intros Hrc Hok. unfold fetch_page.
  destruct (Z.to_nat (retry_count (policy self))) as [|n] eqn:Hn; [lia|].
  cbn [fetch_loop].
  destruct (net (requests_made tr) (full_url (base self) url))
    as [r0| | | |e]; try discriminate Hok.
  cbn [accepted] in Hok. destruct (is_http_error r0); [discriminate|].
  injection Hok as ->. unfold io_bind, sleep, io_ret. simpl.
  now rewrite <- app_assoc.
Qed.

Lemma fetch_page_refused (url : pystr) (tr : trace) :
  0 < retry_count (policy self) ->
  refused (net (requests_made tr) (full_url (base self) url)) = true ->
  fetch_page net (base self) (policy self) url tr
  = (Return None, tr ++ [Request (full_url (base self) url)]).
Proof.
  intros Hrc Hno. unfold fetch_page.
  destruct (Z.to_nat (retry_count (policy self))) as [|n] eqn:Hn; [lia|].
  cbn [fetch_loop].
  destruct (net (requests_made tr) (full_url (base self) url))
    as [r0| | | |e]; try discriminate Hno.
  cbn [refused] in Hno. rewrite Hno.
  assert (Hh : is_http_error r0 = true).
  { unfold is_http_error. apply orb_true_iff in Hno.
    destruct Hno as [H | H]; apply Z.eqb_eq in H; rewrite H; reflexivity. }
  now rewrite Hh.
Qed.

Lemma accepted_no_error (o : request_outcome) (r : response) :
  accepted o = Some r -> is_http_error r = false.
Proof.
  destruct o as [r0| | | |e]; try discriminate. cbn [accepted].
  destruct (is_http_error r0) eqn:Hh; [discriminate|]. now intros [= <-].
Qed.

Lemma api_round_budget (url : pystr) (tr : trace) :
  (requests_made (snd (api_round net self url tr))
   <= requests_made tr + Z.to_nat (retry_count (policy self)))%nat.
Proof.
  unfold api_round, io_try, api_attempt, io_bind.
  pose proof (fetch_loop_budget net (policy self)
                (full_url (base self) url)
                (Z.to_nat (retry_count (policy self))) 0 tr) as Hb.
  fold (fetch_page net (base self) (policy self) url) in Hb.
  destruct (fetch_page net (base self) (policy self) url tr)
    as [[[r|]|e] tr']; cbn [snd] in Hb.
  - destruct (negb (is_http_error r) && (status_code r =? 200)).
    + unfold lift.
      destruct (data <- resp_json r ;; events <- items (events_of data) ;;
                parse_all self events) as [l|e]; [exact Hb|].
      destruct (is_Exception (exn_cls e)); exact Hb.
    + exact Hb.
  - exact Hb.
  - destruct (is_Exception (exn_cls e)); exact Hb.
Qed.

Lemma api_loop_budget (urls : list pystr) :
  forall tr,
    (requests_made (snd (api_loop net self urls tr))
     <= requests_made tr
        + length urls * Z.to_nat (retry_count (policy self)))%nat.
Proof.
  induction urls as [|url urls IH]; intros tr.
  - cbn [api_loop]. unfold io_ret. cbn [snd]. lia.
  - cbn [api_loop]. unfold io_bind.
    change (length (url :: urls) * ?n)%nat with (n + length urls * n)%nat.
    pose proof (api_round_budget url tr) as Hb.
    destruct (api_round net self url tr) as [[[|s ss]|e] tr'];
      cbn [snd] in Hb |- *.
    + specialize (IH tr'). lia.
    + unfold io_ret. cbn [snd]. lia.
    + lia.
Qed.

Lemma page_budget (tr : trace) :
  (requests_made (snd (_scrape_from_page net loads parser self tr))
   <= requests_made tr + Z.to_nat (retry_count (policy self)))%nat.
Proof.
  unfold _scrape_from_page, io_try, io_bind.
  pose proof (fetch_loop_budget net (policy self)
                (full_url (base self) (self_base_url (base self)))
                (Z.to_nat (retry_count (policy self))) 0 tr) as Hb.
  fold (fetch_page net (base self) (policy self) (self_base_url (base self)))
    in Hb.
  destruct (fetch_page net (base self) (policy self)
              (self_base_url (base self)) tr)
    as [[[r|]|e] tr']; cbn [snd] in Hb.
  - destruct (is_http_error r); [exact Hb|]. unfold lift.
    destruct (soup <- parser r ;; page_loop loads self (resp_text r) var_keywords)
      as [l|e]; [exact Hb|].
    destruct (is_Exception (exn_cls e)); exact Hb.
  - exact Hb.
  - destruct (is_Exception (exn_cls e)); exact Hb.
Qed.

(** No [Exception] leaves the two strategies. *)
Lemma api_loop_raises (urls : list pystr) :
  forall tr e tr',
    api_loop net self urls tr = (Raise e, tr') ->
    is_Exception (exn_cls e) = false.
Proof.
  induction urls as [|url urls IH]; intros tr e tr' H.
  - discriminate H.
  - cbn [api_loop] in H. unfold io_bind, api_round, io_try in H.
    destruct (api_attempt net self url tr) as [[l|e0] tr0].
    + destruct l; [exact (IH _ _ _ H) | discriminate H].
    + destruct (is_Exception (exn_cls e0)) eqn:He.
      * cbn in H. exact (IH _ _ _ H).
      * injection H as <- _. exact He.
Qed.

Lemma page_raises (tr : trace) (e : exn) (tr' : trace) :
  _scrape_from_page net loads parser self tr = (Raise e, tr') ->
  is_Exception (exn_cls e) = false.
Proof.
  unfold _scrape_from_page, io_try. intros H.
  destruct (io_bind _ _ tr) as [[l|e0] tr0]; [discriminate|].
  destruct (is_Exception (exn_cls e0)) eqn:He; [discriminate|].
  injection H as <- _. exact He.
Qed.

End ChainFacts.

Section ChainSteps.
Import Fetch FetchSpec SpektrixChain.
Context {E : Externals}.
Variable net : network.
Variable loads : pystr -> exc value.
Variable parser : response -> exc unit.
Variable self : spektrix_scraper.

Lemma api_round_refused (url : pystr) (tr : trace) :
  0 < retry_count (policy self) ->
  refused (net (requests_made tr) (full_url (base self) url)) = true ->
  api_round net self url tr
  = (Return [], tr ++ [Request (full_url (base self) url)]).
Proof.
  intros Hrc Hno. unfold api_round, io_try, api_attempt, io_bind.
  now rewrite (fetch_page_refused net self url tr Hrc Hno).
Qed.

Lemma api_round_found (url : pystr) (tr : trace) (r : response)
    (data : value) (events : list value) (found : list Show) :
  0 < retry_count (policy self) ->
  accepted (net (requests_made tr) (full_url (base self) url)) = Some r ->
  status_code r = 200 ->
  resp_json r = Return data ->
  items (events_of data) = Return events ->
  parse_all self events = Return found ->
  api_round net self url tr
  = (Return found, tr ++ [Request (full_url (base self) url); Sleep 1]).
Proof.
  intros Hrc Hok Hs Hj Hi Hp. unfold api_round, io_try, api_attempt, io_bind.
  rewrite (fetch_page_accepted net self url tr r Hrc Hok).
  rewrite (accepted_no_error _ _ Hok), Hs. cbn [negb andb Z.eqb Pos.eqb].
  unfold lift. rewrite Hj. cbn [bind]. rewrite Hi. cbn [bind]. now rewrite Hp.
Qed.

Lemma api_loop_refused (urls : list pystr) :
  forall tr,
    0 < retry_count (policy self) ->
    (forall j u, nth_error urls j = Some u ->
       refused (net (requests_made tr + j)%nat (full_url (base self) u)) = true) ->
    api_loop net self urls tr
    = (Return [],
       tr ++ map (fun u => Request (full_url (base self) u)) urls).
Proof.
  induction urls as [|url urls IH]; intros tr Hrc Hno.
  - cbn [api_loop map]. unfold io_ret. now rewrite app_nil_r.
  - cbn [api_loop map]. unfold io_bind.
    rewrite api_round_refused; [|exact Hrc|].
    + rewrite IH; [|exact Hrc|].
      * now rewrite <- app_assoc.
      * intros j u Hu. rewrite requests_made_request.
        replace (S (requests_made tr) + j)%nat
          with (requests_made tr + S j)%nat by lia.
        apply Hno. exact Hu.
    + specialize (Hno 0%nat url eq_refl). now rewrite Nat.add_0_r in Hno.
Qed.

Lemma api_loop_first_found (pre : list pystr) (url : pystr) (post : list pystr)
    (r : response) (data : value) (events : list value)
    (s : Show) (ss : list Show) :
  forall tr,
    0 < retry_count (policy self) ->
    (forall j u, nth_error pre j = Some u ->
       refused (net (requests_made tr + j)%nat (full_url (base self) u)) = true) ->
    accepted (net (requests_made tr + length pre)%nat
                (full_url (base self) url)) = Some r ->
    status_code r = 200 ->
    resp_json r = Return data ->
    items (events_of data) = Return events ->
    parse_all self events = Return (s :: ss) ->
    api_loop net self (pre ++ url :: post) tr
    = (Return (s :: ss),
       tr ++ map (fun u => Request (full_url (base self) u)) pre
          ++ [Request (full_url (base self) url); Sleep 1]).
Proof.
  induction pre as [|p pre IH]; intros tr Hrc Hno Hok Hs Hj Hi Hp.
  - cbn [app api_loop map length] in *. rewrite Nat.add_0_r in Hok.
    unfold io_bind.
    now rewrite (api_round_found url tr r data events (s :: ss) Hrc Hok Hs Hj Hi Hp).
  - cbn [app api_loop map]. unfold io_bind.
    rewrite api_round_refused; [|exact Hrc|].
    + rewrite IH; try assumption.
      * now rewrite <- app_assoc.
      * intros j u Hu. rewrite requests_made_request.
        replace (S (requests_made tr) + j)%nat
          with (requests_made tr + S j)%nat by lia.
        apply Hno. exact Hu.
      * rewrite requests_made_request.
        replace (S (requests_made tr) + length pre)%nat
          with (requests_made tr + length (p :: pre))%nat by (cbn [length]; lia).
        exact Hok.
    + specialize (Hno 0%nat p eq_refl). now rewrite Nat.add_0_r in Hno.
Qed.

End ChainSteps.

(** X21. [run] on the Spektrix scraper: the result says success exactly
    when it has shows.  With shows it has no error, and its warnings are
    those of [validate_show]; without shows it has the error [No shows
    found via API or page scraping] and the one warning of [scrape].  No
    [Exception] leaves the two strategies, so the handler of [run] is
    never the source of the result. *)
Theorem scrape_run_result (E : Externals) (net : Fetch.network)
    (loads : pystr -> exc value) (parser : Fetch.response -> exc unit)
    (self : SpektrixChain.spektrix_scraper)
    (tr : Fetch.trace) :
  match run (SpektrixChain.base self)
          (fst (SpektrixChain.scrape net loads parser self tr)) with
  | Return r =>
      r_theater_name r = self_theater_name (SpektrixChain.base self)
      /\ ((shows r <> [] /\ success r = true /\ error r = None
           /\ warnings r = flat_map validate_show (shows r))
          \/ (shows r = [] /\ success r = false
              /\ error r = Some (py "No shows found via API or page scraping")
              /\ warnings r = [py "Could not find any event data"]))
  | Raise e => is_Exception (exn_cls e) = false
  end.
Proof.
  unfold SpektrixChain.scrape, SpektrixChain._scrape_from_api, Fetch.io_bind.
  destruct (SpektrixChain.api_loop net self (SpektrixChain.endpoints self) tr)
    as [[[|s ss]|e] tr1] eqn:Hapi.
  - destruct (SpektrixChain._scrape_from_page net loads parser self tr1)
      as [[[|s ss]|e] tr2] eqn:Hpage.
    + cbn. split; [reflexivity|]. right. repeat split.
    + cbn. split; [reflexivity|]. left. repeat split. discriminate.
    + cbn [fst]. unfold run, try_except. cbn [bind].
      pose proof (page_raises net loads parser self tr1 e tr2 Hpage) as He.
      rewrite He. exact He.
  - cbn. split; [reflexivity|]. left. repeat split. discriminate.
  - cbn [fst]. unfold run, try_except. cbn [bind].
    pose proof (api_loop_raises net self _ tr e tr1 Hapi) as He.
    rewrite He. exact He.
Qed.

(** X22. A call of [scrape] makes at most four times [retry_count]
    requests: three endpoints and the page, each fetched once. *)
Theorem scrape_request_budget (E : Externals) (net : Fetch.network)
    (loads : pystr -> exc value) (parser : Fetch.response -> exc unit)
    (self : SpektrixChain.spektrix_scraper)
    (tr : Fetch.trace) :
  (Fetch.requests_made (snd (SpektrixChain.scrape net loads parser self tr))
   <= Fetch.requests_made tr
      + 4 * Z.to_nat (Fetch.retry_count (SpektrixChain.policy self)))%nat.
Proof.
  unfold SpektrixChain.scrape, SpektrixChain._scrape_from_api, Fetch.io_bind.
  pose proof (api_loop_budget net self (SpektrixChain.endpoints self) tr) as Ha.
  cbn [SpektrixChain.endpoints length] in Ha.
  destruct (SpektrixChain.api_loop net self (SpektrixChain.endpoints self) tr)
    as [[[|s ss]|e] tr1]; cbn [snd] in Ha.
  - pose proof (page_budget net loads parser self tr1) as Hp.
    destruct (SpektrixChain._scrape_from_page net loads parser self tr1)
      as [[l|e] tr2]; cbn [snd] in Hp.
    + unfold Fetch.io_ret. cbn [snd]. lia.
    + cbn [snd]. lia.
  - unfold Fetch.io_ret. cbn [snd]. lia.
  - cbn [snd]. lia.
Qed.

(** X23. The API comes first, and its endpoints in their order: when the
    endpoints before one are answered 403 or 404 and that one is answered
    200 with data whose events give shows, [scrape] returns these shows as
    a success.  It has asked each endpoint up to that one once, paused one
    second, and has asked neither the later endpoints nor the page. *)
Theorem scrape_api_first (E : Externals) (net : Fetch.network)
    (loads : pystr -> exc value) (parser : Fetch.response -> exc unit)
    (self : SpektrixChain.spektrix_scraper)
    (tr : Fetch.trace) (pre : list pystr) (url : pystr) (post : list pystr)
    (r : Fetch.response) (data : value) (events : list value)
    (s : Show) (ss : list Show) :
  0 < Fetch.retry_count (SpektrixChain.policy self) ->
  SpektrixChain.endpoints self = pre ++ url :: post ->
  (forall j u, nth_error pre j = Some u ->
     FetchSpec.refused
       (net (Fetch.requests_made tr + j)%nat
            (Fetch.full_url (SpektrixChain.base self) u)) = true) ->
  FetchSpec.accepted
    (net (Fetch.requests_made tr + length pre)%nat
         (Fetch.full_url (SpektrixChain.base self) url)) = Some r ->
  Fetch.status_code r = 200 ->
  Fetch.resp_json r = Return data ->
  SpektrixChain.items (SpektrixChain.events_of data) = Return events ->
  SpektrixChain.parse_all self events = Return (s :: ss) ->
  exists result,
    SpektrixChain.scrape net loads parser self tr
    = (Return result,
       tr ++ map (fun u => Fetch.Request
                             (Fetch.full_url (SpektrixChain.base self) u)) pre
          ++ [Fetch.Request (Fetch.full_url (SpektrixChain.base self) url);
              Fetch.Sleep 1])
    /\ success result = true /\ shows result = s :: ss
    /\ error result = None /\ warnings result = [].
Proof.
  intros Hrc He Hno Hok Hs Hj Hi Hp.
  unfold SpektrixChain.scrape, SpektrixChain._scrape_from_api, Fetch.io_bind.
  rewrite He.
  rewrite (api_loop_first_found net self pre url post r data events s ss tr
             Hrc Hno Hok Hs Hj Hi Hp).
  unfold Fetch.io_ret. eexists. split; [reflexivity|]. repeat split.
Qed.

Lemma scrape_api_first_witness :
  exists result,
    SpektrixChain.scrape (E := Model.externals Model.a_day)
      ChainSpec.api_site ChainSpec.json_loads ChainSpec.html_parser
      ChainSpec.nytw []
    = (Return result,
       [ Fetch.Request (py "https://www.nytw.org/wp-json/spektrix/v1/events");
         Fetch.Sleep 1 ])
    /\ success result = true
    /\ map show_title (shows result) = [py "Hamlet"].
Proof.
  edestruct (scrape_api_first (Model.externals Model.a_day)
              ChainSpec.api_site ChainSpec.json_loads ChainSpec.html_parser
              ChainSpec.nytw []
              [] (py "https://www.nytw.org/wp-json/spektrix/v1/events")
              [ py "https://www.nytw.org/wp-json/spektrix/v1/performances";
                py "https://www.nytw.org/wp-json/spektrix/v1/calendar" ]
              (Fetch.mkResponse 200 []
                 (Return (PDict [ (py "events", PList []);
                                  (py "performances",
                                   PList [ PDict [ (py "title", PStr (py "Hamlet")) ] ]) ])))
              (PDict [ (py "events", PList []);
                       (py "performances",
                        PList [ PDict [ (py "title", PStr (py "Hamlet")) ] ]) ])
              [ PDict [ (py "title", PStr (py "Hamlet")) ] ])
    as (result & Hrun & Hsucc & Hshows & _).
  - vm_compute. reflexivity.
  - vm_compute. reflexivity.
  - intros [|j] u Hu; discriminate Hu.
  - vm_compute. reflexivity.
  - reflexivity.
  - reflexivity.
  - vm_compute. reflexivity.
  - vm_compute. reflexivity.
  - exists result. split; [exact Hrun|]. split; [exact Hsucc|].
    rewrite Hshows. vm_compute. reflexivity.
Defined.

(** X24. The page is the fallback.  When the API strategy returns no show
    and the request of the base URL is accepted, the page is asked once,
    after the requests of the API strategy, and one second of pause
    follows.  When the parser of [BeautifulSoup] accepts the page and the
    loop over the keywords [var events], [const events], [let events]
    finds shows in its text, [scrape] returns them as a success.  When the
    parser raises an [Exception], the text of the page is not looked at:
    [scrape] returns the failure [No shows found via API or page
    scraping]. *)
Theorem scrape_falls_back_to_page (E : Externals) (net : Fetch.network)
    (loads : pystr -> exc value) (parser : Fetch.response -> exc unit)
    (self : SpektrixChain.spektrix_scraper)
    (tr tr1 : Fetch.trace) (r : Fetch.response) :
  0 < Fetch.retry_count (SpektrixChain.policy self) ->
  SpektrixChain._scrape_from_api net self tr = (Return [], tr1) ->
  FetchSpec.accepted
    (net (Fetch.requests_made tr1)
         (Fetch.full_url (SpektrixChain.base self)
            (self_base_url (SpektrixChain.base self)))) = Some r ->
  let tr2 := tr1 ++ [Fetch.Request
                       (Fetch.full_url (SpektrixChain.base self)
                          (self_base_url (SpektrixChain.base self)));
                     Fetch.Sleep 1] in
  (forall s ss,
      parser r = Return tt ->
      SpektrixChain.page_loop loads self (Fetch.resp_text r) var_keywords
      = Return (s :: ss) ->
      exists result,
        SpektrixChain.scrape net loads parser self tr = (Return result, tr2)
        /\ success result = true /\ shows result = s :: ss
        /\ error result = None /\ warnings result = [])
  /\ (forall e,
      parser r = Raise e -> is_Exception (exn_cls e) = true ->
      exists result,
        SpektrixChain.scrape net loads parser self tr = (Return result, tr2)
        /\ success result = false /\ shows result = []
        /\ error result = Some (py "No shows found via API or page scraping")
        /\ warnings result = [py "Could not find any event data"]).
Proof.
  intros Hrc Hapi Hok tr2. subst tr2. split.
  - intros s ss Hparse Hp.
    unfold SpektrixChain.scrape, Fetch.io_bind. rewrite Hapi.
    unfold SpektrixChain._scrape_from_page, Fetch.io_try, Fetch.io_bind.
    rewrite (fetch_page_accepted net self _ tr1 r Hrc Hok).
    rewrite (accepted_no_error _ _ Hok). unfold SpektrixChain.lift.
    rewrite Hparse. cbn [bind]. rewrite Hp. unfold Fetch.io_ret.
    eexists. split; [reflexivity|]. repeat split.
  - intros e Hparse He.
    unfold SpektrixChain.scrape, Fetch.io_bind. rewrite Hapi.
    unfold SpektrixChain._scrape_from_page, Fetch.io_try, Fetch.io_bind.
    rewrite (fetch_page_accepted net self _ tr1 r Hrc Hok).
    rewrite (accepted_no_error _ _ Hok). unfold SpektrixChain.lift.
    rewrite Hparse. cbn [bind]. rewrite He. unfold Fetch.io_ret.
    eexists. split; [reflexivity|]. repeat split.
Qed.

Lemma scrape_falls_back_to_page_witness :
  (exists result,
      SpektrixChain.scrape (E := Model.externals Model.a_day)
        (ChainSpec.page_site ChainSpec.events_page) ChainSpec.json_loads
        ChainSpec.html_parser ChainSpec.nytw []
      = (Return result,
         [ Fetch.Request (py "https://www.nytw.org/wp-json/spektrix/v1/events");
           Fetch.Request (py "https://www.nytw.org/wp-json/spektrix/v1/performances");
           Fetch.Request (py "https://www.nytw.org/wp-json/spektrix/v1/calendar");
           Fetch.Request (py "https://www.nytw.org");
           Fetch.Sleep 1 ])
      /\ success result = true
      /\ map show_title (shows result) = [py "Hamlet"]
      /\ map venue (shows result) = [Some (py "Main")])
  /\ (exists result,
      SpektrixChain.scrape (E := Model.externals Model.a_day)
        (ChainSpec.page_site ChainSpec.marked_page) ChainSpec.json_loads
        ChainSpec.html_parser ChainSpec.nytw []
      = (Return result,
         [ Fetch.Request (py "https://www.nytw.org/wp-json/spektrix/v1/events");
           Fetch.Request (py "https://www.nytw.org/wp-json/spektrix/v1/performances");
           Fetch.Request (py "https://www.nytw.org/wp-json/spektrix/v1/calendar");
           Fetch.Request (py "https://www.nytw.org");
           Fetch.Sleep 1 ])
      /\ success result = false /\ shows result = []).
Proof.
  split.
  - destruct (scrape_falls_back_to_page (Model.externals Model.a_day)
                (ChainSpec.page_site ChainSpec.events_page) ChainSpec.json_loads
                ChainSpec.html_parser ChainSpec.nytw []
                [ Fetch.Request (py "https://www.nytw.org/wp-json/spektrix/v1/events");
                  Fetch.Request (py "https://www.nytw.org/wp-json/spektrix/v1/performances");
                  Fetch.Request (py "https://www.nytw.org/wp-json/spektrix/v1/calendar") ]
                (Fetch.mkResponse 200 ChainSpec.events_page ChainSpec.not_json))
      as [Hfound _].
    + vm_compute. reflexivity.
    + vm_compute. reflexivity.
    + vm_compute. reflexivity.
    + edestruct Hfound as (result & Hrun & Hsucc & Hshows & _).
      * vm_compute. reflexivity.
      * vm_compute. reflexivity.
      * exists result. split; [exact Hrun|]. split; [exact Hsucc|].
        rewrite Hshows. split; vm_compute; reflexivity.
  - destruct (scrape_falls_back_to_page (Model.externals Model.a_day)
                (ChainSpec.page_site ChainSpec.marked_page) ChainSpec.json_loads
                ChainSpec.html_parser ChainSpec.nytw []
                [ Fetch.Request (py "https://www.nytw.org/wp-json/spektrix/v1/events");
                  Fetch.Request (py "https://www.nytw.org/wp-json/spektrix/v1/performances");
                  Fetch.Request (py "https://www.nytw.org/wp-json/spektrix/v1/calendar") ]
                (Fetch.mkResponse 200 ChainSpec.marked_page ChainSpec.not_json))
      as [_ Hfail].
    + vm_compute. reflexivity.
    + vm_compute. reflexivity.
    + vm_compute. reflexivity.
    + edestruct Hfail as (result & Hrun & Hsucc & Hshows & _).
      * vm_compute. reflexivity.
      * reflexivity.
      * exists result. split; [exact Hrun|]. split; [exact Hsucc|exact Hshows].
Defined.

(** X25. When the three endpoints and the page are all answered 403 or
    404, [scrape] asks each of the four once, in this order, without a
    pause and without a retry, and returns the failure [No shows found via
    API or page scraping] with the warning [Could not find any event
    data]. *)
Theorem scrape_nothing_found (E : Externals) (net : Fetch.network)
    (loads : pystr -> exc value) (parser : Fetch.response -> exc unit)
    (self : SpektrixChain.spektrix_scraper)
    (tr : Fetch.trace) :
  0 < Fetch.retry_count (SpektrixChain.policy self) ->
  (forall j u,
     nth_error (SpektrixChain.endpoints self
                ++ [self_base_url (SpektrixChain.base self)]) j = Some u ->
     FetchSpec.refused
       (net (Fetch.requests_made tr + j)%nat
            (Fetch.full_url (SpektrixChain.base self) u)) = true) ->
  exists result,
    SpektrixChain.scrape net loads parser self tr
    = (Return result,
       tr ++ map (fun u => Fetch.Request
                             (Fetch.full_url (SpektrixChain.base self) u))
               (SpektrixChain.endpoints self
                ++ [self_base_url (SpektrixChain.base self)]))
    /\ success result = false /\ shows result = []
    /\ error result = Some (py "No shows found via API or page scraping")
    /\ warnings result = [py "Could not find any event data"].
Proof.
  intros Hrc Hno.
  unfold SpektrixChain.scrape, SpektrixChain._scrape_from_api, Fetch.io_bind.
  rewrite (api_loop_refused net self (SpektrixChain.endpoints self) tr Hrc).
  - unfold SpektrixChain._scrape_from_page, Fetch.io_try, Fetch.io_bind.
    rewrite (fetch_page_refused net self _ _ Hrc).
    + unfold Fetch.io_ret. eexists.
      split; [rewrite map_app, app_assoc; reflexivity|]. repeat split.
    + rewrite requests_made_app.
      replace (Fetch.requests_made
                 (map (fun u => Fetch.Request
                                  (Fetch.full_url (SpektrixChain.base self) u))
                    (SpektrixChain.endpoints self)))
        with 3%nat by reflexivity.
      apply Hno. reflexivity.
  - intros j u Hu. apply Hno.
    rewrite nth_error_app1; [exact Hu|].
    apply nth_error_Some. congruence.
Qed.

Lemma scrape_nothing_found_witness :
  exists result,
    SpektrixChain.scrape (E := Model.externals Model.a_day)
      (FetchSpec.always 404) ChainSpec.json_loads ChainSpec.html_parser
      ChainSpec.nytw []
    = (Return result,
       [ Fetch.Request (py "https://www.nytw.org/wp-json/spektrix/v1/events");
         Fetch.Request (py "https://www.nytw.org/wp-json/spektrix/v1/performances");
         Fetch.Request (py "https://www.nytw.org/wp-json/spektrix/v1/calendar");
         Fetch.Request (py "https://www.nytw.org") ])
    /\ success result = false.
Proof.
  destruct (scrape_nothing_found (Model.externals Model.a_day)
              (FetchSpec.always 404) ChainSpec.json_loads
              ChainSpec.html_parser ChainSpec.nytw [])
    as (result & Hrun & Hfail & _).
  - vm_compute. reflexivity.
  - intros j u Hu. reflexivity.
  - exists result. split; [exact Hrun | exact Hfail].
Defined.

(** ** Runtimes *)

Section RuntimeFacts.
Import ParsingSpec Runtime RuntimeSpec.

(** The examples of the docstring of [extract_runtime]. *)
Example extract_runtime_docstring :
  map (extract_runtime (E := Model.externals Model.a_day) int_ascii)
      [py "90 minutes"; py "2 hours"; py "1hr 30min"]
  = [ Return (Some (py "90 minutes")); Return (Some (py "2 hours"));
      Return (Some (py "1 hour 30 minutes")) ].
Proof. vm_compute. reflexivity. Qed.

Lemma Lit_i_h_or_m (c x : N) :
  (c = 104 \/ c = 109)%N -> eq_ignorecase c x = true -> is_h_or_m x = true.
Proof.
  unfold is_h_or_m. intros [-> | ->] H; rewrite H; [reflexivity|].
  apply orb_true_r.
Qed.

Lemma hour_word_letter : requires is_h_or_m hour_word.
Proof.
  left. split; left; intros c; apply Lit_i_h_or_m; now left.
Qed.

Lemma minute_word_letter : requires is_h_or_m minute_word.
Proof.
  left. split; left; intros c; apply Lit_i_h_or_m; now right.
Qed.

End RuntimeFacts.

(** X26. [extract_runtime] returns [None] for every text without a decimal
    digit, and for every text that has neither the letter h nor the letter
    m in either case: both of its patterns need a number and one of the
    words for hours and minutes.  The conversion of the number is not
    reached. *)
Theorem extract_runtime_needs (E : Externals) (int : pystr -> exc Z)
    (text : pystr) :
  existsb is_digit text = false
  \/ existsb RuntimeSpec.is_h_or_m text = false ->
  Runtime.extract_runtime int text = Return None.
Proof.
  intros H. unfold Runtime.extract_runtime.
  destruct text as [|c text]; [reflexivity|]. unfold search.
  destruct H as [H | H].
  - rewrite (search_requires is_digit Runtime.hours_minutes _ 0);
      [|left; left; now intros x | exact H].
    rewrite (search_requires is_digit Runtime.minutes_pattern _ 0);
      [|left; left; now intros x | exact H].
    reflexivity.
  - rewrite (search_requires RuntimeSpec.is_h_or_m Runtime.hours_minutes _ 0);
      [|right; right; left; exact hour_word_letter | exact H].
    rewrite (search_requires RuntimeSpec.is_h_or_m Runtime.minutes_pattern _ 0);
      [|right; right; exact minute_word_letter | exact H].
    reflexivity.
Qed.

Lemma extract_runtime_needs_witness :
  Runtime.extract_runtime (E := Model.externals Model.a_day)
    RuntimeSpec.int_ascii (py "ninety minutes, no interval") = Return None
  /\ Runtime.extract_runtime (E := Model.externals Model.a_day)
       RuntimeSpec.int_ascii (py "90'") = Return None.
Proof.
  split.
  - apply (extract_runtime_needs (Model.externals Model.a_day)
             RuntimeSpec.int_ascii (py "ninety minutes, no interval")).
    left. reflexivity.
  - apply (extract_runtime_needs (Model.externals Model.a_day)
             RuntimeSpec.int_ascii (py "90'")).
    right. reflexivity.
Defined.

(** ** Relative URLs *)

Section RelativeUrl.

Lemma startswith_app (a b p : pystr) :
  startswith a p = true -> startswith (a ++ b) p = true.
Proof.
  rewrite !startswith_spec. intros [r ->]. exists (r ++ b).
  now rewrite app_assoc.
Qed.

Lemma normalize_url_fixed (u b : pystr) :
  startswith u (py "http://") || startswith u (py "https://") = true ->
  normalize_url u b = u.
Proof.
  intros H. unfold normalize_url. destruct u as [|c u]; [reflexivity|].
  now rewrite H.
Qed.

End RelativeUrl.

(** X27. [normalize_url] on a relative URL: a URL that is not empty and
    starts with none of [http://], [https://] and [//] is put behind the
    base URL with exactly one slash between them; the slashes that end the
    base URL and the one slash that may start the URL are dropped.  When
    the base URL without its trailing slashes starts with [http://] or
    [https://], the result is absolute: [normalize_url] returns it
    unchanged, whatever the base. *)
Theorem normalize_url_relative (url base_url : pystr) :
  url <> [] ->
  startswith url (py "http://") || startswith url (py "https://")
  || startswith url (py "//") = false ->
  (exists base path i j,
      base_url = base ++ repeat 47%N i
      /\ url = repeat 47%N j ++ path
      /\ (j <= 1)%nat
      /\ hd_error (rev base) <> Some 47%N
      /\ hd_error path <> Some 47%N
      /\ normalize_url url base_url = base ++ py "/" ++ path)
  /\ (startswith (rstrip_char 47%N base_url) (py "http://")
      || startswith (rstrip_char 47%N base_url) (py "https://") = true ->
      forall base_url',
        normalize_url (normalize_url url base_url) base_url'
        = normalize_url url base_url).
Proof.
  intros Hne Hrel.
  apply orb_false_iff in Hrel as [Habs Hproto].
  assert (Hnorm : normalize_url url base_url
                  = rstrip_char 47%N base_url ++ py "/" ++ lstrip_char 47%N url).
  { unfold normalize_url. destruct url as [|c url]; [congruence|].
    now rewrite Habs, Hproto. }
  split.
  - destruct (rstrip_char_split 47 base_url) as [i [H1 H2]].
    destruct (lstrip_char_split 47 url) as [j [H3 H4]].
    exists (rstrip_char 47 base_url), (lstrip_char 47 url), i, j.
    repeat split; try assumption.
    destruct j as [|[|j]]; [lia | lia |]. exfalso.
    assert (Hs : startswith url (py "//") = true).
    { apply startswith_spec.
      exists (repeat 47%N j ++ lstrip_char 47 url).
      rewrite H3 at 1. reflexivity. }
    congruence.
  - intros Hb base_url'. rewrite Hnorm. apply normalize_url_fixed.
    apply orb_true_iff in Hb as [Hb | Hb]; apply orb_true_iff;
      [left | right]; apply startswith_app; exact Hb.
Qed.

Lemma normalize_url_relative_witness :
  normalize_url (py "/shows/hamlet") (py "https://www.nytw.org//")
  = py "https://www.nytw.org/shows/hamlet"
  /\ normalize_url
       (normalize_url (py "/shows/hamlet") (py "https://www.nytw.org//"))
       (py "https://elsewhere.org")
     = normalize_url (py "/shows/hamlet") (py "https://www.nytw.org//").
Proof.
  destruct (normalize_url_relative (py "/shows/hamlet")
              (py "https://www.nytw.org//"))
    as [(base & path & i & j & Hb & Hu & Hj & Hbase & Hpath & Hn) H].
  - discriminate.
  - reflexivity.
  - split.
    + reflexivity.
    + apply H. reflexivity.
Defined.
